(** * CR95HF NFC/RFID transceiver driver (circuitpython_yoto/cr95hf.py)

    A shallow embedding of the [CR95HF] class: the transport framer
    ([_flush_rx], [_send_cmd], [_read_response]), bring-up ([echo_test],
    [_initialize]) and ISO14443-A discovery ([_reqa_wupa], [_anticoll_cl1],
    [_select_cl1], [_anticoll_cl2], [_select_cl2], [read_tag]), together
    with [field_off].

    The driver talks to two collaborators: a UART ([in_waiting], [read],
    [write]) and the monotonic clock.  Both are part of the [machine] state.
    What the outside world does (time passing, bytes arriving on the line)
    is a schedule of [tick]s; one tick is consumed each time the driver
    observes the world (a poll of [in_waiting], a clock reading, a sleep).
    Since [uart.read(n)] is only ever called with [n] at most the count
    last returned by [in_waiting], and bytes arriving later never change the
    first [n] buffered bytes, nothing is lost by letting arrivals become
    visible at observations only.

    The world's clock counts microseconds.  The driver sees it through
    [time.monotonic()], a float number of seconds, and all its timing is
    float arithmetic: the differences and the comparisons with
    [timeout_ms / 1000.0], [wake_pulse_ms / 1000.0] and [0.1] are those of
    IEEE 754 binary64, rounding included.

    Python exceptions are the [Raise] results of a state-and-error monad.
    The [while] loops wait on the outside world and need not terminate, so
    every looping function takes a [fuel] bound on loop iterations and a run
    that exceeds it has no result ([None]). *)

From Stdlib Require Import String Ascii List ZArith NArith Lia Bool.
From Stdlib.Strings Require Import Byte.
From Stdlib Require Import DecimalString.
From Stdlib Require Import SpecFloat.
Import ListNotations.

(** ** Constants (module level of cr95hf.py) *)

Definition CMD_IDN : byte := x01.
Definition CMD_PROTOCOL : byte := x02.
Definition CMD_SENDRECV : byte := x04.
Definition CMD_ECHO : byte := x55.

Definition RSP_SUCCESS : byte := x00.
Definition RSP_DATA : byte := x80.
Definition RSP_TIMEOUT : byte := x87.

Definition PROTO_OFF : byte := x00.
Definition PROTO_ISO14443A : byte := x02.

Definition ISO14443A_REQA : byte := x26.
Definition ISO14443A_WUPA : byte := x52.
Definition ISO14443A_CT : byte := x88.
Definition ISO14443A_SEL_CL1 : byte := x93.
Definition ISO14443A_SEL_CL2 : byte := x95.
Definition ISO14443A_NVB_ANTICOLL : byte := x20.
Definition ISO14443A_NVB_SELECT : byte := x70.

Definition FLAG_SHORTFRAME : byte := x07.
Definition FLAG_STD : byte := x08.
Definition FLAG_STD_CRC : byte := x28.

(** ** The machine: UART, clock, outside world, driver instance *)

(** One step of the outside world: [dt] microseconds pass and the bytes
    [arriving] are appended to the UART receive buffer. *)
Record tick : Type := Tick { dt : N; arriving : list byte }.

Record machine : Type := Machine {
  rx : list byte;            (* receive buffer; [uart.in_waiting] is its length *)
  tx : list (list byte);     (* buffers given to [uart.write], oldest first *)
  now : Z;                   (* the clock, in microseconds *)
  sched : list tick;         (* what the outside world does next *)
  device_name : string;      (* [self._device_name] *)
  last_atqa : list byte      (* [self._last_atqa], a bytearray of 2 *)
}.

(** A schedule that has run out means a world where nothing happens any
    more. *)
Definition env_step (m : machine) : machine :=
  match sched m with
  | [] => m
  | t :: ts =>
      Machine (rx m ++ arriving t) (tx m) (now m + Z.of_N (dt t)) ts
              (device_name m) (last_atqa m)
  end.

(** ** Exceptions and the driver monad *)

Inductive exn : Type :=
| TimeoutError (msg : string)
| OSError (msg : string)
| TypeError               (* subscript of the [None] that [read] gives on no data *)
| IndexError              (* [data[i]] out of range *)
| ValueError.             (* [bytes([n])] with [n] outside [range(256)] *)

Inductive result (A : Type) : Type :=
| Ok (a : A)
| Raise (e : exn).
Arguments Ok {A} a.
Arguments Raise {A} e.

Definition M (A : Type) : Type := machine -> option (result A * machine).

Definition ret {A} (a : A) : M A := fun m => Some (Ok a, m).
Definition raise {A} (e : exn) : M A := fun m => Some (Raise e, m).
Definition diverge {A} : M A := fun _ => None.

Definition bind {A B} (c : M A) (k : A -> M B) : M B := fun m =>
  match c m with
  | None => None
  | Some (Ok a, m') => k a m'
  | Some (Raise e, m') => Some (Raise e, m')
  end.

(** [try: c  except E as e: h e], where [handles] says which exceptions
    the clause [E] matches. *)
Definition try_except {A} (c : M A) (handles : exn -> bool) (h : exn -> M A) : M A :=
  fun m =>
    match c m with
    | Some (Raise e, m') => if handles e then h e m' else Some (Raise e, m')
    | r => r
    end.

Notation "x <- c ;; k" := (bind c (fun x => k))
  (at level 61, c at next level, right associativity).
Notation "c ;;; k" := (bind c (fun _ => k))
  (at level 61, right associativity).
Notation "' pat <- c ;; k" := (bind c (fun x => match x with pat => k end))
  (at level 61, pat pattern, c at next level, right associativity).

(** [TimeoutError] is a subclass of [OSError]. *)
Definition is_OSError (e : exn) : bool :=
  match e with TimeoutError _ | OSError _ => true | _ => false end.
Definition is_TimeoutError (e : exn) : bool :=
  match e with TimeoutError _ => true | _ => false end.

(** [str(e)] *)
Definition str_exn (e : exn) : string :=
  match e with
  | TimeoutError s | OSError s => s
  | TypeError => "TypeError"
  | IndexError => "IndexError"
  | ValueError => "ValueError"
  end.

(** ** Floats

    Python's [float] is IEEE 754 binary64 (53 bits of precision), with
    rounding to nearest even. *)

Definition float : Type := spec_float.

(** An [int] used where a float is expected; also an integer literal
    written as a float, like [1000.0]. *)
Definition float_of_int (z : Z) : float := binary_normalize 53 1024 z 0 false.

Definition fdiv (x y : float) : float := SFdiv 53 1024 x y.      (* [x / y] *)
Definition fsub (x y : float) : float := SFsub 53 1024 x y.      (* [x - y] *)
Definition flt (x y : float) : bool := SFltb x y.                (* [x < y] *)
Definition fgt (x y : float) : bool := SFltb y x.                (* [x > y] *)

(** The literal [0.1]: the float nearest to one tenth. *)
Definition tenth : float := fdiv (float_of_int 1) (float_of_int 10).

(** The clock at [us] microseconds as [time.monotonic()] gives it: the
    float nearest to that many seconds. *)
Definition seconds (us : Z) : float := fdiv (float_of_int us) (float_of_int 1000000).

Arguments float_of_int : simpl never.
Arguments fdiv : simpl never.
Arguments fsub : simpl never.
Arguments flt : simpl never.
Arguments fgt : simpl never.
Arguments tenth : simpl never.
Arguments seconds : simpl never.

(** ** Collaborators: UART and clock *)

Definition in_waiting : M nat := fun m =>
  let m' := env_step m in Some (Ok (length (rx m')), m').

Definition monotonic : M float := fun m =>
  let m' := env_step m in Some (Ok (seconds (now m')), m').

Definition uart_read (n : nat) : M (list byte) := fun m =>
  Some (Ok (firstn n (rx m)),
        Machine (skipn n (rx m)) (tx m) (now m) (sched m) (device_name m) (last_atqa m)).

Definition uart_write (buf : list byte) : M unit := fun m =>
  Some (Ok tt,
        Machine (rx m) (tx m ++ [buf]) (now m) (sched m) (device_name m) (last_atqa m)).

(** [time.sleep]: at least [us] microseconds pass. *)
Definition sleep (us : Z) : M unit := fun m =>
  Some (Ok tt,
        env_step (Machine (rx m) (tx m) (now m + us) (sched m) (device_name m) (last_atqa m))).

Definition set_device_name (s : string) : M unit := fun m =>
  Some (Ok tt, Machine (rx m) (tx m) (now m) (sched m) s (last_atqa m)).

Definition get_device_name : M string := fun m => Some (Ok (device_name m), m).

(** [self._last_atqa[i] = b].  The field is a [bytearray(2)] and the
    stores are at 0 and 1, within it on every constructed driver; a store
    outside the array, which Python refuses with [IndexError], is not
    modelled and leaves the list as it is. *)
Fixpoint list_set (l : list byte) (i : nat) (b : byte) : list byte :=
  match l, i with
  | [], _ => []
  | _ :: l', O => b :: l'
  | x :: l', S i' => x :: list_set l' i' b
  end.

Definition set_last_atqa (i : nat) (b : byte) : M unit := fun m =>
  Some (Ok tt, Machine (rx m) (tx m) (now m) (sched m) (device_name m)
                       (list_set (last_atqa m) i b)).

(** [buf[0]] on what [uart.read] returned *)
Definition item0 (buf : list byte) : M byte :=
  match buf with
  | b :: _ => ret b
  | [] => raise TypeError
  end.

(** [bytes([n])] for a length *)
Definition byte_of_len (n : nat) : M byte :=
  match Byte.of_nat n with
  | Some b => ret b
  | None => raise ValueError
  end.

(** [data[i]] on a [bytes] value *)
Definition item (data : list byte) (i : nat) : M byte :=
  match nth_error data i with
  | Some b => ret b
  | None => raise IndexError
  end.

(** Truth value of a [bytes] object: non-empty. *)
Definition truthy (data : list byte) : bool :=
  match data with [] => false | _ => true end.

(** ** Message formatting *)

Definition str_nat (n : nat) : string := NilEmpty.string_of_uint (Nat.to_uint n).

Definition hex_digit (n : N) : ascii :=
  match n with
  | 0%N => "0" | 1%N => "1" | 2%N => "2" | 3%N => "3" | 4%N => "4"
  | 5%N => "5" | 6%N => "6" | 7%N => "7" | 8%N => "8" | 9%N => "9"
  | 10%N => "A" | 11%N => "B" | 12%N => "C" | 13%N => "D" | 14%N => "E"
  | _ => "F"
  end%char.

(** [f"{b:02X}"] *)
Definition hex02 (b : byte) : string :=
  String (hex_digit (Byte.to_N b / 16)) (String (hex_digit (Byte.to_N b mod 16)) EmptyString).

Definition msg_result_code : string := "Timeout waiting for result code".
Definition msg_length_byte : string := "Timeout waiting for length byte".
Definition msg_data (got len : nat) : string :=
  ("Timeout reading data (got " ++ str_nat got ++ "/" ++ str_nat len ++ " bytes)")%string.

(** ** Transport framer *)

Fixpoint _flush_rx (fuel : nat) : M unit :=
  match fuel with
  | O => diverge
  | S fuel' =>
      n <- in_waiting ;;
      if (n =? 0)%nat then ret tt
      else
        n' <- in_waiting ;;
        uart_read n' ;;;
        _flush_rx fuel'
  end.

Definition _send_cmd (fuel : nat) (cmd : byte) (data : list byte) : M unit :=
  len <- byte_of_len (length data) ;;
  let frame := cmd :: len :: data in
  _flush_rx fuel ;;;
  uart_write frame.

(** The two loops [while self.uart.in_waiting == 0: ...] of
    [_read_response]; they differ in the message only. *)
Fixpoint wait_byte (fuel : nat) (start timeout_s : float) (msg : string) : M unit :=
  match fuel with
  | O => diverge
  | S fuel' =>
      n <- in_waiting ;;
      if (n =? 0)%nat then
        t <- monotonic ;;
        if fgt (fsub t start) timeout_s then raise (TimeoutError msg)
        else wait_byte fuel' start timeout_s msg
      else ret tt
  end.

(** The loop [while len(data) < length: ...] of [_read_response]. *)
Fixpoint read_data (fuel : nat) (start timeout_s : float) (len : nat) (data : list byte)
  : M (list byte) :=
  match fuel with
  | O => diverge
  | S fuel' =>
      if (length data <? len)%nat then
        available <- in_waiting ;;
        if (0 <? available)%nat then
          chunk <- uart_read (Nat.min available (len - length data)) ;;
          read_data fuel' start timeout_s len (data ++ chunk)
        else
          t <- monotonic ;;
          if fgt (fsub t start) timeout_s
          then raise (TimeoutError (msg_data (length data) len))
          else read_data fuel' start timeout_s len data
      else ret data
  end.

Definition _read_response (fuel : nat) (timeout_ms : Z) : M (byte * list byte) :=
  start <- monotonic ;;
  let timeout_s := fdiv (float_of_int timeout_ms) (float_of_int 1000) in
  wait_byte fuel start timeout_s msg_result_code ;;;
  b <- uart_read 1 ;;
  result_code <- item0 b ;;
  wait_byte fuel start timeout_s msg_length_byte ;;;
  b <- uart_read 1 ;;
  len <- item0 b ;;
  data <- read_data fuel start timeout_s (Byte.to_nat len) [] ;;
  ret (result_code, data).

(** ** Bring-up *)

(** The [while] loop of [echo_test]. *)
Fixpoint echo_wait (fuel : nat) (start : float) : M unit :=
  match fuel with
  | O => diverge
  | S fuel' =>
      t <- monotonic ;;
      if flt (fsub t start) tenth then
        n <- in_waiting ;;
        if (0 <? n)%nat then
          b <- uart_read 1 ;;
          resp <- item0 b ;;
          if Byte.eqb resp CMD_ECHO then ret tt
          else raise (OSError ("Echo test failed: expected 0x55, got 0x" ++ hex02 resp))
        else echo_wait fuel' start
      else raise (OSError "Echo test failed: no response from device")
  end.

Definition echo_test (fuel : nat) : M unit :=
  _flush_rx fuel ;;;
  uart_write [CMD_ECHO] ;;;
  start <- monotonic ;;
  echo_wait fuel start.

(** The wake-up pulse loop of [_initialize]. *)
Fixpoint wake_loop (fuel : nat) (start : float) (wake_pulse_ms : Z) : M unit :=
  match fuel with
  | O => diverge
  | S fuel' =>
      t <- monotonic ;;
      if flt (fsub t start) (fdiv (float_of_int wake_pulse_ms) (float_of_int 1000)) then
        uart_write (repeat x00 20) ;;;
        sleep 1000 ;;;
        wake_loop fuel' start wake_pulse_ms
      else ret tt
  end.

Definition printable (b : byte) : bool :=
  ((32 <=? Byte.to_N b) && (Byte.to_N b <=? 126))%N.

(** The loop [for b in device_bytes: ...] of [_initialize]. *)
Fixpoint name_loop (device_bytes : list byte) : M unit :=
  match device_bytes with
  | [] => ret tt
  | b :: rest =>
      if Byte.eqb b x00 then ret tt
      else if printable b then
        s <- get_device_name ;;
        set_device_name (s ++ String (ascii_of_byte b) EmptyString) ;;;
        name_loop rest
      else name_loop rest
  end.

(** [_initialize] is the sequence of the four blocks below, in the order
    of the source: wake-up pulses and settling, echo test, device ID,
    protocol selection. *)
Definition wake_up (fuel : nat) (wake_pulse_ms : Z) : M unit :=
  _flush_rx fuel ;;;
  start <- monotonic ;;
  wake_loop fuel start wake_pulse_ms ;;;
  sleep 15000 ;;;
  _flush_rx fuel.

Definition echo_phase (fuel : nat) : M unit :=
  try_except (echo_test fuel) is_OSError
    (fun e => raise (OSError ("CR95HF initialization failed: " ++ str_exn e))).

Definition identify (fuel : nat) : M unit :=
  _send_cmd fuel CMD_IDN [] ;;;
  '(code, data) <- try_except (_read_response fuel 100) is_TimeoutError
       (fun e => raise (OSError ("Failed to read device ID: " ++ str_exn e))) ;;
  if negb (Byte.eqb code RSP_SUCCESS) || negb (truthy data) || (length data <? 13)%nat
  then raise (OSError ("Invalid IDN response: code=0x" ++ hex02 code))
  else
    let device_bytes := firstn 13 data in
    set_device_name EmptyString ;;;
    name_loop device_bytes.

Definition select_protocol (fuel : nat) : M unit :=
  _send_cmd fuel CMD_PROTOCOL [PROTO_ISO14443A; x00] ;;;
  '(code, data) <- try_except (_read_response fuel 100) is_TimeoutError
       (fun e => raise (OSError ("Failed to select protocol: " ++ str_exn e))) ;;
  if negb (Byte.eqb code RSP_SUCCESS)
  then raise (OSError ("Protocol selection failed: code=0x" ++ hex02 code))
  else ret tt.

Definition _initialize (fuel : nat) (wake_pulse_ms : Z) : M unit :=
  wake_up fuel wake_pulse_ms ;;;
  echo_phase fuel ;;;
  identify fuel ;;;
  select_protocol fuel.

(** ** ISO14443-A discovery *)

Definition _sendrecv (fuel : nat) (rf_data : list byte) (flags : byte)
  : M (byte * list byte) :=
  let cmd_data := rf_data ++ [flags] in
  _send_cmd fuel CMD_SENDRECV cmd_data ;;;
  _read_response fuel 50.

Definition _reqa_wupa (fuel : nat) (cmd : byte) : M (option byte * option byte) :=
  '(code, data) <- _sendrecv fuel [cmd] FLAG_SHORTFRAME ;;
  if Byte.eqb code RSP_DATA && truthy data && (2 <=? length data)%nat then
    d0 <- item data 0 ;;
    d1 <- item data 1 ;;
    ret (Some d0, Some d1)
  else ret (None, None).

Definition _anticoll_cl1 (fuel : nat) : M (option (list byte)) :=
  let rf_data := [ISO14443A_SEL_CL1; ISO14443A_NVB_ANTICOLL] in
  '(code, data) <- _sendrecv fuel rf_data FLAG_STD ;;
  if Byte.eqb code RSP_DATA && truthy data && (5 <=? length data)%nat
  then ret (Some (firstn 5 data))
  else ret None.

Definition _select_cl1 (fuel : nat) (uid_bcc : list byte) : M (option byte) :=
  let rf_data := [ISO14443A_SEL_CL1; ISO14443A_NVB_SELECT] ++ uid_bcc in
  '(code, data) <- _sendrecv fuel rf_data FLAG_STD_CRC ;;
  if Byte.eqb code RSP_DATA && truthy data && (1 <=? length data)%nat then
    d0 <- item data 0 ;;
    ret (Some d0)
  else ret None.

Definition _anticoll_cl2 (fuel : nat) : M (option (list byte)) :=
  let rf_data := [ISO14443A_SEL_CL2; ISO14443A_NVB_ANTICOLL] in
  '(code, data) <- _sendrecv fuel rf_data FLAG_STD ;;
  if Byte.eqb code RSP_DATA && truthy data && (5 <=? length data)%nat
  then ret (Some (firstn 5 data))
  else ret None.

Definition _select_cl2 (fuel : nat) (uid_bcc : list byte) : M (option byte) :=
  let rf_data := [ISO14443A_SEL_CL2; ISO14443A_NVB_SELECT] ++ uid_bcc in
  '(code, data) <- _sendrecv fuel rf_data FLAG_STD_CRC ;;
  if Byte.eqb code RSP_DATA && truthy data && (1 <=? length data)%nat then
    d0 <- item data 0 ;;
    ret (Some d0)
  else ret None.

(** [self._last_atqa[i] = v] where [v] may be [None] *)
Definition store_atqa (i : nat) (v : option byte) : M unit :=
  match v with
  | Some b => set_last_atqa i b
  | None => raise TypeError
  end.

Definition read_tag (fuel : nat) : M (option (list byte) * option byte) :=
  '(atqa1, atqa2) <- _reqa_wupa fuel ISO14443A_WUPA ;;
  '(atqa1, atqa2) <- match atqa1 with
                     | None => _reqa_wupa fuel ISO14443A_REQA
                     | Some _ => ret (atqa1, atqa2)
                     end ;;
  match atqa1 with
  | None => ret (None, None)
  | Some _ =>
      store_atqa 0 atqa1 ;;;
      store_atqa 1 atqa2 ;;;
      cl1 <- _anticoll_cl1 fuel ;;
      match cl1 with
      | None => ret (None, None)
      | Some cl1 =>
          sak1 <- _select_cl1 fuel cl1 ;;
          match sak1 with
          | None => ret (None, None)
          | Some sak1 =>
              c0 <- item cl1 0 ;;
              if negb (Byte.eqb c0 ISO14443A_CT) then
                ret (Some (firstn 4 cl1), Some sak1)
              else
                let uid := firstn 3 (skipn 1 cl1) in
                cl2 <- _anticoll_cl2 fuel ;;
                match cl2 with
                | None => ret (None, None)
                | Some cl2 =>
                    sak2 <- _select_cl2 fuel cl2 ;;
                    match sak2 with
                    | None => ret (None, None)
                    | Some sak2 =>
                        let uid := uid ++ firstn 4 cl2 in
                        ret (Some uid, Some sak2)
                    end
                end
          end
      end
  end.

Definition field_off (fuel : nat) : M unit :=
  _send_cmd fuel CMD_PROTOCOL [PROTO_OFF; x00] ;;;
  _read_response fuel 50 ;;;
  ret tt.

(** [CR95HF.__init__]: fresh instance fields, then bring-up. *)
Definition __init__ (fuel : nat) (wake_pulse_ms : Z) : M unit :=
  set_device_name EmptyString ;;;
  (fun m => Some (Ok tt, Machine (rx m) (tx m) (now m) (sched m) (device_name m) [x00; x00])) ;;;
  _initialize fuel wake_pulse_ms.

(** ** Card types and the read-only properties *)

Definition SAK_MIFARE_UL : byte := x00.
Definition SAK_MIFARE_1K : byte := x08.
Definition SAK_MIFARE_MINI : byte := x09.
Definition SAK_MIFARE_4K : byte := x18.
Definition SAK_MIFARE_PLUS_2K : byte := x10.
Definition SAK_MIFARE_PLUS_4K : byte := x11.
Definition SAK_MIFARE_PLUS : byte := x20.

(** The dict literal of [card_type], in source order. *)
Definition card_types : list (byte * string) :=
  [ (SAK_MIFARE_UL, "MIFARE Ultralight/NTAG");
    (SAK_MIFARE_1K, "MIFARE Classic 1K");
    (SAK_MIFARE_MINI, "MIFARE Mini");
    (SAK_MIFARE_4K, "MIFARE Classic 4K");
    (SAK_MIFARE_PLUS_2K, "MIFARE Plus 2K");
    (SAK_MIFARE_PLUS_4K, "MIFARE Plus 4K");
    (SAK_MIFARE_PLUS, "MIFARE Plus/DESFire");
    (x28, "JCOP/SmartMX");
    (x38, "MIFARE Classic 4K (emu)");
    (x88, "MIFARE Classic 1K (Infineon)");
    (x98, "MIFARE ProX") ]%string.

(** [d.get(key, default)] *)
Fixpoint dict_get (d : list (byte * string)) (key : byte) (default : string) : string :=
  match d with
  | [] => default
  | (k, v) :: d' => if Byte.eqb k key then v else dict_get d' key default
  end.

Definition card_type (sak : byte) : string :=
  dict_get card_types sak ("Unknown (SAK=0x" ++ hex02 sak ++ ")")%string.

(** The property [last_atqa]: [bytes(self._last_atqa)]. *)
Definition get_last_atqa : M (list byte) := fun m => Some (Ok (last_atqa m), m).

(** ** The callers in yoto_mini.py

    [YotoMini._nfc] is the driver or [None]; [nfc] tells which. *)
Definition read_nfc_tag (nfc : bool) (fuel : nat) : M (option (list byte) * option byte) :=
  if negb nfc then ret (None, None) else read_tag fuel.

Definition get_card_type (nfc : bool) (sak : byte) : string :=
  if negb nfc then "NFC not initialized"%string else card_type sak.

(** * Vocabulary of the statements *)

(** ** The line and the clock *)

(** The bytes that arrive during the ticks [ts], and the time they take. *)
Definition inflow (ts : list tick) : list byte := flat_map arriving ts.

Fixpoint lapse (ts : list tick) : Z :=
  match ts with
  | [] => 0
  | t :: ts' => Z.of_N (dt t) + lapse ts'
  end.

(** [takes m bs m']: between [m] and [m'] the world went through the ticks
    [past] and the driver removed exactly the bytes [bs], in order, from
    the front of what was buffered or arrived. *)
Definition takes (m : machine) (bs : list byte) (m' : machine) : Prop :=
  exists past, sched m = past ++ sched m' /\ rx m ++ inflow past = bs ++ rx m'.

(** The clock after the world has gone through [n] more ticks. *)
Definition clock_after (m : machine) (n : nat) : Z :=
  (now m + lapse (firstn n (sched m)))%Z.

(** Once the world has gone through [n] more ticks, the bytes [want] are
    the next ones on the line. *)
Definition arrives_by (m : machine) (n : nat) (want : list byte) : Prop :=
  exists rest, rx m ++ inflow (firstn n (sched m)) = want ++ rest.

(** What [time.monotonic()] gives in [m], and what it would give at the
    [n]-th observation of the world from [m]. *)
Definition reading (m : machine) : float := seconds (now m).

Definition seen (m : machine) (n : nat) : float := seconds (clock_after m n).

(** [timeout_ms / 1000.0], and the test of the three waits of
    [_read_response]: [t - start > timeout_s]. *)
Definition budget (timeout_ms : Z) : float :=
  fdiv (float_of_int timeout_ms) (float_of_int 1000).

Definition overdue (timeout_s start t : float) : bool := fgt (fsub t start) timeout_s.

(** No clock reading taken at one of the first [n] observations from [m]
    is over the budget counted from [start]. *)
Definition in_time (timeout_s start : float) (m : machine) (n : nat) : Prop :=
  forall i, 1 <= i <= n -> overdue timeout_s start (seen m i) = false.

(** [want] arrives within [n] ticks, and no clock reading up to then is
    over the budget. *)
Definition ready (timeout_s start : float) (m : machine) (n : nat) (want : list byte)
  : Prop :=
  arrives_by m n want /\ in_time timeout_s start m n.


(** The four ways a call of [_read_response] started in [m] can end; the
    clock reading taken at entry is [reading (env_step m)].  In each,
    [takes] tells which bytes were taken off the line.  A failure comes
    with the clock reading of [m'] over the budget counted from the entry
    reading. *)
Inductive receive_outcome (timeout_ms : Z) (m : machine)
  : result (byte * list byte) -> machine -> Prop :=
| Received code len data m' :
    length data = Byte.to_nat len ->
    takes m (code :: len :: data) m' ->
    receive_outcome timeout_ms m (Ok (code, data)) m'
| No_result_code m' :
    takes m [] m' ->
    overdue (budget timeout_ms) (reading (env_step m)) (reading m') = true ->
    receive_outcome timeout_ms m
      (Raise (TimeoutError "Timeout waiting for result code")) m'
| No_length_byte code m' :
    takes m [code] m' ->
    overdue (budget timeout_ms) (reading (env_step m)) (reading m') = true ->
    receive_outcome timeout_ms m
      (Raise (TimeoutError "Timeout waiting for length byte")) m'
| Short_payload code len got m' :
    takes m (code :: len :: got) m' ->
    length got < Byte.to_nat len ->
    overdue (budget timeout_ms) (reading (env_step m)) (reading m') = true ->
    receive_outcome timeout_ms m
      (Raise (TimeoutError
                ("Timeout reading data (got "
                   ++ NilEmpty.string_of_uint (Nat.to_uint (length got)) ++ "/"
                   ++ NilEmpty.string_of_uint (Nat.to_uint (Byte.to_nat len))
                   ++ " bytes)"))) m'.

(** ** What is written and what is left alone *)

(** Nothing was written and the instance fields are as they were. *)
Definition untouched (m m' : machine) : Prop :=
  tx m' = tx m /\ device_name m' = device_name m /\ last_atqa m' = last_atqa m.

(** Computations that do not touch the machine. *)
Definition stateless {A} (c : M A) : Prop :=
  forall m r m', c m = Some (r, m') -> m' = m.

(** The frames of the discovery exchanges, as written to the UART. *)
Definition short_frame (cmd : byte) : list byte :=
  [CMD_SENDRECV; x02; cmd; FLAG_SHORTFRAME].

Definition anticoll_frame (sel : byte) : list byte :=
  [CMD_SENDRECV; x03; sel; ISO14443A_NVB_ANTICOLL; FLAG_STD].

Definition select_frame (sel : byte) (uid_bcc : list byte) : list byte :=
  CMD_SENDRECV :: x08 :: sel :: ISO14443A_NVB_SELECT :: uid_bcc ++ [FLAG_STD_CRC].

(** [m'] is [m] after the one frame [f] was written. *)
Definition wrote (f : list byte) (m m' : machine) : Prop :=
  tx m' = tx m ++ [f] /\
  device_name m' = device_name m /\ last_atqa m' = last_atqa m.

(** A frame of a cascade-level exchange: the RF command byte is a select
    code. *)
Definition level_frame (f : list byte) : Prop :=
  nth_error f 2 = Some ISO14443A_SEL_CL1 \/ nth_error f 2 = Some ISO14443A_SEL_CL2.

(** From [m] to [m'] only cascade-level frames were written, and the
    device name was left alone. *)
Definition levels_only (m m' : machine) : Prop :=
  exists tail,
    tx m' = tx m ++ tail /\ Forall level_frame tail /\
    device_name m' = device_name m.

(** No WUPA and no REQA request among the frames. *)
Definition no_request (frames : list (list byte)) : Prop :=
  ~ In (short_frame ISO14443A_WUPA) frames /\ ~ In (short_frame ISO14443A_REQA) frames.

(** ** The stages of a run of [read_tag] *)

(** The machine once [read_tag] has stored the ATQA. *)
Definition with_atqa (a1 a2 : byte) (m : machine) : machine :=
  Machine (rx m) (tx m) (now m) (sched m) (device_name m)
          (list_set (list_set (last_atqa m) 0 a1) 1 a2).

(** How far a run of [read_tag] started in [m] has come:
    an ATQA was obtained, by WUPA or else by REQA; *)
Definition atqa_obtained (fuel : nat) (m : machine) (a1 a2 : byte) (m1 : machine) : Prop :=
  _reqa_wupa fuel ISO14443A_WUPA m = Some (Ok (Some a1, Some a2), m1) \/
  exists m0,
    _reqa_wupa fuel ISO14443A_WUPA m = Some (Ok (None, None), m0) /\
    _reqa_wupa fuel ISO14443A_REQA m0 = Some (Ok (Some a1, Some a2), m1).

(** then the level-1 anticollision returned [cl1]; *)
Definition cl1_found (fuel : nat) (m : machine) (cl1 : list byte) (m2 : machine) : Prop :=
  exists a1 a2 m1,
    atqa_obtained fuel m a1 a2 m1 /\
    _anticoll_cl1 fuel (with_atqa a1 a2 m1) = Some (Ok (Some cl1), m2).

(** then the level-1 select returned the SAK [sak1]; *)
Definition cl1_selected (fuel : nat) (m : machine) (cl1 : list byte) (sak1 : byte)
  (m3 : machine) : Prop :=
  exists m2,
    cl1_found fuel m cl1 m2 /\
    _select_cl1 fuel cl1 m2 = Some (Ok (Some sak1), m3).

(** then, [cl1] starting with the cascade tag, the level-2 anticollision
    returned [cl2]. *)
Definition cl2_found (fuel : nat) (m : machine) (cl1 cl2 : list byte) (m4 : machine) : Prop :=
  exists sak1 m3,
    cl1_selected fuel m cl1 sak1 m3 /\
    hd_error cl1 = Some ISO14443A_CT /\
    _anticoll_cl2 fuel m3 = Some (Ok (Some cl2), m4).

(** All the ways a run of [read_tag] from [m] can end. *)
Inductive discovery (fuel : nat) (m : machine)
  : result (option (list byte) * option byte) -> machine -> Prop :=
| Wupa_raises e m1 :
    _reqa_wupa fuel ISO14443A_WUPA m = Some (Raise e, m1) ->
    discovery fuel m (Raise e) m1
| Reqa_raises e m0 m1 :
    _reqa_wupa fuel ISO14443A_WUPA m = Some (Ok (None, None), m0) ->
    _reqa_wupa fuel ISO14443A_REQA m0 = Some (Raise e, m1) ->
    discovery fuel m (Raise e) m1
| No_atqa m0 m1 :
    _reqa_wupa fuel ISO14443A_WUPA m = Some (Ok (None, None), m0) ->
    _reqa_wupa fuel ISO14443A_REQA m0 = Some (Ok (None, None), m1) ->
    discovery fuel m (Ok (None, None)) m1
| Anticoll1_raises a1 a2 m1 e m2 :
    atqa_obtained fuel m a1 a2 m1 ->
    _anticoll_cl1 fuel (with_atqa a1 a2 m1) = Some (Raise e, m2) ->
    discovery fuel m (Raise e) m2
| Anticoll1_fails a1 a2 m1 m2 :
    atqa_obtained fuel m a1 a2 m1 ->
    _anticoll_cl1 fuel (with_atqa a1 a2 m1) = Some (Ok None, m2) ->
    discovery fuel m (Ok (None, None)) m2
| Select1_raises cl1 m2 e m3 :
    cl1_found fuel m cl1 m2 ->
    _select_cl1 fuel cl1 m2 = Some (Raise e, m3) ->
    discovery fuel m (Raise e) m3
| Select1_fails cl1 m2 m3 :
    cl1_found fuel m cl1 m2 ->
    _select_cl1 fuel cl1 m2 = Some (Ok None, m3) ->
    discovery fuel m (Ok (None, None)) m3
| Single_size cl1 sak1 m3 :
    cl1_selected fuel m cl1 sak1 m3 ->
    hd_error cl1 <> Some ISO14443A_CT ->
    discovery fuel m (Ok (Some (firstn 4 cl1), Some sak1)) m3
| Anticoll2_raises cl1 sak1 m3 e m4 :
    cl1_selected fuel m cl1 sak1 m3 ->
    hd_error cl1 = Some ISO14443A_CT ->
    _anticoll_cl2 fuel m3 = Some (Raise e, m4) ->
    discovery fuel m (Raise e) m4
| Anticoll2_fails cl1 sak1 m3 m4 :
    cl1_selected fuel m cl1 sak1 m3 ->
    hd_error cl1 = Some ISO14443A_CT ->
    _anticoll_cl2 fuel m3 = Some (Ok None, m4) ->
    discovery fuel m (Ok (None, None)) m4
| Select2_raises cl1 cl2 m4 e m5 :
    cl2_found fuel m cl1 cl2 m4 ->
    _select_cl2 fuel cl2 m4 = Some (Raise e, m5) ->
    discovery fuel m (Raise e) m5
| Select2_fails cl1 cl2 m4 m5 :
    cl2_found fuel m cl1 cl2 m4 ->
    _select_cl2 fuel cl2 m4 = Some (Ok None, m5) ->
    discovery fuel m (Ok (None, None)) m5
| Double_size cl1 cl2 m4 sak2 m5 :
    cl2_found fuel m cl1 cl2 m4 ->
    _select_cl2 fuel cl2 m4 = Some (Ok (Some sak2), m5) ->
    discovery fuel m (Ok (Some (firstn 3 (skipn 1 cl1) ++ firstn 4 cl2), Some sak2)) m5.

(** [exchange fuel m rf flags mi]: the run of [read_tag] started in [m]
    performs [_sendrecv rf flags] from the machine [mi].  These are the six
    places where [read_tag] exchanges frames. *)
Inductive exchange (fuel : nat) (m : machine) : list byte -> byte -> machine -> Prop :=
| X_wupa :
    exchange fuel m [ISO14443A_WUPA] FLAG_SHORTFRAME m
| X_reqa m0 :
    _reqa_wupa fuel ISO14443A_WUPA m = Some (Ok (None, None), m0) ->
    exchange fuel m [ISO14443A_REQA] FLAG_SHORTFRAME m0
| X_anticoll1 a1 a2 m1 :
    atqa_obtained fuel m a1 a2 m1 ->
    exchange fuel m [ISO14443A_SEL_CL1; ISO14443A_NVB_ANTICOLL] FLAG_STD (with_atqa a1 a2 m1)
| X_select1 cl1 m2 :
    cl1_found fuel m cl1 m2 ->
    exchange fuel m ([ISO14443A_SEL_CL1; ISO14443A_NVB_SELECT] ++ cl1) FLAG_STD_CRC m2
| X_anticoll2 cl1 sak1 m3 :
    cl1_selected fuel m cl1 sak1 m3 ->
    hd_error cl1 = Some ISO14443A_CT ->
    exchange fuel m [ISO14443A_SEL_CL2; ISO14443A_NVB_ANTICOLL] FLAG_STD m3
| X_select2 cl1 cl2 m4 :
    cl2_found fuel m cl1 cl2 m4 ->
    exchange fuel m ([ISO14443A_SEL_CL2; ISO14443A_NVB_SELECT] ++ cl2) FLAG_STD_CRC m4.

(** The part of [read_tag] below its comment "7-byte UID", as the run
    reaches it with the level-1 result [cl1]. *)
Definition level2 (fuel : nat) (cl1 : list byte) : M (option (list byte) * option byte) :=
  cl2 <- _anticoll_cl2 fuel ;;
  match cl2 with
  | None => ret (None, None)
  | Some cl2 =>
      sak2 <- _select_cl2 fuel cl2 ;;
      match sak2 with
      | None => ret (None, None)
      | Some sak2 => ret (Some (firstn 3 (skipn 1 cl1) ++ firstn 4 cl2), Some sak2)
      end
  end.

(** The outcome of a run without the SAK and the final machine: the UID,
    no tag, or the exception. *)
Definition uid_of (o : option (result (option (list byte) * option byte) * machine))
  : option (result (option (list byte))) :=
  match o with
  | Some (Ok (uid, _), _) => Some (Ok uid)
  | Some (Raise e, _) => Some (Raise e)
  | None => None
  end.

(** ** The stages of bring-up and the device identity *)

(** Bring-up started in [m] has passed the wake-up and the echo test and
    is in [mi] when the device ID is asked for; *)
Definition reaches_identify (fuel : nat) (wake_pulse_ms : Z) (m mi : machine) : Prop :=
  (wake_up fuel wake_pulse_ms ;;; echo_phase fuel) m = Some (Ok tt, mi).

(** it has also read the device ID and is in [mi] when the protocol is
    selected. *)
Definition reaches_protocol (fuel : nat) (wake_pulse_ms : Z) (m mi : machine) : Prop :=
  (wake_up fuel wake_pulse_ms ;;; echo_phase fuel ;;; identify fuel) m = Some (Ok tt, mi).

(** The bytes before the first null byte. *)
Fixpoint until_null (bs : list byte) : list byte :=
  match bs with
  | [] => []
  | b :: rest => if Byte.eqb b x00 then [] else b :: until_null rest
  end.

(** In the words of the specification, "the printable (ASCII 32-126)
    prefix up to the first null byte" of a payload: the printable
    characters of what comes before its first null byte. *)
Definition printable_prefix (payload : list byte) : string :=
  string_of_list_byte (filter printable (until_null payload)).

(** The messages of the three [TimeoutError]s of [_read_response]. *)
Definition timeout_message (msg : string) : Prop :=
  msg = msg_result_code \/ msg = msg_length_byte \/
  exists got len, msg = msg_data got len.

(** [_last_atqa] after [read_tag] has stored the ATQA [a1 a2] in it. *)
Definition stored (a1 a2 : byte) (l : list byte) : list byte :=
  list_set (list_set l 0 a1) 1 a2.

(** The check that two SAK values with the same description are the same
    value, for the values numbered [n1] and [n2], and for all of them. *)
Definition labels_differ (n1 n2 : nat) : bool :=
  match Byte.of_nat n1, Byte.of_nat n2 with
  | Some a, Some b => implb (String.eqb (card_type a) (card_type b)) (Byte.eqb a b)
  | _, _ => true
  end.

Definition labels_checked : bool :=
  forallb (fun n1 => forallb (labels_differ n1) (seq 0 256)) (seq 0 256).

(** No SAK value is described by the text for a missing driver. *)
Definition label_taken (n : nat) : bool :=
  match Byte.of_nat n with
  | Some a => negb (String.eqb (card_type a) "NFC not initialized")
  | None => true
  end.

(** One use of a constructed driver: a call of [read_tag] or of
    [field_off], whatever it returns or raises; and any number of them one
    after the other. *)
Inductive call (m m' : machine) : Prop :=
| Call_read_tag fuel r : read_tag fuel m = Some (r, m') -> call m m'
| Call_field_off fuel r : field_off fuel m = Some (r, m') -> call m m'.

Inductive used (m : machine) : machine -> Prop :=
| Used_new : used m m
| Used_call m1 m2 : used m m1 -> call m1 m2 -> used m m2.

(** The test of the wake loop, [t - start < wake_pulse_ms / 1000.0], and
    the machine after a round of it: one clock reading, a burst written, a
    sleep of at least a millisecond. *)
Definition pulsing (wake_pulse_ms : Z) (start t : float) : bool :=
  flt (fsub t start) (fdiv (float_of_int wake_pulse_ms) (float_of_int 1000)).

Definition pulse_round (m : machine) : machine :=
  let m1 := env_step m in
  env_step (Machine (rx m1) (tx m1 ++ [repeat x00 20]) (now m1 + 1000) (sched m1)
                    (device_name m1) (last_atqa m1)).

(** The clock reading that the wake loop takes in its round [i] (from 0),
    if it gets that far: every earlier round has gone through two
    observations of the world and has slept a millisecond. *)
Definition pulse_reading (m : machine) (i : nat) : float :=
  seconds (clock_after m (2 * i + 1) + 1000 * Z.of_nat i).

(** The ways [echo_test] can end once the echo byte is written, [start]
    being the clock reading taken then and [m] the machine at that reading:
    at a reading [mr] still less than [0.1] after [start] the next poll sees
    a byte, the first that came, and that byte is 0x55 or another one; or a
    reading is no longer less than [0.1] after [start], nothing having been
    taken off the line. *)
Inductive echo_outcome (start : float) (m : machine) : result unit -> machine -> Prop :=
| Echo_heard mr m' :
    takes m [] mr ->
    flt (fsub (reading mr) start) tenth = true ->
    uart_read 1 (env_step mr) = Some (Ok [CMD_ECHO], m') ->
    echo_outcome start m (Ok tt) m'
| Echo_other mr b m' :
    takes m [] mr ->
    flt (fsub (reading mr) start) tenth = true ->
    uart_read 1 (env_step mr) = Some (Ok [b], m') ->
    b <> CMD_ECHO ->
    echo_outcome start m
      (Raise (OSError ("Echo test failed: expected 0x55, got 0x" ++ hex02 b))) m'
| Echo_silence m' :
    takes m [] m' ->
    flt (fsub (reading m') start) tenth = false ->
    echo_outcome start m
      (Raise (OSError "Echo test failed: no response from device")) m'.

(** ** Simulated lines *)

Definition quiet : tick := Tick 10 [].

(** The line while one exchange is answered: nothing at the flush poll and
    at the clock reading on entry, then the whole response frame. *)
Definition reply (frame : list byte) : list tick :=
  [quiet; quiet; Tick 300 frame; quiet; quiet].

(** The same for a response without payload, which takes one poll less. *)
Definition reply_bare (code : byte) : list tick :=
  [quiet; quiet; Tick 5 [code; x00]; quiet].

Definition boot (s : list tick) : machine :=
  Machine [] [] 0 s EmptyString [x00; x00].

(** ATQA [04 00], level 1 [01 02 03 04 06], SAK [08]. *)
Definition classic_tag : machine :=
  boot (reply [x80; x02; x04; x00] ++
        reply [x80; x05; x01; x02; x03; x04; x06] ++
        reply [x80; x01; x08]).

(** ATQA [44 00], level 1 [88 11 22 33 AA] with SAK [sak1], level 2
    [44 55 66 77 BB] with SAK [00]. *)
Definition cascade_tag (sak1 : byte) : machine :=
  boot (reply [x80; x02; x44; x00] ++
        reply [x80; x05; x88; x11; x22; x33; xaa] ++
        reply [x80; x01; sak1] ++
        reply [x80; x05; x44; x55; x66; x77; xbb] ++
        reply [x80; x01; x00]).

(** A cascade tag whose level-2 select is answered with an error code. *)
Definition cascade_tag_lost : machine :=
  boot (reply [x80; x02; x44; x00] ++
        reply [x80; x05; x88; x11; x22; x33; xaa] ++
        reply [x80; x01; x04] ++
        reply [x80; x05; x44; x55; x66; x77; xbb] ++
        reply_bare x87).

(** A tag whose level-1 anticollision result is [00 00 00 00 00] (UID
    bytes zero, check byte zero), SAK [08]. *)
Definition zero_uid_tag : machine :=
  boot (reply [x80; x02; x04; x00] ++
        reply [x80; x05; x00; x00; x00; x00; x00] ++
        reply [x80; x01; x08]).

(** The transceiver reports "no tag" (code 0x87, no payload) to WUPA and
    to REQA. *)
Definition no_tag_line : machine :=
  boot (reply_bare x87 ++ reply_bare x87).

(** WUPA is answered with "no tag" (code 0x87, no payload), REQA is not
    answered at all. *)
Definition reqa_silent_line : machine :=
  boot (reply_bare x87 ++ [quiet; quiet; quiet; Tick 60000 []]).

(** Nothing answers WUPA, while a later request would be answered. *)
Definition wupa_silent_line : machine :=
  boot ([quiet; quiet; quiet; Tick 60000 []] ++ reply [x80; x02; x04; x00]).

(** Nobody answers: the clock passes the 50 ms budget with nothing
    received. *)
Definition silent_line : machine :=
  boot [quiet; quiet; quiet; Tick 60000 []].

(** The transceiver answers the protocol command with an error code. *)
Definition refusing_line : machine :=
  boot (reply_bare x82).

(** A frame [80 03 01 02 03] cut into three arrivals. *)
Definition chunked_line : machine :=
  boot [quiet; Tick 1 [x80]; Tick 1 [x03; x01]; quiet; Tick 5 [x02; x03]].


(** The same frame, whose last two bytes never come. *)
Definition short_payload_line : machine :=
  boot [quiet; Tick 1 [x80]; Tick 1 [x03; x01]; quiet; Tick 70000 []].

(** Bring-up on a line where the chip wakes and echoes: the clock passes
    the wake pulse at its first reading in the loop, the echo byte is there
    at the first poll. *)
Definition woken : list tick :=
  [quiet; quiet; Tick 150000 []; quiet; quiet] ++
  [quiet; quiet; quiet; Tick 10 [x55]].

(** After the echo nothing answers any more. *)
Definition dead_after_echo : machine :=
  boot (woken ++ [quiet; quiet; quiet; Tick 200000 []]).

(** The usual chip: payload "NFC FS2JAST4", a null byte, two check
    bytes. *)
Definition usual_chip : machine :=
  boot (woken ++
        reply [x00; x0f; x4e; x46; x43; x20; x46; x53; x32; x4a; x41; x53; x54; x34;
               x00; x2a; xce] ++
        reply_bare x00).

(** A chip whose identification payload is fourteen letters A and a null
    byte. *)
Definition long_id_chip : machine :=
  boot (woken ++
        reply ([x00; x0f] ++ repeat x41 14 ++ [x00]) ++
        reply_bare x00).

(** [wake_bytes] of [_initialize]: a burst of 20 null bytes. *)
Definition wake_bytes : list byte := repeat x00 20.

(** A chip that answers the echo byte with a null byte. *)
Definition wrong_echo_chip : machine :=
  boot ([quiet; quiet; Tick 150000 []; quiet; quiet] ++
        [quiet; quiet; quiet; Tick 10 [x00]]).

(** The usual chip, with a driver object whose fields hold old values. *)
Definition used_before : machine :=
  Machine [] [] 0 (sched usual_chip) "old name" [x44; x03].

(** The usual chip and then the classic tag, with a driver object whose
    fields hold nothing yet; at the end the answer to the field-off
    command. *)
Definition chip_with_tag : machine :=
  Machine [] [] 0 (sched usual_chip ++ sched classic_tag ++ reply_bare x00)
          EmptyString [].

(** A cascade tag that falls silent in the middle of its level-2
    anticollision answer. *)
Definition cascade_then_silence : machine :=
  boot (reply [x80; x02; x44; x00] ++
        reply [x80; x05; x88; x11; x22; x33; xaa] ++
        reply [x80; x01; x04] ++
        [quiet; quiet; Tick 300 [x80; x05; x44; x55]; quiet; quiet; quiet;
         Tick 60000 []]).

(** Four stale bytes: two buffered, two more coming in while the buffer is
    drained. *)
Definition stale_line : machine :=
  Machine [xde; xad] [] 0 [Tick 10 [xbe]; Tick 10 [xef]; quiet; quiet; quiet]
          EmptyString [x00; x00].

(** Stale bytes in the buffer, then the answer [80 02 04 00] to the
    request. *)
Definition stale_answer : machine :=
  Machine [xde; xad] [] 0
          ([quiet; quiet; quiet] ++ reply [x80; x02; x04; x00])
          EmptyString [x00; x00].

(** * Reasoning about runs *)

Lemma bind_Ok A B (c : M A) (k : A -> M B) m a m1 :
  c m = Some (Ok a, m1) -> bind c k m = k a m1.
Proof. intros H. unfold bind. rewrite H. reflexivity. Qed.
Arguments bind_Ok {A B c} k {m a m1} _.

Lemma bind_Raise A B (c : M A) (k : A -> M B) m e m1 :
  c m = Some (Raise e, m1) -> bind c k m = Some (Raise e, m1).
Proof. intros H. unfold bind. rewrite H. reflexivity. Qed.
Arguments bind_Raise {A B c} k {m e m1} _.

Lemma bind_inv A B (c : M A) (k : A -> M B) m r m' :
  bind c k m = Some (r, m') ->
  (exists a m1, c m = Some (Ok a, m1) /\ k a m1 = Some (r, m')) \/
  (exists e, c m = Some (Raise e, m') /\ r = Raise e).
Proof.
  unfold bind. destruct (c m) as [[[a|e] m1]|]; intros H.
  - left. eauto.
  - right. inversion H; subst. eauto.
  - discriminate.
Qed.

(** Split a run of [bind c k] into the run of [c] and, when [c] returned,
    the run of [k]. *)
Tactic Notation "bind_step" hyp(H) "as" ident(a) ident(mi) ident(Hc) ident(Hk) :=
  apply bind_inv in H;
  destruct H as [(a & mi & Hc & Hk) | (a & Hc & Hk)].

Ltac inv H := inversion H; clear H; subst.

(** Solve a goal [c m = Some ...] on a concrete machine by running [c]. *)
Ltac run :=
  lazymatch goal with
  | |- ?l = _ => tryif has_evar l then fail "not a concrete run" else (vm_compute; reflexivity)
  end.

(** [H : c ms = Some (_, _)] for the machine [ms] that the run [Hprev] ended in. *)
Tactic Notation "run_on" hyp(Hprev) constr(c) "as" ident(H) :=
  lazymatch type of Hprev with
  | _ = Some (_, ?ms) => eassert (H : c ms = Some (_, _)) by run
  end.

Ltac stage_by_running :=
  unfold cl2_found, cl1_selected, cl1_found;
  repeat first [eexists | split];
  try (left; run); try (right; eexists; split; run); try run.

(** ** Frame properties

    A relation between the machine before and after that every
    observation of the world and every [uart.read] respects is respected
    by the flush, the receive loops and [_read_response]. *)
Section Frame.
Variable P : machine -> machine -> Prop.
Hypothesis P_refl : forall m, P m m.
Hypothesis P_trans : forall m1 m2 m3, P m1 m2 -> P m2 m3 -> P m1 m3.
Hypothesis P_env : forall m, P m (env_step m).
Hypothesis P_read : forall n m,
  P m (Machine (skipn n (rx m)) (tx m) (now m) (sched m) (device_name m) (last_atqa m)).

Lemma frame_flush fuel : forall m r m',
  _flush_rx fuel m = Some (r, m') -> P m m'.
Proof.
  induction fuel as [|fuel IH]; intros m r m' H; [discriminate|].
  cbn [_flush_rx] in H. unfold bind at 1, in_waiting at 1 in H.
  destruct (length (rx (env_step m)) =? 0)%nat.
  - inv H. apply P_env.
  - unfold bind at 1, in_waiting at 1 in H.
    unfold bind at 1, uart_read at 1 in H.
    apply IH in H.
    eapply P_trans; [apply P_env|]. eapply P_trans; [apply P_env|].
    eapply P_trans; [apply P_read|exact H].
Qed.

Lemma frame_wait fuel start T msg : forall m r m',
  wait_byte fuel start T msg m = Some (r, m') -> P m m'.
Proof.
  induction fuel as [|fuel IH]; intros m r m' H; [discriminate|].
  cbn [wait_byte] in H. unfold bind at 1, in_waiting at 1 in H.
  destruct (length (rx (env_step m)) =? 0)%nat.
  - unfold bind at 1, monotonic at 1 in H.
    destruct (fgt (fsub (seconds (now (env_step (env_step m)))) start) T).
    + inv H. eapply P_trans; apply P_env.
    + apply IH in H. eapply P_trans; [apply P_env|].
      eapply P_trans; [apply P_env|exact H].
  - inv H. apply P_env.
Qed.

Lemma frame_data fuel start T len : forall data m r m',
  read_data fuel start T len data m = Some (r, m') -> P m m'.
Proof.
  induction fuel as [|fuel IH]; intros data m r m' H; [discriminate|].
  cbn [read_data] in H.
  destruct (length data <? len)%nat.
  - unfold bind at 1, in_waiting at 1 in H.
    destruct (0 <? length (rx (env_step m)))%nat.
    + unfold bind at 1, uart_read at 1 in H. apply IH in H.
      eapply P_trans; [apply P_env|]. eapply P_trans; [apply P_read|exact H].
    + unfold bind at 1, monotonic at 1 in H.
      destruct (fgt (fsub (seconds (now (env_step (env_step m)))) start) T).
      * inv H. eapply P_trans; apply P_env.
      * apply IH in H. eapply P_trans; [apply P_env|].
        eapply P_trans; [apply P_env|exact H].
  - inv H. apply P_refl.
Qed.

Lemma frame_item0 buf m r m' : item0 buf m = Some (r, m') -> m' = m.
Proof. destruct buf; intros H; inv H; reflexivity. Qed.

Lemma frame_read_response fuel timeout_ms m r m' :
  _read_response fuel timeout_ms m = Some (r, m') -> P m m'.
Proof.
  unfold _read_response. intros H.
  unfold bind at 1, monotonic at 1 in H.
  eapply P_trans; [apply P_env|].
  bind_step H as u1 m1 W1 H; [|apply frame_wait in W1; exact W1].
  apply frame_wait in W1. eapply P_trans; [exact W1|].
  unfold bind at 1, uart_read at 1 in H.
  eapply P_trans; [apply (P_read 1)|].
  bind_step H as code m2 I1 H; [|apply frame_item0 in I1; subst; apply P_refl].
  apply frame_item0 in I1; subst m2.
  bind_step H as u2 m3 W2 H; [|apply frame_wait in W2; exact W2].
  apply frame_wait in W2. eapply P_trans; [exact W2|].
  unfold bind at 1, uart_read at 1 in H.
  eapply P_trans; [apply (P_read 1)|].
  bind_step H as len m4 I2 H; [|apply frame_item0 in I2; subst; apply P_refl].
  apply frame_item0 in I2; subst m4.
  bind_step H as data m5 D H; [|apply frame_data in D; exact D].
  apply frame_data in D. inv H. exact D.
Qed.
End Frame.

Lemma untouched_refl m : untouched m m.
Proof. repeat split. Qed.

Lemma untouched_trans m1 m2 m3 : untouched m1 m2 -> untouched m2 m3 -> untouched m1 m3.
Proof. unfold untouched. intuition congruence. Qed.

Lemma untouched_env m : untouched m (env_step m).
Proof. unfold env_step. destruct (sched m); repeat split. Qed.

Lemma untouched_read n m :
  untouched m (Machine (skipn n (rx m)) (tx m) (now m) (sched m) (device_name m) (last_atqa m)).
Proof. repeat split. Qed.

Lemma read_response_untouched fuel timeout_ms m r m' :
  _read_response fuel timeout_ms m = Some (r, m') -> untouched m m'.
Proof.
  apply (frame_read_response untouched);
    [exact untouched_refl | exact untouched_trans | exact untouched_env
    | exact untouched_read].
Qed.

Lemma flush_untouched fuel m r m' :
  _flush_rx fuel m = Some (r, m') -> untouched m m'.
Proof.
  apply (frame_flush untouched);
    [exact untouched_trans | exact untouched_env | exact untouched_read].
Qed.

(** ** Bytes taken off the line *)

Lemma takes_refl m : takes m [] m.
Proof. exists []. simpl. rewrite app_nil_r. auto. Qed.

Lemma takes_env m : takes m [] (env_step m).
Proof.
  unfold env_step. destruct (sched m) as [|t ts] eqn:E.
  - exists []. rewrite E. simpl. rewrite app_nil_r. auto.
  - exists [t]. simpl. rewrite E, app_nil_r. auto.
Qed.

Lemma takes_read n m :
  takes m (firstn n (rx m))
        (Machine (skipn n (rx m)) (tx m) (now m) (sched m) (device_name m) (last_atqa m)).
Proof. exists []. simpl. rewrite app_nil_r, firstn_skipn. auto. Qed.

Lemma takes_trans m1 a m2 b m3 :
  takes m1 a m2 -> takes m2 b m3 -> takes m1 (a ++ b) m3.
Proof.
  intros (p1 & S1 & R1) (p2 & S2 & R2). exists (p1 ++ p2). split.
  - rewrite S1, S2, app_assoc. reflexivity.
  - unfold inflow in *. rewrite flat_map_app, app_assoc, R1, <- app_assoc, R2, app_assoc.
    reflexivity.
Qed.
Arguments takes_trans {m1 a m2 b m3} _ _.

Lemma takes_nil_l m1 m2 b m3 : takes m1 [] m2 -> takes m2 b m3 -> takes m1 b m3.
Proof. intros H1 H2. exact (takes_trans H1 H2). Qed.
Arguments takes_nil_l {m1 m2 b m3} _ _.

Lemma takes_nil_r m1 a m2 m3 : takes m1 a m2 -> takes m2 [] m3 -> takes m1 a m3.
Proof. intros H1 H2. rewrite <- (app_nil_r a). exact (takes_trans H1 H2). Qed.
Arguments takes_nil_r {m1 a m2 m3} _ _.

(** What a wait for one byte can end in: a byte is there, or the clock has
    passed the deadline. *)
Lemma wait_byte_spec fuel start T msg : forall m r m',
  wait_byte fuel start T msg m = Some (r, m') ->
  takes m [] m' /\
  ((r = Ok tt /\ rx m' <> []) \/
   (r = Raise (TimeoutError msg) /\ overdue T start (reading m') = true)).
Proof.
  induction fuel as [|fuel IH]; intros m r m' H; [discriminate|].
  cbn [wait_byte] in H. unfold bind at 1, in_waiting at 1 in H.
  destruct (length (rx (env_step m)) =? 0)%nat eqn:E.
  - unfold bind at 1, monotonic at 1 in H.
    destruct (fgt (fsub (seconds (now (env_step (env_step m)))) start) T) eqn:G.
    + inv H. split.
      * eapply takes_nil_l; apply takes_env.
      * right. split; [reflexivity|exact G].
    + apply IH in H. destruct H as [Ht Hr]. split; [|exact Hr].
      eapply takes_nil_l; [apply takes_env|].
      eapply takes_nil_l; [apply takes_env|exact Ht].
  - inv H. split; [apply takes_env|]. left. split; [reflexivity|].
    apply Nat.eqb_neq in E. intros Hnil. rewrite Hnil in E. apply E. reflexivity.
Qed.

(** What the payload loop can end in: exactly [len] bytes, or fewer and the
    clock past the deadline. *)
Lemma read_data_spec fuel start T len : forall data m r m',
  read_data fuel start T len data m = Some (r, m') ->
  length data <= len ->
  exists got,
    takes m got m' /\
    ((r = Ok (data ++ got) /\ length (data ++ got) = len) \/
     (r = Raise (TimeoutError (msg_data (length (data ++ got)) len)) /\
      length (data ++ got) < len /\ overdue T start (reading m') = true)).
Proof.
  induction fuel as [|fuel IH]; intros data m r m' H Hle; [discriminate|].
  cbn [read_data] in H.
  destruct (length data <? len)%nat eqn:L.
  - apply Nat.ltb_lt in L.
    unfold bind at 1, in_waiting at 1 in H.
    destruct (0 <? length (rx (env_step m)))%nat eqn:A.
    + unfold bind at 1, uart_read at 1 in H.
      apply IH in H.
      * destruct H as (got & Ht & Hr).
        exists (firstn (Nat.min (length (rx (env_step m))) (len - length data))
                       (rx (env_step m)) ++ got).
        split.
        -- eapply takes_nil_l; [apply takes_env|].
           eapply takes_trans; [apply takes_read|exact Ht].
        -- rewrite app_assoc. exact Hr.
      * rewrite length_app, length_firstn. lia.
    + unfold bind at 1, monotonic at 1 in H.
      destruct (fgt (fsub (seconds (now (env_step (env_step m)))) start) T) eqn:G.
      * inv H. exists []. split.
        -- eapply takes_nil_l; apply takes_env.
        -- right. rewrite app_nil_r. split; [reflexivity|]. split; [exact L|exact G].
      * apply IH in H; [|exact Hle]. destruct H as (got & Ht & Hr).
        exists got. split; [|exact Hr].
        eapply takes_nil_l; [apply takes_env|].
        eapply takes_nil_l; [apply takes_env|exact Ht].
  - apply Nat.ltb_ge in L. inv H. exists []. split; [apply takes_refl|].
    left. rewrite app_nil_r. split; [reflexivity|lia].
Qed.

Lemma item0_firstn m r m' (buf : list byte) :
  buf <> [] -> item0 (firstn 1 buf) m = Some (r, m') ->
  exists b, r = Ok b /\ firstn 1 buf = [b] /\ m' = m.
Proof.
  destruct buf as [|b buf]; [congruence|]. simpl. intros _ H. inv H. eauto.
Qed.
Arguments item0_firstn {m r m' buf} _ _.

(** * The transport framer: [_read_response] *)

Lemma read_response_outcome fuel timeout_ms m r m' :
  _read_response fuel timeout_ms m = Some (r, m') ->
  receive_outcome timeout_ms m r m'.
Proof.
  unfold _read_response. intros H.
  unfold bind at 1, monotonic at 1 in H.
  pose proof (takes_env m) as T0.
  bind_step H as u1 m1 W1 H.
  2:{ subst r. apply wait_byte_spec in W1. destruct W1 as [Tk [[E _]|[E Hd]]]; inv E.
      apply No_result_code; [exact (takes_nil_l T0 Tk)|exact Hd]. }
  apply wait_byte_spec in W1. destruct W1 as [T1 [[_ Hrx]|[? _]]]; [|discriminate].
  unfold bind at 1, uart_read at 1 in H.
  bind_step H as code m2 I1 H.
  2:{ apply (item0_firstn Hrx) in I1. destruct I1 as (? & ? & _); discriminate. }
  destruct (item0_firstn Hrx I1) as (b & Eb & F1 & ->). inv Eb.
  pose proof (takes_read 1 m1) as R1. rewrite F1 in R1.
  pose proof (takes_nil_l (takes_nil_l T0 T1) R1) as Tc. clear I1.
  bind_step H as u2 m3 W2 H.
  2:{ subst r. apply wait_byte_spec in W2. destruct W2 as [Tk [[E _]|[E Hd]]]; inv E.
      apply No_length_byte with (code := b); [exact (takes_nil_r Tc Tk)|exact Hd]. }
  apply wait_byte_spec in W2. destruct W2 as [T2 [[_ Hrx2]|[? _]]]; [|discriminate].
  unfold bind at 1, uart_read at 1 in H.
  bind_step H as len m4 I2 H.
  2:{ apply (item0_firstn Hrx2) in I2. destruct I2 as (? & ? & _); discriminate. }
  destruct (item0_firstn Hrx2 I2) as (l & El & F2 & ->). inv El.
  pose proof (takes_read 1 m3) as R2. rewrite F2 in R2.
  pose proof (takes_trans (takes_nil_r Tc T2) R2) as Tl. simpl in Tl. clear I2.
  bind_step H as data m5 D H.
  - inv H. apply read_data_spec in D; [|simpl; lia].
    destruct D as (got & Tg & [[E Hlen]|[E _]]); [|discriminate].
    inv E. simpl in *. apply Received with (len := l); [exact Hlen|].
    exact (takes_trans Tl Tg).
  - subst r. apply read_data_spec in D; [|simpl; lia].
    destruct D as (got & Tg & [[E _]|(E & Hlt & Hd)]); [discriminate|].
    inv E. simpl in *. apply Short_payload with (code := b).
    + exact (takes_trans Tl Tg).
    + exact Hlt.
    + exact Hd.
Qed.

(** ** Clock readings along the schedule *)

Lemma clock_after_1 m : clock_after m 1 = now (env_step m).
Proof.
  unfold clock_after, env_step. destruct (sched m) as [|t ts]; simpl; lia.
Qed.

Lemma seen_first m : seen m 1 = reading (env_step m).
Proof. unfold seen, reading. rewrite clock_after_1. reflexivity. Qed.

Lemma clock_after_env m i : clock_after (env_step m) i = clock_after m (S i).
Proof.
  unfold clock_after, env_step. destruct (sched m) as [|t ts] eqn:E.
  - rewrite E, !firstn_nil. reflexivity.
  - cbn [now sched firstn lapse]. lia.
Qed.

Lemma seen_env T s m i : overdue T s (seen (env_step m) i) = overdue T s (seen m (S i)).
Proof. unfold seen. rewrite clock_after_env. reflexivity. Qed.

Lemma seen_0 T s m : overdue T s (seen m 0) = overdue T s (reading m).
Proof.
  unfold seen, reading, clock_after. cbn [firstn lapse]. rewrite Z.add_0_r. reflexivity.
Qed.

Lemma seen_1 T s m : overdue T s (seen m 1) = overdue T s (reading (env_step m)).
Proof. rewrite <- seen_env. apply seen_0. Qed.


Lemma clock_after_end m i :
  length (sched m) <= i -> clock_after m i = clock_after m (length (sched m)).
Proof.
  intros L. unfold clock_after. rewrite (firstn_all2 (n := i)) by exact L.
  rewrite firstn_all. reflexivity.
Qed.

Lemma in_time_env T s m n : in_time T s m n -> in_time T s (env_step m) (pred n).
Proof. intros H i Hi. rewrite seen_env. apply H. lia. Qed.

Lemma in_time_first T s m n :
  in_time T s m n -> 0 < n -> overdue T s (reading (env_step m)) = false.
Proof. intros H N. rewrite <- seen_1. apply H. lia. Qed.

(** [in_time] and [starved] on a concrete line of fewer than [k] ticks, by
    running the comparison at each observation. *)
Tactic Notation "each_reading" int_or_var(k) :=
  let i := fresh "i" in
  let Hi := fresh "Hi" in
  intros i Hi;
  do k (destruct i as [|i]; [first [exfalso; lia | vm_compute; reflexivity]|]);
  first [ exfalso; lia
        | unfold seen; rewrite clock_after_end by (vm_compute; lia);
          vm_compute; reflexivity ].

Tactic Notation "starved_on_line" int_or_var(k) :=
  split; [reflexivity|split; [reflexivity|split; each_reading k]].

(** ** Frames that arrive in time *)

Lemma arrives_by_env m n want :
  arrives_by m n want -> arrives_by (env_step m) (pred n) want.
Proof.
  unfold arrives_by, env_step. intros [rest Hp].
  destruct (sched m) as [|t ts] eqn:E.
  - rewrite E. rewrite firstn_nil in *. exists rest. exact Hp.
  - destruct n as [|n]; simpl in *.
    + exists (rest ++ arriving t). rewrite app_nil_r in *. rewrite Hp, app_assoc. reflexivity.
    + exists rest. rewrite <- app_assoc. exact Hp.
Qed.

Lemma ready_env T s m n want :
  ready T s m n want ->
  ready T s (env_step m) (pred n) want /\
  (0 < n -> overdue T s (reading (env_step m)) = false).
Proof.
  intros [A I]. split.
  - split; [exact (arrives_by_env _ _ _ A)|exact (in_time_env _ _ _ _ I)].
  - exact (in_time_first _ _ _ _ I).
Qed.
Arguments ready_env {T s m n want} _.

Lemma ready_needs_tick T s m n b want :
  ready T s m n (b :: want) -> rx m = [] -> 0 < n.
Proof.
  intros [[rest Hp] _] E. destruct n; [|lia].
  rewrite E in Hp. simpl in Hp. discriminate.
Qed.
Arguments ready_needs_tick {T s m n b want} _ _.

Lemma app_eq_split (c rx0 x y : list byte) :
  rx0 ++ x = c ++ y -> length c <= length rx0 ->
  firstn (length c) rx0 = c /\ skipn (length c) rx0 ++ x = y.
Proof.
  revert rx0. induction c as [|a c IH]; intros rx0 H L; simpl in *.
  - auto.
  - destruct rx0 as [|b rx0]; simpl in *; [lia|].
    inversion H; subst. destruct (IH rx0 H2) as [F S]; [lia|].
    rewrite F. auto.
Qed.
Arguments app_eq_split {c rx0 x y} _ _.

Lemma ready_read T s m n c want :
  ready T s m n (c ++ want) -> length c <= length (rx m) ->
  firstn (length c) (rx m) = c /\
  ready T s (Machine (skipn (length c) (rx m)) (tx m) (now m) (sched m)
                     (device_name m) (last_atqa m)) n want.
Proof.
  intros [[rest Hp] Hc] L. rewrite <- app_assoc in Hp.
  destruct (app_eq_split Hp L) as [F S].
  split; [exact F|]. split; [exists rest; exact S|exact Hc].
Qed.
Arguments ready_read {T s m n} c want _ _.

Lemma wait_byte_ready start T msg b want : forall fuel n m,
  ready T start m n (b :: want) -> n < fuel ->
  exists m' n',
    wait_byte fuel start T msg m = Some (Ok tt, m') /\
    ready T start m' n' (b :: want) /\ n' <= n /\ rx m' <> [].
Proof.
  induction fuel as [|fuel IH]; intros n m R L; [lia|].
  cbn [wait_byte]. unfold bind at 1, in_waiting at 1.
  destruct (ready_env R) as [R1 _].
  destruct (rx (env_step m)) as [|x xs] eqn:E.
  - simpl. pose proof (ready_needs_tick R1 E) as N1.
    destruct (ready_env R1) as [R2 C2]. specialize (C2 N1).
    unfold bind at 1, monotonic at 1.
    unfold overdue, reading in C2. rewrite C2.
    assert (L2 : pred (pred n) < fuel) by lia.
    destruct (IH (pred (pred n)) _ R2 L2) as (m' & n' & W & R' & Ln & Hrx).
    exists m', n'. split; [exact W|]. split; [exact R'|]. split; [lia|exact Hrx].
  - simpl. exists (env_step m), (pred n).
    split; [reflexivity|]. split; [exact R1|]. split; [lia|].
    rewrite E. discriminate.
Qed.

Lemma read_data_ready start T len : forall fuel n data want m,
  ready T start m n want ->
  length data + length want = len ->
  n + length want < fuel ->
  exists m', read_data fuel start T len data m = Some (Ok (data ++ want), m').
Proof.
  induction fuel as [|fuel IH]; intros n data want m R Hlen L; [lia|].
  cbn [read_data].
  destruct (length data <? len)%nat eqn:Lt.
  - apply Nat.ltb_lt in Lt.
    destruct want as [|b want]; [simpl in Hlen; lia|].
    unfold bind at 1, in_waiting at 1.
    destruct (ready_env R) as [R1 _].
    destruct (rx (env_step m)) as [|x xs] eqn:E.
    + simpl. pose proof (ready_needs_tick R1 E) as N1.
      destruct (ready_env R1) as [R2 C2]. specialize (C2 N1).
      unfold bind at 1, monotonic at 1.
      unfold overdue, reading in C2. rewrite C2.
      apply (IH (pred (pred n)) data (b :: want) _ R2 Hlen). simpl in *. lia.
    + cbn [length Nat.ltb Nat.leb]. unfold bind at 1, uart_read at 1.
      set (k := Nat.min (S (length xs)) (len - length data)).
      assert (Hk : 1 <= k /\ k <= length (b :: want) /\ k <= length (rx (env_step m))).
      { rewrite E. subst k. cbn [length] in *. lia. }
      destruct Hk as (K1 & K2 & K3).
      set (c := firstn k (b :: want)).
      assert (Hc : length c = k) by (subst c; rewrite length_firstn; lia).
      rewrite <- (firstn_skipn k (b :: want)) in R1. fold c in R1.
      assert (K4 : length c <= length (rx (env_step m))) by lia.
      destruct (ready_read c (skipn k (b :: want)) R1 K4) as [F R2].
      rewrite Hc in F, R2. rewrite F.
      assert (L1 : length (data ++ c) + length (skipn k (b :: want)) = len).
      { rewrite length_app, length_skipn, Hc. lia. }
      assert (L2 : pred n + length (skipn k (b :: want)) < fuel).
      { rewrite length_skipn. cbn [length] in *. lia. }
      destruct (IH (pred n) (data ++ c) (skipn k (b :: want)) _ R2 L1 L2) as (m' & Hm').
      exists m'. rewrite Hm'. rewrite <- app_assoc. subst c.
      rewrite firstn_skipn. reflexivity.
  - apply Nat.ltb_ge in Lt. destruct want; [|simpl in Hlen; lia].
    rewrite app_nil_r. eexists. reflexivity.
Qed.

Lemma to_nat_inj (a b : byte) : Byte.to_nat a = Byte.to_nat b -> a = b.
Proof.
  intros H. pose proof (Byte.of_to_nat a) as Ha. rewrite H, Byte.of_to_nat in Ha.
  congruence.
Qed.

Lemma nonempty_length (l : list byte) : l <> [] -> 1 <= length l.
Proof. destruct l; [congruence|simpl; lia]. Qed.

(** A frame that is ready is received. *)
Lemma read_response_ready fuel timeout_ms m n code len payload :
  length payload = Byte.to_nat len ->
  ready (budget timeout_ms) (reading (env_step m)) m n (code :: len :: payload) ->
  n + length payload < fuel ->
  exists m', _read_response fuel timeout_ms m = Some (Ok (code, payload), m').
Proof.
  intros Hlen R Hfuel.
  unfold _read_response. unfold bind at 1, monotonic at 1.
  change (seconds (now (env_step m))) with (reading (env_step m)).
  change (fdiv (float_of_int timeout_ms) (float_of_int 1000)) with (budget timeout_ms).
  cbv zeta.
  set (start := reading (env_step m)) in *. set (T := budget timeout_ms) in *.
  destruct (ready_env R) as [R0 _].
  assert (F0 : pred n < fuel) by lia.
  destruct (wait_byte_ready start T msg_result_code _ _ fuel _ _ R0 F0)
    as (m1 & n1 & W1 & R1 & N1 & X1).
  rewrite (bind_Ok _ W1).
  unfold bind at 1, uart_read at 1.
  destruct (ready_read [code] (len :: payload) R1 (nonempty_length _ X1)) as [E1 R1'].
  cbn [length] in E1, R1'. rewrite E1. cbn [item0]. unfold bind at 1, ret at 1.
  assert (F1 : n1 < fuel) by lia.
  destruct (wait_byte_ready start T msg_length_byte _ _ fuel _ _ R1' F1)
    as (m2 & n2 & W2 & R2 & N2 & X2).
  rewrite (bind_Ok _ W2).
  unfold bind at 1, uart_read at 1.
  assert (X2' : 1 <= length (rx m2)) by (apply nonempty_length; exact X2).
  destruct (ready_read [len] payload R2 X2') as [E2 R2'].
  cbn [length] in E2, R2'. rewrite E2. cbn [item0]. unfold bind at 1, ret at 1.
  assert (F2 : n2 + length payload < fuel) by lia.
  assert (L0 : length (@nil byte) + length payload = Byte.to_nat len) by (simpl; lia).
  destruct (read_data_ready start T _ fuel _ [] payload _ R2' L0 F2) as (m3 & D).
  rewrite (bind_Ok _ D). exists m3. reflexivity.
Qed.

(** C5: a response frame [code, len, payload] all of whose bytes arrive
    within the timeout budget (by the [n]-th observation of the world, no
    clock reading up to then being over [timeout_ms / 1000.0] seconds past
    the reading taken at entry, by the driver's own float comparison) is
    returned as exactly [(code, payload)], with exactly [len] payload bytes
    taken off the line, however the schedule cuts the frame into
    arrivals. *)
Theorem read_response_reassembles fuel timeout_ms m n code len payload :
  length payload = Byte.to_nat len ->
  arrives_by m n (code :: len :: payload) ->
  in_time (budget timeout_ms) (seen m 1) m n ->
  n + length payload < fuel ->
  exists m',
    _read_response fuel timeout_ms m = Some (Ok (code, payload), m') /\
    takes m (code :: len :: payload) m'.
Proof.
  intros Hlen Harr Hbudget Hfuel.
  assert (R : ready (budget timeout_ms) (reading (env_step m)) m n (code :: len :: payload)).
  { split; [exact Harr|]. rewrite <- seen_first. exact Hbudget. }
  destruct (read_response_ready _ _ _ _ _ _ _ Hlen R Hfuel) as (m' & Hrun).
  exists m'. split; [exact Hrun|].
  pose proof (read_response_outcome _ _ _ _ _ Hrun) as O. inversion O; subst.
  assert (len0 = len) by (apply to_nat_inj; congruence). subst. assumption.
Qed.

Lemma read_response_reassembles_witness :
  exists m',
    _read_response 10 50 chunked_line = Some (Ok (x80, [x01; x02; x03]), m') /\
    takes chunked_line [x80; x03; x01; x02; x03] m'.
Proof.
  apply (read_response_reassembles 10 50 chunked_line 5 x80 x03 [x01; x02; x03]).
  - reflexivity.
  - exists []. reflexivity.
  - each_reading 6.
  - simpl. lia.
Defined.

(** ** Frames that do not arrive in time *)










(** * Frames written *)

Lemma flush_ok fuel : forall m r m', _flush_rx fuel m = Some (r, m') -> r = Ok tt.
Proof.
  induction fuel as [|fuel IH]; intros m r m' H; [discriminate|].
  cbn [_flush_rx] in H. unfold bind at 1, in_waiting at 1 in H.
  destruct (length (rx (env_step m)) =? 0)%nat.
  - inv H. reflexivity.
  - unfold bind at 1, in_waiting at 1 in H. unfold bind at 1, uart_read at 1 in H.
    exact (IH _ _ _ H).
Qed.

(** [_send_cmd] writes the one frame [cmd, len(data), data...]. *)
Lemma send_cmd_writes fuel cmd data len m r m' :
  Byte.of_nat (length data) = Some len ->
  _send_cmd fuel cmd data m = Some (r, m') ->
  r = Ok tt /\ tx m' = tx m ++ [cmd :: len :: data] /\
  device_name m' = device_name m /\ last_atqa m' = last_atqa m.
Proof.
  unfold _send_cmd, byte_of_len. intros L H. rewrite L in H.
  unfold bind at 1, ret at 1 in H.
  bind_step H as u m1 F H.
  - destruct (flush_untouched _ _ _ _ F) as (Tx & Dn & La).
    unfold uart_write in H. inv H. simpl. rewrite Tx, Dn, La. auto.
  - apply flush_ok in F. discriminate.
Qed.

(** [_sendrecv] writes the one frame [0x04, len, rf_data..., flags],
    whatever the response. *)
Lemma sendrecv_writes fuel rf flags len m r m' :
  Byte.of_nat (length (rf ++ [flags])) = Some len ->
  _sendrecv fuel rf flags m = Some (r, m') ->
  tx m' = tx m ++ [CMD_SENDRECV :: len :: rf ++ [flags]] /\
  device_name m' = device_name m /\ last_atqa m' = last_atqa m.
Proof.
  unfold _sendrecv. intros L H.
  bind_step H as u m1 S H.
  - destruct (send_cmd_writes _ _ _ _ _ _ _ L S) as (_ & Tx & Dn & La).
    destruct (read_response_untouched _ _ _ _ _ H) as (Tx' & Dn' & La').
    rewrite Tx', Dn', La'. auto.
  - destruct (send_cmd_writes _ _ _ _ _ _ _ L S) as (E & _). discriminate.
Qed.

Lemma stateless_ret A (a : A) : stateless (ret a).
Proof. intros m r m' H. inv H. reflexivity. Qed.

Lemma stateless_raise A e : stateless (@raise A e).
Proof. intros m r m' H. inv H. reflexivity. Qed.

Lemma stateless_item data i : stateless (item data i).
Proof.
  unfold item. destruct (nth_error data i); [apply stateless_ret|apply stateless_raise].
Qed.

Lemma stateless_bind A B (c : M A) (k : A -> M B) :
  stateless c -> (forall a, stateless (k a)) -> stateless (bind c k).
Proof.
  intros Hc Hk m r m' H. bind_step H as a m1 C H.
  - apply Hc in C. apply Hk in H. congruence.
  - apply Hc in C. exact C.
Qed.

Lemma bind_stateless_tail A B (c : M A) (k : A -> M B) m r m' :
  (forall a, stateless (k a)) ->
  bind c k m = Some (r, m') -> exists r0, c m = Some (r0, m').
Proof.
  intros Hk H. bind_step H as a m1 C H.
  - apply Hk in H. subst. eauto.
  - eauto.
Qed.

Ltac stateless :=
  repeat first
    [ apply stateless_ret | apply stateless_raise | apply stateless_item
    | apply stateless_bind; [|intro]
    | match goal with |- stateless (if ?b then _ else _) => destruct b end
    | match goal with |- stateless (match ?x with _ => _ end) => destruct x end ].

Lemma reqa_wupa_writes fuel cmd m r m' :
  _reqa_wupa fuel cmd m = Some (r, m') -> wrote (short_frame cmd) m m'.
Proof.
  unfold _reqa_wupa. intros H.
  apply bind_stateless_tail in H; [|intros [code data]; stateless].
  destruct H as (r0 & H).
  exact (sendrecv_writes fuel [cmd] FLAG_SHORTFRAME x02 m r0 m' eq_refl H).
Qed.

Lemma anticoll_cl1_writes fuel m r m' :
  _anticoll_cl1 fuel m = Some (r, m') -> wrote (anticoll_frame ISO14443A_SEL_CL1) m m'.
Proof.
  unfold _anticoll_cl1. intros H.
  apply bind_stateless_tail in H; [|intros [code data]; stateless].
  destruct H as (r0 & H).
  exact (sendrecv_writes fuel [ISO14443A_SEL_CL1; ISO14443A_NVB_ANTICOLL] FLAG_STD x03 m r0 m' eq_refl H).
Qed.

Lemma anticoll_cl2_writes fuel m r m' :
  _anticoll_cl2 fuel m = Some (r, m') -> wrote (anticoll_frame ISO14443A_SEL_CL2) m m'.
Proof.
  unfold _anticoll_cl2. intros H.
  apply bind_stateless_tail in H; [|intros [code data]; stateless].
  destruct H as (r0 & H).
  exact (sendrecv_writes fuel [ISO14443A_SEL_CL2; ISO14443A_NVB_ANTICOLL] FLAG_STD x03 m r0 m' eq_refl H).
Qed.

Lemma select_len (uid_bcc : list byte) (a b : byte) :
  length uid_bcc = 5 -> Byte.of_nat (length (([a; b] ++ uid_bcc) ++ [FLAG_STD_CRC])) = Some x08.
Proof. intros H. rewrite !length_app, H. reflexivity. Qed.

Lemma select_cl1_writes fuel uid_bcc m r m' :
  length uid_bcc = 5 ->
  _select_cl1 fuel uid_bcc m = Some (r, m') ->
  wrote (select_frame ISO14443A_SEL_CL1 uid_bcc) m m'.
Proof.
  unfold _select_cl1. intros L H.
  apply bind_stateless_tail in H; [|intros [code data]; stateless].
  destruct H as (r0 & H).
  exact (sendrecv_writes fuel _ FLAG_STD_CRC x08 m r0 m' (select_len _ _ _ L) H).
Qed.

Lemma select_cl2_writes fuel uid_bcc m r m' :
  length uid_bcc = 5 ->
  _select_cl2 fuel uid_bcc m = Some (r, m') ->
  wrote (select_frame ISO14443A_SEL_CL2 uid_bcc) m m'.
Proof.
  unfold _select_cl2. intros L H.
  apply bind_stateless_tail in H; [|intros [code data]; stateless].
  destruct H as (r0 & H).
  exact (sendrecv_writes fuel _ FLAG_STD_CRC x08 m r0 m' (select_len _ _ _ L) H).
Qed.

(** What the exchange helpers can return. *)
Lemma reqa_wupa_value fuel cmd m a b m' :
  _reqa_wupa fuel cmd m = Some (Ok (a, b), m') ->
  (a = None /\ b = None) \/ (exists x y, a = Some x /\ b = Some y).
Proof.
  unfold _reqa_wupa. intros H. bind_step H as cd m1 S H; [|discriminate].
  destruct cd as [code data].
  destruct (Byte.eqb code RSP_DATA && truthy data && (2 <=? length data)%nat).
  - unfold item in H. destruct data as [|d0 [|d1 data]]; simpl in H; try discriminate.
    inv H. right. eauto.
  - inv H. left. auto.
Qed.

Lemma anticoll_cl1_value fuel m cl m' :
  _anticoll_cl1 fuel m = Some (Ok (Some cl), m') -> length cl = 5.
Proof.
  unfold _anticoll_cl1. intros H. bind_step H as cd m1 S H; [|discriminate].
  destruct cd as [code data].
  remember (firstn 5 data) as cl0 eqn:Ecl in H.
  destruct (Byte.eqb code RSP_DATA); destruct (truthy data);
    destruct (5 <=? length data)%nat eqn:L; cbn [andb] in H; inv H.
  apply Nat.leb_le in L. rewrite length_firstn. lia.
Qed.

Lemma anticoll_cl2_value fuel m cl m' :
  _anticoll_cl2 fuel m = Some (Ok (Some cl), m') -> length cl = 5.
Proof.
  unfold _anticoll_cl2. intros H. bind_step H as cd m1 S H; [|discriminate].
  destruct cd as [code data].
  remember (firstn 5 data) as cl0 eqn:Ecl in H.
  destruct (Byte.eqb code RSP_DATA); destruct (truthy data);
    destruct (5 <=? length data)%nat eqn:L; cbn [andb] in H; inv H.
  apply Nat.leb_le in L. rewrite length_firstn. lia.
Qed.

(** * Discovery: the runs of [read_tag] *)

Lemma bind_ret A B (a : A) (k : A -> M B) m : bind (ret a) k m = k a m.
Proof. reflexivity. Qed.

Lemma store_atqa_both A a1 a2 (k : M A) m :
  bind (store_atqa 0 (Some a1)) (fun _ => bind (store_atqa 1 (Some a2)) (fun _ => k)) m
  = k (with_atqa a1 a2 m).
Proof. reflexivity. Qed.

Lemma eqb_CT (b : byte) : Byte.eqb b ISO14443A_CT = true <-> b = ISO14443A_CT.
Proof.
  split; [apply Byte.byte_dec_bl|apply Byte.byte_dec_lb].
Qed.

Lemma wake_phase fuel m a b m1 q m2 :
  _reqa_wupa fuel ISO14443A_WUPA m = Some (Ok (a, b), m1) ->
  match a with
  | None => _reqa_wupa fuel ISO14443A_REQA
  | Some _ => ret (a, b)
  end m1 = Some (q, m2) ->
  (exists e, q = Raise e /\ a = None /\ b = None /\
             _reqa_wupa fuel ISO14443A_REQA m1 = Some (Raise e, m2)) \/
  (q = Ok (None, None) /\ a = None /\ b = None /\
   _reqa_wupa fuel ISO14443A_REQA m1 = Some (Ok (None, None), m2)) \/
  (exists x y, q = Ok (Some x, Some y) /\ atqa_obtained fuel m x y m2).
Proof.
  intros W Q.
  destruct (reqa_wupa_value _ _ _ _ _ _ W) as [[-> ->]|(x & y & -> & ->)].
  - destruct q as [[a' b']|e].
    + destruct (reqa_wupa_value _ _ _ _ _ _ Q) as [[-> ->]|(x & y & -> & ->)].
      * right. left. auto.
      * right. right. exists x, y. split; [reflexivity|]. right. eauto.
    + left. eauto.
  - inv Q. right. right. exists x, y. split; [reflexivity|]. left. exact W.
Qed.

(** Every run of [read_tag] is one of the thirteen of [discovery]. *)
Lemma read_tag_discovery fuel m r m' :
  read_tag fuel m = Some (r, m') -> discovery fuel m r m'.
Proof.
  unfold read_tag. intros H.
  bind_step H as w m1 W H; [|subst r; apply Wupa_raises; exact W].
  destruct w as [a b]. cbv beta iota in H.
  apply bind_inv in H.
  destruct H as [(q & m2 & Q & H)|(e & Q & ->)].
  2:{ destruct (wake_phase _ _ _ _ _ _ _ W Q)
        as [(e' & E & -> & -> & Q')|[(E & _)|(x & y & E & _)]]; try discriminate.
      inv E. eapply Reqa_raises; eauto. }
  destruct (wake_phase _ _ _ _ _ _ _ W Q)
    as [(e' & E & _)|[(E & -> & -> & Q')|(x & y & E & A)]]; try discriminate.
  - inv E. inv H. eapply No_atqa; eauto.
  - inv E. cbv beta iota in H. rewrite store_atqa_both in H.
    bind_step H as c1 m3 C1 H; [|subst r; eapply Anticoll1_raises; eauto].
    destruct c1 as [cl1|]; [|inv H; eapply Anticoll1_fails; eauto].
    assert (F1 : cl1_found fuel m cl1 m3) by (exists x, y, m2; auto).
    pose proof (anticoll_cl1_value _ _ _ _ C1) as L1.
    bind_step H as s1 m4 S1 H; [|subst r; eapply Select1_raises; eauto].
    destruct s1 as [sak1|]; [|inv H; eapply Select1_fails; eauto].
    assert (Sel : cl1_selected fuel m cl1 sak1 m4) by (exists m3; auto).
    destruct cl1 as [|c0 cl1]; [discriminate|].
    unfold item at 1 in H. cbn [nth_error] in H. rewrite bind_ret in H.
    destruct (Byte.eqb c0 ISO14443A_CT) eqn:Ect; cbn [negb] in H.
    + apply eqb_CT in Ect. subst c0.
      bind_step H as c2 m5 C2 H; [|subst r; eapply Anticoll2_raises; eauto].
      destruct c2 as [cl2|]; [|inv H; eapply Anticoll2_fails; eauto].
      assert (F2 : cl2_found fuel m (ISO14443A_CT :: cl1) cl2 m5)
        by (exists sak1, m4; auto).
      bind_step H as s2 m6 S2 H; [|subst r; eapply Select2_raises; eauto].
      destruct s2 as [sak2|].
      * remember (firstn 3 (skipn 1 (ISO14443A_CT :: cl1)) ++ firstn 4 cl2) as uid.
        inv H. eapply Double_size; eauto.
      * inv H. eapply Select2_fails; eauto.
    + remember (firstn 4 (c0 :: cl1)) as uid.
      inv H. apply Single_size; [exact Sel|].
      simpl. intros E. inv E. discriminate.
Qed.

Lemma eqb_not_CT (b : byte) : b <> ISO14443A_CT -> Byte.eqb b ISO14443A_CT = false.
Proof.
  intros N. destruct (Byte.eqb b ISO14443A_CT) eqn:E; [|reflexivity].
  apply eqb_CT in E. contradiction.
Qed.

Lemma eqb_CT_refl : Byte.eqb ISO14443A_CT ISO14443A_CT = true.
Proof. reflexivity. Qed.

(** Run [read_tag] forward along exchanges whose results are known. *)
Ltac forward :=
  repeat first
    [ rewrite bind_ret
    | rewrite store_atqa_both
    | match goal with
      | H : ?c ?m = Some (Ok _, _) |- context [bind ?c _ ?m] => rewrite (bind_Ok _ H)
      | H : ?c ?m = Some (Raise _, _) |- context [bind ?c _ ?m] => rewrite (bind_Raise _ H)
      end
    | progress cbv beta iota ].

Ltac open_stage :=
  repeat match goal with
  | H : cl2_found _ _ _ _ _ |- _ => destruct H as (? & ? & H & ? & ?)
  | H : cl1_selected _ _ _ _ _ |- _ => destruct H as (? & H & ?)
  | H : cl1_found _ _ _ _ |- _ => destruct H as (? & ? & ? & H & ?)
  | H : atqa_obtained _ _ _ _ _ |- _ => destruct H as [H|(? & H & ?)]
  end.

(** The first byte of a level-1 result and the test [cl1[0] != CT]. *)
Ltac open_cl1 :=
  match goal with
  | H : _anticoll_cl1 _ _ = Some (Ok (Some ?cl), _) |- _ =>
      let L := fresh "L" in
      pose proof (anticoll_cl1_value _ _ _ _ H) as L;
      destruct cl as [|? cl]; [discriminate L|];
      unfold item at 1; cbn [nth_error]
  end.

(** Conversely, each of the thirteen is a run of [read_tag]. *)
Lemma discovery_read_tag fuel m r m' :
  discovery fuel m r m' -> read_tag fuel m = Some (r, m').
Proof.
  intros D. destruct D; open_stage; unfold read_tag; forward;
    try reflexivity; try assumption;
    try (open_cl1; forward;
         match goal with
         | H : hd_error (_ :: _) = Some _ |- _ => simpl in H; inv H; rewrite eqb_CT_refl; cbn [negb]
         | H : hd_error (?c :: _) <> Some _ |- _ =>
             rewrite (eqb_not_CT c) by (intros ->; apply H; reflexivity); cbn [negb]
         end;
         forward; try reflexivity; try assumption).
Qed.

(** ** Frames written during discovery *)

Lemma levels_only_trans m1 m2 m3 :
  levels_only m1 m2 -> levels_only m2 m3 -> levels_only m1 m3.
Proof.
  intros (t1 & E1 & F1 & D1) (t2 & E2 & F2 & D2). exists (t1 ++ t2). split; [|split].
  - rewrite E2, E1, app_assoc. reflexivity.
  - apply Forall_app. auto.
  - congruence.
Qed.

Lemma wrote_level f m m' : level_frame f -> wrote f m m' -> levels_only m m'.
Proof.
  intros L (E & D & _). exists [f]. split; [exact E|]. split; [|exact D].
  constructor; [exact L|constructor].
Qed.

Lemma level_frames_no_request tail : Forall level_frame tail -> no_request tail.
Proof.
  intros F. split; intros I; rewrite Forall_forall in F; apply F in I;
    destruct I as [I|I]; discriminate I.
Qed.

Lemma anticoll1_level : level_frame (anticoll_frame ISO14443A_SEL_CL1).
Proof. left. reflexivity. Qed.

Lemma anticoll2_level : level_frame (anticoll_frame ISO14443A_SEL_CL2).
Proof. right. reflexivity. Qed.

Lemma select1_level cl : level_frame (select_frame ISO14443A_SEL_CL1 cl).
Proof. left. reflexivity. Qed.

Lemma select2_level cl : level_frame (select_frame ISO14443A_SEL_CL2 cl).
Proof. right. reflexivity. Qed.

Lemma cl1_found_levels fuel m cl1 m2 :
  cl1_found fuel m cl1 m2 ->
  length cl1 = 5 /\
  exists a1 a2 m1, atqa_obtained fuel m a1 a2 m1 /\ levels_only m1 m2.
Proof.
  intros (a1 & a2 & m1 & A & C). split; [exact (anticoll_cl1_value _ _ _ _ C)|].
  exists a1, a2, m1. split; [exact A|].
  apply anticoll_cl1_writes in C.
  destruct (wrote_level _ _ _ anticoll1_level C) as (t & E & F & D).
  exists t. split; [exact E|]. split; [exact F|exact D].
Qed.

Lemma cl1_selected_levels fuel m cl1 sak1 m3 :
  cl1_selected fuel m cl1 sak1 m3 ->
  length cl1 = 5 /\
  exists a1 a2 m1, atqa_obtained fuel m a1 a2 m1 /\ levels_only m1 m3.
Proof.
  intros (m2 & F & S). destruct (cl1_found_levels _ _ _ _ F) as (L & a1 & a2 & m1 & A & P).
  split; [exact L|]. exists a1, a2, m1. split; [exact A|].
  apply (levels_only_trans _ _ _ P).
  apply select_cl1_writes in S; [|exact L].
  exact (wrote_level _ _ _ (select1_level _) S).
Qed.

Lemma cl2_found_levels fuel m cl1 cl2 m4 :
  cl2_found fuel m cl1 cl2 m4 ->
  length cl2 = 5 /\
  exists a1 a2 m1, atqa_obtained fuel m a1 a2 m1 /\ levels_only m1 m4.
Proof.
  intros (sak1 & m3 & S & _ & C).
  destruct (cl1_selected_levels _ _ _ _ _ S) as (_ & a1 & a2 & m1 & A & P).
  split; [exact (anticoll_cl2_value _ _ _ _ C)|].
  exists a1, a2, m1. split; [exact A|].
  apply (levels_only_trans _ _ _ P).
  apply anticoll_cl2_writes in C.
  exact (wrote_level _ _ _ anticoll2_level C).
Qed.

(** A run of [read_tag] ends in the wake phase, or it obtained an ATQA and
    wrote only cascade-level frames from then on. *)
Lemma discovery_levels fuel m r m' :
  discovery fuel m r m' ->
  (exists e, r = Raise e /\ _reqa_wupa fuel ISO14443A_WUPA m = Some (Raise e, m')) \/
  (exists m0, _reqa_wupa fuel ISO14443A_WUPA m = Some (Ok (None, None), m0) /\
     ((exists e, r = Raise e /\ _reqa_wupa fuel ISO14443A_REQA m0 = Some (Raise e, m')) \/
      (r = Ok (None, None) /\
       _reqa_wupa fuel ISO14443A_REQA m0 = Some (Ok (None, None), m')))) \/
  (exists a1 a2 m1, atqa_obtained fuel m a1 a2 m1 /\ levels_only m1 m').
Proof.
  intros D. destruct D.
  - left. eauto.
  - right. left. eauto 6.
  - right. left. eauto 6.
  - right. right. exists a1, a2, m1. split; [assumption|].
    apply anticoll_cl1_writes in H0.
    destruct (wrote_level _ _ _ anticoll1_level H0) as (t & E & F & D). exists t. auto.
  - right. right. exists a1, a2, m1. split; [assumption|].
    apply anticoll_cl1_writes in H0.
    destruct (wrote_level _ _ _ anticoll1_level H0) as (t & E & F & D). exists t. auto.
  - right. right. destruct (cl1_found_levels _ _ _ _ H) as (L & a1 & a2 & m1 & A & P).
    exists a1, a2, m1. split; [exact A|]. apply (levels_only_trans _ _ _ P).
    apply select_cl1_writes in H0; [|exact L].
    exact (wrote_level _ _ _ (select1_level _) H0).
  - right. right. destruct (cl1_found_levels _ _ _ _ H) as (L & a1 & a2 & m1 & A & P).
    exists a1, a2, m1. split; [exact A|]. apply (levels_only_trans _ _ _ P).
    apply select_cl1_writes in H0; [|exact L].
    exact (wrote_level _ _ _ (select1_level _) H0).
  - right. right. destruct (cl1_selected_levels _ _ _ _ _ H) as (L & a1 & a2 & m1 & A & P).
    eauto.
  - right. right. destruct (cl1_selected_levels _ _ _ _ _ H) as (L & a1 & a2 & m1 & A & P).
    exists a1, a2, m1. split; [exact A|]. apply (levels_only_trans _ _ _ P).
    apply anticoll_cl2_writes in H1.
    exact (wrote_level _ _ _ anticoll2_level H1).
  - right. right. destruct (cl1_selected_levels _ _ _ _ _ H) as (L & a1 & a2 & m1 & A & P).
    exists a1, a2, m1. split; [exact A|]. apply (levels_only_trans _ _ _ P).
    apply anticoll_cl2_writes in H1.
    exact (wrote_level _ _ _ anticoll2_level H1).
  - right. right. destruct (cl2_found_levels _ _ _ _ _ H) as (L & a1 & a2 & m1 & A & P).
    exists a1, a2, m1. split; [exact A|]. apply (levels_only_trans _ _ _ P).
    apply select_cl2_writes in H0; [|exact L].
    exact (wrote_level _ _ _ (select2_level _) H0).
  - right. right. destruct (cl2_found_levels _ _ _ _ _ H) as (L & a1 & a2 & m1 & A & P).
    exists a1, a2, m1. split; [exact A|]. apply (levels_only_trans _ _ _ P).
    apply select_cl2_writes in H0; [|exact L].
    exact (wrote_level _ _ _ (select2_level _) H0).
  - right. right. destruct (cl2_found_levels _ _ _ _ _ H) as (L & a1 & a2 & m1 & A & P).
    exists a1, a2, m1. split; [exact A|]. apply (levels_only_trans _ _ _ P).
    apply select_cl2_writes in H0; [|exact L].
    exact (wrote_level _ _ _ (select2_level _) H0).
Qed.

(** C1: when the level-1 anticollision result starts with the cascade tag
    0x88 and the four exchanges succeed, [read_tag] returns the 7-byte UID
    made of bytes 1..3 of the level-1 result and bytes 0..3 of the level-2
    result, with the level-2 SAK. *)
Theorem read_tag_cascade fuel m cl1 sak1 m3 cl2 m4 sak2 m5 :
  cl1_selected fuel m cl1 sak1 m3 ->
  hd_error cl1 = Some ISO14443A_CT ->
  _anticoll_cl2 fuel m3 = Some (Ok (Some cl2), m4) ->
  _select_cl2 fuel cl2 m4 = Some (Ok (Some sak2), m5) ->
  exists c1 c2 c3 bcc1 d0 d1 d2 d3 bcc2,
    cl1 = [ISO14443A_CT; c1; c2; c3; bcc1] /\
    cl2 = [d0; d1; d2; d3; bcc2] /\
    read_tag fuel m = Some (Ok (Some [c1; c2; c3; d0; d1; d2; d3], Some sak2), m5).
Proof.
  intros S CT A2 S2.
  destruct (cl1_selected_levels _ _ _ _ _ S) as (L1 & _).
  pose proof (anticoll_cl2_value _ _ _ _ A2) as L2.
  assert (F2 : cl2_found fuel m cl1 cl2 m4) by (exists sak1, m3; auto).
  pose proof (discovery_read_tag _ _ _ _ (Double_size _ _ _ _ _ _ _ F2 S2)) as R.
  destruct cl1 as [|c0 [|c1 [|c2 [|c3 [|bcc1 [|? ?]]]]]]; try discriminate L1.
  destruct cl2 as [|d0 [|d1 [|d2 [|d3 [|bcc2 [|? ?]]]]]]; try discriminate L2.
  simpl in CT. inv CT.
  exists c1, c2, c3, bcc1, d0, d1, d2, d3, bcc2. auto.
Qed.

Lemma read_tag_cascade_witness :
  exists m',
    read_tag 10 (cascade_tag x20) =
    Some (Ok (Some [x11; x22; x33; x44; x55; x66; x77], Some x00), m').
Proof.
  eassert (S : cl1_selected 10 (cascade_tag x20) _ _ _) by stage_by_running.
  pose proof (fun cl2 m4 sak2 m5 =>
                read_tag_cascade _ _ _ _ _ cl2 m4 sak2 m5 S eq_refl) as T.
  edestruct T as (c1 & c2 & c3 & bcc1 & d0 & d1 & d2 & d3 & bcc2 & E1 & E2 & R);
    [run | run |].
  inversion E1; inversion E2; subst. eexists. exact R.
Defined.

(** The frames written up to the level-1 select. *)
Lemma cl1_selected_sent fuel m cl1 sak1 m3 :
  cl1_selected fuel m cl1 sak1 m3 ->
  exists wake,
    (wake = [short_frame ISO14443A_WUPA] \/
     wake = [short_frame ISO14443A_WUPA; short_frame ISO14443A_REQA]) /\
    tx m3 = tx m ++ wake ++ [anticoll_frame ISO14443A_SEL_CL1;
                             select_frame ISO14443A_SEL_CL1 cl1].
Proof.
  intros (m2 & (a1 & a2 & m1 & A & C) & S).
  pose proof (anticoll_cl1_value _ _ _ _ C) as L.
  apply anticoll_cl1_writes in C. destruct C as (C & _). simpl in C.
  apply select_cl1_writes in S; [|exact L]. destruct S as (S & _).
  destruct A as [W|(m0 & W & Q)].
  - apply reqa_wupa_writes in W. destruct W as (W & _).
    exists [short_frame ISO14443A_WUPA]. split; [left; reflexivity|].
    rewrite S, C, W, <- !app_assoc. reflexivity.
  - apply reqa_wupa_writes in W. destruct W as (W & _).
    apply reqa_wupa_writes in Q. destruct Q as (Q & _).
    exists [short_frame ISO14443A_WUPA; short_frame ISO14443A_REQA].
    split; [right; reflexivity|].
    rewrite S, C, Q, W, <- !app_assoc. reflexivity.
Qed.

(** C2: with an ATQA, a level-1 anticollision result that does not start
    with 0x88 and a level-1 SAK [sak1], [read_tag] returns the first four
    anticollision bytes and [sak1], in the machine as the level-1 select
    left it: nothing is exchanged after that select, and none of the
    frames written is a level-2 frame. *)
Theorem read_tag_single fuel m cl1 sak1 m3 :
  cl1_selected fuel m cl1 sak1 m3 ->
  hd_error cl1 <> Some ISO14443A_CT ->
  read_tag fuel m = Some (Ok (Some (firstn 4 cl1), Some sak1), m3) /\
  length cl1 = 5 /\ length (firstn 4 cl1) = 4 /\
  exists sent,
    tx m3 = tx m ++ sent /\
    Forall (fun f => nth_error f 2 <> Some ISO14443A_SEL_CL2) sent.
Proof.
  intros S N.
  split; [exact (discovery_read_tag _ _ _ _ (Single_size _ _ _ _ _ S N))|].
  destruct (cl1_selected_levels _ _ _ _ _ S) as (L & _).
  split; [exact L|]. split; [rewrite length_firstn; lia|].
  destruct (cl1_selected_sent _ _ _ _ _ S) as (wake & Hw & E).
  eexists. split; [exact E|].
  destruct Hw as [-> | ->]; repeat constructor; discriminate.
Qed.

Lemma read_tag_single_witness :
  exists m',
    read_tag 10 classic_tag = Some (Ok (Some [x01; x02; x03; x04], Some x08), m').
Proof.
  eassert (S : cl1_selected 10 classic_tag _ _ _) by stage_by_running.
  eexists. refine (proj1 (read_tag_single _ _ _ _ _ S _)).
  simpl. discriminate.
Defined.

(** Once level 1 is selected with the cascade tag in front, [read_tag]
    goes on with level 2, whatever the level-1 SAK. *)
Lemma read_tag_level2 fuel m cl1 sak1 m3 :
  cl1_selected fuel m cl1 sak1 m3 ->
  hd_error cl1 = Some ISO14443A_CT ->
  read_tag fuel m = level2 fuel cl1 m3.
Proof.
  intros S CT.
  open_stage; unfold read_tag; forward; open_cl1; forward;
    simpl in CT; inv CT; rewrite eqb_CT_refl; reflexivity.
Qed.

Lemma level2_sent fuel cl1 m3 r m' :
  level2 fuel cl1 m3 = Some (r, m') ->
  exists rest, tx m' = tx m3 ++ anticoll_frame ISO14443A_SEL_CL2 :: rest.
Proof.
  unfold level2. intros R.
  bind_step R as c2 m4 A2 R.
  - pose proof (anticoll_cl2_writes _ _ _ _ A2) as (W & _).
    destruct c2 as [cl2|]; [|inv R; exists []; exact W].
    pose proof (anticoll_cl2_value _ _ _ _ A2) as L2.
    apply bind_stateless_tail in R; [|intros [s|]; stateless].
    destruct R as (r0 & R).
    apply select_cl2_writes in R; [|exact L2]. destruct R as (R & _).
    exists [select_frame ISO14443A_SEL_CL2 cl2].
    rewrite R, W, <- app_assoc. reflexivity.
  - pose proof (anticoll_cl2_writes _ _ _ _ A2) as (W & _). exists []. exact W.
Qed.

(** C6: take two runs of [read_tag] that get the same level-1
    anticollision result and are in the same machine after the level-1
    select, but with SAKs [sak1] and [sak1'] of any values (so also two that
    differ in the cascade bit only).  Whether level 2 follows is decided by
    the first anticollision byte alone: without the cascade tag both runs
    return at once the same four bytes, with it both go on with the level-2
    anticollision and end alike.  The UID, hence its length, is the same in
    both. *)
Theorem cascade_decision_ignores_sak1 fuel m m' cl1 sak1 sak1' m3 :
  cl1_selected fuel m cl1 sak1 m3 ->
  cl1_selected fuel m' cl1 sak1' m3 ->
  (hd_error cl1 <> Some ISO14443A_CT ->
   read_tag fuel m = Some (Ok (Some (firstn 4 cl1), Some sak1), m3) /\
   read_tag fuel m' = Some (Ok (Some (firstn 4 cl1), Some sak1'), m3)) /\
  (hd_error cl1 = Some ISO14443A_CT ->
   read_tag fuel m = read_tag fuel m' /\
   forall r mf, read_tag fuel m = Some (r, mf) ->
     exists rest, tx mf = tx m3 ++ anticoll_frame ISO14443A_SEL_CL2 :: rest) /\
  uid_of (read_tag fuel m) = uid_of (read_tag fuel m').
Proof.
  intros S S'.
  assert (H4 : hd_error cl1 <> Some ISO14443A_CT ->
               read_tag fuel m = Some (Ok (Some (firstn 4 cl1), Some sak1), m3) /\
               read_tag fuel m' = Some (Ok (Some (firstn 4 cl1), Some sak1'), m3)).
  { intros N. split.
    - exact (discovery_read_tag _ _ _ _ (Single_size _ _ _ _ _ S N)).
    - exact (discovery_read_tag _ _ _ _ (Single_size _ _ _ _ _ S' N)). }
  assert (H7 : hd_error cl1 = Some ISO14443A_CT -> read_tag fuel m = read_tag fuel m').
  { intros CT. rewrite (read_tag_level2 _ _ _ _ _ S CT), (read_tag_level2 _ _ _ _ _ S' CT).
    reflexivity. }
  split; [exact H4|]. split.
  - intros CT. split; [exact (H7 CT)|].
    intros r mf R. rewrite (read_tag_level2 _ _ _ _ _ S CT) in R.
    exact (level2_sent _ _ _ _ _ R).
  - destruct cl1 as [|c0 cl1].
    + destruct H4 as [-> ->]; [discriminate|reflexivity].
    + destruct (Byte.byte_eq_dec c0 ISO14443A_CT) as [->|N].
      * rewrite H7; reflexivity.
      * destruct H4 as [-> ->]; [simpl; congruence|reflexivity].
Qed.

Lemma cascade_decision_ignores_sak1_witness :
  uid_of (read_tag 10 (cascade_tag x00)) = uid_of (read_tag 10 (cascade_tag x04)) /\
  uid_of (read_tag 10 (cascade_tag x00)) =
  Some (Ok (Some [x11; x22; x33; x44; x55; x66; x77])).
Proof.
  eassert (S : cl1_selected 10 (cascade_tag x00) _ _ _) by stage_by_running.
  eassert (S' : cl1_selected 10 (cascade_tag x04) _ _ _) by stage_by_running.
  split.
  - exact (proj2 (proj2 (cascade_decision_ignores_sak1 _ _ _ _ _ _ _ S S'))).
  - reflexivity.
Defined.

(** C7 as stated fails: "no ATQA" may also be an exchange that runs into
    the receive timeout, and then [read_tag] raises.  Here WUPA is answered
    with the code 0x87, the REQA retry is sent and gets no answer at all:
    the [TimeoutError] of the REQA exchange comes out of [read_tag]. *)
Lemma read_tag_raises_after_reqa :
  exists m',
    read_tag 10 reqa_silent_line =
    Some (Raise (TimeoutError "Timeout waiting for result code"), m') /\
    tx m' = [short_frame ISO14443A_WUPA; short_frame ISO14443A_REQA].
Proof. eexists. split; [run|reflexivity]. Qed.

(** C7, amended: in every run of [read_tag] the first frame written is the
    WUPA request and it is written once.  If the WUPA exchange returns an
    ATQA, no REQA request is written at all; if it raises, [read_tag]
    raises the same exception at once, having written the WUPA request
    only.  If the WUPA exchange returns no ATQA, exactly one REQA request
    follows it directly; if that exchange returns none either, [read_tag]
    returns [(None, None)], and if it raises, [read_tag] raises the same
    exception, in both cases having written these two frames and nothing
    else. *)
Theorem read_tag_wake_requests fuel m r m' :
  read_tag fuel m = Some (r, m') ->
  exists w m1,
    _reqa_wupa fuel ISO14443A_WUPA m = Some (w, m1) /\
    ((((exists a1 a2, w = Ok (Some a1, Some a2)) \/ (exists e, w = Raise e)) /\
      (exists rest,
         tx m' = tx m ++ short_frame ISO14443A_WUPA :: rest /\ no_request rest) /\
      (forall e, w = Raise e ->
         r = Raise e /\ m' = m1 /\ tx m' = tx m ++ [short_frame ISO14443A_WUPA]))
     \/
     (w = Ok (None, None) /\
      exists q m2 rest,
        _reqa_wupa fuel ISO14443A_REQA m1 = Some (q, m2) /\
        tx m' = tx m ++ short_frame ISO14443A_WUPA :: short_frame ISO14443A_REQA :: rest /\
        no_request rest /\
        (q = Ok (None, None) -> r = Ok (None, None) /\ m' = m2 /\ rest = []) /\
        (forall e, q = Raise e -> r = Raise e /\ m' = m2 /\ rest = []))).
Proof.
  intros R. apply read_tag_discovery, discovery_levels in R.
  assert (N0 : no_request []) by (split; intros []).
  destruct R as [(e & -> & W)|[(m0 & W & Q)|(a1 & a2 & m1 & A & (tail & E & F & _))]].
  - exists (Raise e), m'. split; [exact W|]. left. split; [right; eauto|].
    apply reqa_wupa_writes in W. destruct W as (W & _).
    split.
    + exists []. split; [exact W|exact N0].
    + intros e0 E0. inv E0. auto.
  - exists (Ok (None, None)), m0. split; [exact W|]. right. split; [reflexivity|].
    apply reqa_wupa_writes in W. destruct W as (W & _).
    destruct Q as [(e & -> & Q)|(-> & Q)].
    + exists (Raise e), m', []. split; [exact Q|].
      apply reqa_wupa_writes in Q. destruct Q as (Q & _).
      split; [rewrite Q, W, <- app_assoc; reflexivity|].
      split; [exact N0|]. split; [discriminate|].
      intros e0 E0. inv E0. auto.
    + exists (Ok (None, None)), m', []. split; [exact Q|].
      apply reqa_wupa_writes in Q. destruct Q as (Q & _).
      split; [rewrite Q, W, <- app_assoc; reflexivity|].
      split; [exact N0|]. split; [auto|discriminate].
  - pose proof (level_frames_no_request _ F) as N.
    destruct A as [W|(m0 & W & Q)].
    + exists (Ok (Some a1, Some a2)), m1. split; [exact W|]. left. split; [left; eauto|].
      apply reqa_wupa_writes in W. destruct W as (W & _).
      split; [|discriminate].
      exists tail. split; [rewrite E, W, <- app_assoc; reflexivity|exact N].
    + exists (Ok (None, None)), m0. split; [exact W|]. right. split; [reflexivity|].
      exists (Ok (Some a1, Some a2)), m1, tail. split; [exact Q|].
      apply reqa_wupa_writes in W. destruct W as (W & _).
      apply reqa_wupa_writes in Q. destruct Q as (Q & _).
      split; [rewrite E, Q, W, <- !app_assoc; reflexivity|].
      split; [exact N|]. split; discriminate.
Qed.

Lemma read_tag_wake_requests_witness :
  (exists m',
     read_tag 10 no_tag_line = Some (Ok (None, None), m') /\
     tx m' = [short_frame ISO14443A_WUPA; short_frame ISO14443A_REQA]) /\
  (exists e m',
     read_tag 10 wupa_silent_line = Some (Raise e, m') /\
     tx m' = [short_frame ISO14443A_WUPA]).
Proof.
  split.
  - eassert (R : read_tag 10 no_tag_line = Some (_, _)) by run.
    destruct (read_tag_wake_requests _ _ _ _ R) as (w & m1 & W & _).
    eexists. split; [exact R|reflexivity].
  - eassert (R : read_tag 10 wupa_silent_line = Some (_, _)) by run.
    destruct (read_tag_wake_requests _ _ _ _ R) as (w & m1 & W & _).
    eexists. eexists. split; [exact R|reflexivity].
Defined.

(** C8 as stated fails: [read_tag] hands on the UID bytes the tag reported
    without looking at them, here four zero bytes, as a successful
    result. *)
Lemma read_tag_all_zero_uid :
  exists m',
    read_tag 10 zero_uid_tag = Some (Ok (Some [x00; x00; x00; x00], Some x08), m').
Proof. eexists. run. Qed.

Lemma discovery_uid_size fuel m r m' :
  discovery fuel m r m' ->
  match r with
  | Ok (uid, sak) =>
      (uid = None /\ sak = None) \/
      (exists u s, uid = Some u /\ sak = Some s /\ (length u = 4 \/ length u = 7))
  | Raise _ => True
  end.
Proof.
  intros D. destruct D; try exact I; try (left; split; reflexivity).
  - right. destruct (cl1_selected_levels _ _ _ _ _ H) as (L & _).
    eexists. eexists. split; [reflexivity|]. split; [reflexivity|].
    left. rewrite length_firstn. lia.
  - right. destruct (cl2_found_levels _ _ _ _ _ H) as (L2 & _).
    destruct H as (s1 & m3 & S & _ & _).
    destruct (cl1_selected_levels _ _ _ _ _ S) as (L1 & _).
    eexists. eexists. split; [reflexivity|]. split; [reflexivity|].
    right. rewrite length_app, !length_firstn, length_skipn. lia.
Qed.

(** C8, amended: a result that [read_tag] returns is either the explicit
    [(None, None)] or a UID of exactly 4 or exactly 7 bytes together with
    a SAK (the bytes being those the tag reported, whatever their values);
    and when the level-2 anticollision or the level-2 select fails, the
    result is [(None, None)], the level-1 prefix being dropped. *)
Theorem read_tag_uid_size fuel m :
  (forall uid sak m',
     read_tag fuel m = Some (Ok (uid, sak), m') ->
     (uid = None /\ sak = None) \/
     (exists u s, uid = Some u /\ sak = Some s /\ (length u = 4 \/ length u = 7))) /\
  (forall cl1 sak1 m3 m4,
     cl1_selected fuel m cl1 sak1 m3 ->
     hd_error cl1 = Some ISO14443A_CT ->
     _anticoll_cl2 fuel m3 = Some (Ok None, m4) ->
     read_tag fuel m = Some (Ok (None, None), m4)) /\
  (forall cl1 cl2 m4 m5,
     cl2_found fuel m cl1 cl2 m4 ->
     _select_cl2 fuel cl2 m4 = Some (Ok None, m5) ->
     read_tag fuel m = Some (Ok (None, None), m5)).
Proof.
  split; [|split].
  - intros uid sak m' R. apply read_tag_discovery in R.
    exact (discovery_uid_size _ _ _ _ R).
  - intros cl1 sak1 m3 m4 S CT A2.
    exact (discovery_read_tag _ _ _ _ (Anticoll2_fails _ _ _ _ _ _ S CT A2)).
  - intros cl1 cl2 m4 m5 F S2.
    exact (discovery_read_tag _ _ _ _ (Select2_fails _ _ _ _ _ _ F S2)).
Qed.

Lemma read_tag_uid_size_witness :
  (exists m', read_tag 10 cascade_tag_lost = Some (Ok (None, None), m')) /\
  (exists m', read_tag 10 classic_tag = Some (Ok (Some [x01; x02; x03; x04], Some x08), m') /\
              length [x01; x02; x03; x04] = 4).
Proof.
  split.
  - eassert (F : cl2_found 10 cascade_tag_lost _ _ _) by stage_by_running.
    eexists.
    refine (proj2 (proj2 (read_tag_uid_size 10 cascade_tag_lost)) _ _ _ _ F _). run.
  - eassert (R : read_tag 10 classic_tag = Some (Ok (_, _), _)) by run.
    destruct (proj1 (read_tag_uid_size 10 classic_tag) _ _ _ R)
      as [[E _]|(u & s & Eu & Es & L)]; [discriminate E|].
    eexists. split; [exact R|reflexivity].
Defined.

(** * Receive timeouts during discovery and during bring-up *)

Lemma sendrecv_raises fuel rf flags mi ms e m' :
  _send_cmd fuel CMD_SENDRECV (rf ++ [flags]) mi = Some (Ok tt, ms) ->
  _read_response fuel 50 ms = Some (Raise e, m') ->
  _sendrecv fuel rf flags mi = Some (Raise e, m').
Proof.
  intros S R. unfold _sendrecv. rewrite (bind_Ok _ S). exact R.
Qed.

Lemma bind_assoc A B C (c : M A) (k : A -> M B) (h : B -> M C) m :
  bind (bind c k) h m = bind c (fun a => bind (k a) h) m.
Proof.
  unfold bind. destruct (c m) as [[[a|e] m1]|]; reflexivity.
Qed.

Lemma initialize_from_identify fuel wake_pulse_ms m mi :
  reaches_identify fuel wake_pulse_ms m mi ->
  _initialize fuel wake_pulse_ms m = (identify fuel ;;; select_protocol fuel) mi.
Proof.
  unfold reaches_identify, _initialize, bind. intros H.
  destruct (wake_up fuel wake_pulse_ms m) as [[[u|e] m1]|]; try discriminate.
  destruct (echo_phase fuel m1) as [[[u'|e] m2]|]; try discriminate.
  inv H. reflexivity.
Qed.

Lemma initialize_from_protocol fuel wake_pulse_ms m mi :
  reaches_protocol fuel wake_pulse_ms m mi ->
  _initialize fuel wake_pulse_ms m = select_protocol fuel mi.
Proof.
  unfold reaches_protocol, _initialize, bind. intros H.
  destruct (wake_up fuel wake_pulse_ms m) as [[[u|e] m1]|]; try discriminate.
  destruct (echo_phase fuel m1) as [[[u'|e] m2]|]; try discriminate.
  destruct (identify fuel m2) as [[[u''|e] m3]|]; try discriminate.
  inv H. reflexivity.
Qed.

(** C3 as stated fails: on a line where nothing answers the WUPA request
    within the 50 ms budget, [read_tag] does not return [(None, None)]; the
    [TimeoutError] of [_read_response] comes out of it. *)
Lemma read_tag_raises_on_silence :
  exists m',
    read_tag 10 silent_line =
    Some (Raise (TimeoutError "Timeout waiting for result code"), m').
Proof. eexists. run. Qed.

(** C3, amended: when the receive timeout expires in any of the exchanges
    of a run of [read_tag], the [TimeoutError] is not caught: [read_tag]
    raises it to the caller.  During bring-up the same fault, at the device
    ID or at the protocol selection, makes [_initialize] raise an
    [OSError]. *)
Theorem receive_timeout_propagates fuel :
  (forall m rf flags mi ms msg m',
     exchange fuel m rf flags mi ->
     _send_cmd fuel CMD_SENDRECV (rf ++ [flags]) mi = Some (Ok tt, ms) ->
     _read_response fuel 50 ms = Some (Raise (TimeoutError msg), m') ->
     read_tag fuel m = Some (Raise (TimeoutError msg), m')) /\
  (forall wake_pulse_ms m mi ms msg m',
     reaches_identify fuel wake_pulse_ms m mi ->
     _send_cmd fuel CMD_IDN [] mi = Some (Ok tt, ms) ->
     _read_response fuel 100 ms = Some (Raise (TimeoutError msg), m') ->
     _initialize fuel wake_pulse_ms m =
     Some (Raise (OSError ("Failed to read device ID: " ++ msg)), m')) /\
  (forall wake_pulse_ms m mi ms msg m',
     reaches_protocol fuel wake_pulse_ms m mi ->
     _send_cmd fuel CMD_PROTOCOL [PROTO_ISO14443A; x00] mi = Some (Ok tt, ms) ->
     _read_response fuel 100 ms = Some (Raise (TimeoutError msg), m') ->
     _initialize fuel wake_pulse_ms m =
     Some (Raise (OSError ("Failed to select protocol: " ++ msg)), m')).
Proof.
  split; [|split].
  - intros m rf flags mi ms msg m' X S R.
    pose proof (sendrecv_raises _ _ _ _ _ _ _ S R) as E.
    apply discovery_read_tag.
    destruct X.
    + apply Wupa_raises. unfold _reqa_wupa. exact (bind_Raise _ E).
    + eapply Reqa_raises; [eassumption|]. unfold _reqa_wupa. exact (bind_Raise _ E).
    + eapply Anticoll1_raises; [eassumption|]. unfold _anticoll_cl1. exact (bind_Raise _ E).
    + eapply Select1_raises; [eassumption|]. unfold _select_cl1. exact (bind_Raise _ E).
    + eapply Anticoll2_raises; [eassumption|assumption|].
      unfold _anticoll_cl2. exact (bind_Raise _ E).
    + eapply Select2_raises; [eassumption|]. unfold _select_cl2. exact (bind_Raise _ E).
  - intros wp m mi ms msg m' H S R.
    rewrite (initialize_from_identify _ _ _ _ H).
    unfold identify. rewrite bind_assoc. rewrite (bind_Ok _ S).
    unfold bind, try_except. rewrite R. reflexivity.
  - intros wp m mi ms msg m' H S R.
    rewrite (initialize_from_protocol _ _ _ _ H).
    unfold select_protocol. rewrite (bind_Ok _ S).
    unfold bind, try_except. rewrite R. reflexivity.
Qed.

Lemma receive_timeout_propagates_witness :
  (exists m',
     read_tag 10 silent_line =
     Some (Raise (TimeoutError "Timeout waiting for result code"), m')) /\
  (exists m',
     _initialize 10 100 dead_after_echo =
     Some (Raise (OSError "Failed to read device ID: Timeout waiting for result code"), m')).
Proof.
  split.
  - eassert (S : _send_cmd 10 CMD_SENDRECV ([ISO14443A_WUPA] ++ [FLAG_SHORTFRAME])
                   silent_line = Some (Ok tt, _)) by run.
    run_on S (_read_response 10 50) as R.
    eexists.
    exact (proj1 (receive_timeout_propagates 10) silent_line _ _ _ _ _ _
                 (X_wupa 10 silent_line) S R).
  - eassert (H : (wake_up 10 100 ;;; echo_phase 10) dead_after_echo = Some (Ok tt, _)) by run.
    run_on H (_send_cmd 10 CMD_IDN []) as S.
    run_on S (_read_response 10 100) as R.
    eexists.
    exact (proj1 (proj2 (receive_timeout_propagates 10)) 100%Z dead_after_echo _ _ _ _ H S R).
Defined.

(** * Field shutdown *)

(** C10 as stated fails: when no response arrives, [field_off] does not
    complete; the [TimeoutError] of its [_read_response] comes out of
    it. *)
Lemma field_off_raises_on_silence :
  exists m',
    field_off 10 silent_line =
    Some (Raise (TimeoutError "Timeout waiting for result code"), m').
Proof. eexists. run. Qed.

(** C10, amended: [field_off] writes the protocol command with the "off"
    mode, frame [02 02 00 00], and reads one response.  It does not look at
    the result code or the payload: with any response frame read, success
    code or not, it completes.  A [TimeoutError] of the receive is not
    caught; it is the only way [field_off] fails. *)
Theorem field_off_outcome fuel m :
  (forall ms,
     _send_cmd fuel CMD_PROTOCOL [PROTO_OFF; x00] m = Some (Ok tt, ms) ->
     tx ms = tx m ++ [[CMD_PROTOCOL; x02; PROTO_OFF; x00]] /\
     (forall code data m',
        _read_response fuel 50 ms = Some (Ok (code, data), m') ->
        field_off fuel m = Some (Ok tt, m')) /\
     (forall e m',
        _read_response fuel 50 ms = Some (Raise e, m') ->
        field_off fuel m = Some (Raise e, m'))) /\
  (forall r m',
     field_off fuel m = Some (r, m') ->
     tx m' = tx m ++ [[CMD_PROTOCOL; x02; PROTO_OFF; x00]] /\
     (r = Ok tt \/
      exists ms msg,
        r = Raise (TimeoutError msg) /\
        _read_response fuel 50 ms = Some (Raise (TimeoutError msg), m'))).
Proof.
  split.
  - intros ms S.
    destruct (send_cmd_writes fuel CMD_PROTOCOL [PROTO_OFF; x00] x02 m _ _ eq_refl S)
      as (_ & Tx & _).
    split; [exact Tx|]. split.
    + intros code data m' R. unfold field_off.
      rewrite (bind_Ok _ S), (bind_Ok _ R). reflexivity.
    + intros e m' R. unfold field_off.
      rewrite (bind_Ok _ S), (bind_Raise _ R). reflexivity.
  - intros r m' H. unfold field_off in H.
    bind_step H as u ms S H.
    + destruct (send_cmd_writes fuel CMD_PROTOCOL [PROTO_OFF; x00] x02 m _ _ eq_refl S)
        as (_ & Tx & _).
      bind_step H as cd m2 R H.
      * inv H. destruct (read_response_untouched _ _ _ _ _ R) as (Tx' & _).
        split; [rewrite Tx', Tx; reflexivity|left; reflexivity].
      * subst r. destruct (read_response_untouched _ _ _ _ _ R) as (Tx' & _).
        split; [rewrite Tx', Tx; reflexivity|]. right.
        pose proof (read_response_outcome _ _ _ _ _ R) as O.
        inversion O; subst; eauto.
    + destruct (send_cmd_writes fuel CMD_PROTOCOL [PROTO_OFF; x00] x02 m _ _ eq_refl S)
        as (E & _). discriminate E.
Qed.

Lemma field_off_outcome_witness :
  exists m', field_off 10 refusing_line = Some (Ok tt, m').
Proof.
  eassert (S : _send_cmd 10 CMD_PROTOCOL [PROTO_OFF; x00] refusing_line = Some (Ok tt, _))
    by run.
  run_on S (_read_response 10 50) as R.
  eexists.
  exact (proj1 (proj2 (proj1 (field_off_outcome 10 refusing_line) _ S)) _ _ _ R).
Defined.

(** * Bring-up: the device identity *)

Lemma append_String s c t :
  ((s ++ String c EmptyString) ++ t = s ++ String c t)%string.
Proof. induction s as [|a s IH]; simpl; [reflexivity|rewrite IH; reflexivity]. Qed.

Lemma append_empty s : (s ++ EmptyString = s)%string.
Proof. induction s as [|a s IH]; simpl; [reflexivity|rewrite IH; reflexivity]. Qed.

(** The loop over [device_bytes] appends [printable_prefix device_bytes]
    to the name and changes nothing else. *)
Lemma name_loop_spec bs : forall m,
  name_loop bs m =
  Some (Ok tt, Machine (rx m) (tx m) (now m) (sched m)
                       (device_name m ++ printable_prefix bs) (last_atqa m)).
Proof.
  unfold printable_prefix.
  induction bs as [|b bs IH]; intros m; cbn [name_loop until_null].
  - simpl. rewrite append_empty. destruct m; reflexivity.
  - destruct (Byte.eqb b x00).
    + simpl. rewrite append_empty. destruct m; reflexivity.
    + cbn [filter]. destruct (printable b).
      * unfold bind at 1, get_device_name at 1.
        unfold bind at 1, set_device_name at 1.
        rewrite IH. cbn [rx tx now sched device_name last_atqa].
        cbn [string_of_list_byte]. unfold string_of_list_byte. cbn [map string_of_list_ascii].
        rewrite append_String. reflexivity.
      * apply IH.
Qed.

Lemma select_protocol_keeps_name fuel m r m' :
  select_protocol fuel m = Some (r, m') -> device_name m' = device_name m.
Proof.
  unfold select_protocol. intros H.
  bind_step H as u ms S H.
  - destruct (send_cmd_writes fuel CMD_PROTOCOL [PROTO_ISO14443A; x00] x02 m _ _ eq_refl S)
      as (_ & _ & Dn & _).
    rewrite <- Dn.
    apply bind_stateless_tail in H; [|intros [code data]; stateless].
    destruct H as (r0 & H). unfold try_except in H.
    destruct (_read_response fuel 100 ms) as [[[cd|e] m2]|] eqn:R; try discriminate.
    + inv H. apply (read_response_untouched _ _ _ _ _ R).
    + destruct (is_TimeoutError e); inv H; apply (read_response_untouched _ _ _ _ _ R).
  - destruct (send_cmd_writes fuel CMD_PROTOCOL [PROTO_ISO14443A; x00] x02 m _ _ eq_refl S)
      as (E & _). discriminate E.
Qed.

Lemma atqa_obtained_keeps_name fuel m a1 a2 m1 :
  atqa_obtained fuel m a1 a2 m1 -> device_name m1 = device_name m.
Proof.
  intros [W|(m0 & W & Q)].
  - apply reqa_wupa_writes in W. apply W.
  - apply reqa_wupa_writes in W. apply reqa_wupa_writes in Q.
    destruct W as (_ & W & _). destruct Q as (_ & Q & _). congruence.
Qed.

(** Discovery and field shutdown leave the device name alone. *)
Lemma read_tag_keeps_name fuel m r m' :
  read_tag fuel m = Some (r, m') -> device_name m' = device_name m.
Proof.
  intros R. apply read_tag_discovery, discovery_levels in R.
  destruct R as [(e & _ & W)|[(m0 & W & Q)|(a1 & a2 & m1 & A & (tail & _ & _ & D))]].
  - apply reqa_wupa_writes in W. apply W.
  - apply reqa_wupa_writes in W. destruct W as (_ & W & _). rewrite <- W.
    destruct Q as [(e & _ & Q)|(_ & Q)]; apply reqa_wupa_writes in Q; apply Q.
  - rewrite D. exact (atqa_obtained_keeps_name _ _ _ _ _ A).
Qed.

Lemma field_off_keeps_name fuel m r m' :
  field_off fuel m = Some (r, m') -> device_name m' = device_name m.
Proof.
  unfold field_off. intros H.
  bind_step H as u ms S H.
  - destruct (send_cmd_writes fuel CMD_PROTOCOL [PROTO_OFF; x00] x02 m _ _ eq_refl S)
      as (_ & _ & Dn & _).
    rewrite <- Dn.
    apply bind_stateless_tail in H; [|intros cd; stateless].
    destruct H as (r0 & H). apply (read_response_untouched _ _ _ _ _ H).
  - destruct (send_cmd_writes fuel CMD_PROTOCOL [PROTO_OFF; x00] x02 m _ _ eq_refl S)
      as (E & _). discriminate E.
Qed.

(** What [identify] does with a response that was read. *)
Lemma identify_response fuel mi ms code data m2 :
  _send_cmd fuel CMD_IDN [] mi = Some (Ok tt, ms) ->
  _read_response fuel 100 ms = Some (Ok (code, data), m2) ->
  identify fuel mi =
  if negb (Byte.eqb code RSP_SUCCESS) || negb (truthy data) || (length data <? 13)%nat
  then Some (Raise (OSError ("Invalid IDN response: code=0x" ++ hex02 code)), m2)
  else Some (Ok tt, Machine (rx m2) (tx m2) (now m2) (sched m2)
                            (printable_prefix (firstn 13 data)) (last_atqa m2)).
Proof.
  intros S R. unfold identify. rewrite (bind_Ok _ S).
  unfold bind at 1, try_except at 1. rewrite R.
  destruct (negb (Byte.eqb code RSP_SUCCESS) || negb (truthy data) || (length data <? 13)%nat);
    [reflexivity|].
  unfold bind at 1, set_device_name at 1. rewrite name_loop_spec. reflexivity.
Qed.

(** C9 as stated fails: only the first 13 bytes of the payload are looked
    at.  With a payload of fourteen printable bytes and then a null byte
    the name has thirteen characters, the printable prefix of the payload up
    to its first null byte fourteen. *)
Lemma identity_stops_at_13 :
  exists m',
    _initialize 10 100 long_id_chip = Some (Ok tt, m') /\
    device_name m' = "AAAAAAAAAAAAA"%string /\
    printable_prefix (repeat x41 14 ++ [x00]) = "AAAAAAAAAAAAAA"%string /\
    device_name m' <> printable_prefix (repeat x41 14 ++ [x00]).
Proof.
  eexists. split; [run|].
  split; [reflexivity|]. split; [reflexivity|]. vm_compute. discriminate.
Qed.

(** C9, amended: in the Identify phase a response whose result code is not
    the success code, or whose payload has fewer than 13 bytes, makes
    [_initialize] raise an [OSError]; otherwise the device name that
    [_initialize] leaves is made of the printable (ASCII 32-126) bytes among
    the first 13 payload bytes that come before the first null byte.
    Neither [read_tag] nor [field_off] changes the name afterwards. *)
Theorem identify_identity fuel wake_pulse_ms m mi ms code data m2 :
  reaches_identify fuel wake_pulse_ms m mi ->
  _send_cmd fuel CMD_IDN [] mi = Some (Ok tt, ms) ->
  _read_response fuel 100 ms = Some (Ok (code, data), m2) ->
  (code <> RSP_SUCCESS \/ length data < 13 ->
   _initialize fuel wake_pulse_ms m =
   Some (Raise (OSError ("Invalid IDN response: code=0x" ++ hex02 code)), m2)) /\
  (code = RSP_SUCCESS -> 13 <= length data ->
   forall r m',
     _initialize fuel wake_pulse_ms m = Some (r, m') ->
     device_name m' = printable_prefix (firstn 13 data)) /\
  (forall fuel' m1 r m1',
     read_tag fuel' m1 = Some (r, m1') -> device_name m1' = device_name m1) /\
  (forall fuel' m1 r m1',
     field_off fuel' m1 = Some (r, m1') -> device_name m1' = device_name m1).
Proof.
  intros H S R.
  rewrite (initialize_from_identify _ _ _ _ H).
  pose proof (identify_response _ _ _ _ _ _ S R) as I.
  split; [|split; [|split; [exact read_tag_keeps_name|exact field_off_keeps_name]]].
  - intros Bad.
    assert (C : negb (Byte.eqb code RSP_SUCCESS) || negb (truthy data)
                || (length data <? 13)%nat = true).
    { destruct Bad as [N|L].
      - destruct (Byte.eqb code RSP_SUCCESS) eqn:E; [|reflexivity].
        apply Byte.byte_dec_bl in E. contradiction.
      - apply Nat.ltb_lt in L. rewrite L. apply orb_true_r. }
    rewrite C in I. exact (bind_Raise _ I).
  - intros -> L r m' Run.
    assert (C : negb (Byte.eqb RSP_SUCCESS RSP_SUCCESS) || negb (truthy data)
                || (length data <? 13)%nat = false).
    { destruct data; [simpl in L; lia|]. apply Nat.ltb_ge in L. rewrite L. reflexivity. }
    rewrite C in I. rewrite (bind_Ok _ I) in Run.
    apply select_protocol_keeps_name in Run. exact Run.
Qed.

Lemma identify_identity_witness :
  exists m',
    _initialize 10 100 usual_chip = Some (Ok tt, m') /\
    device_name m' = "NFC FS2JAST4"%string.
Proof.
  eassert (Run : _initialize 10 100 usual_chip = Some (_, _)) by run.
  eassert (H : (wake_up 10 100 ;;; echo_phase 10) usual_chip = Some (Ok tt, _)) by run.
  run_on H (_send_cmd 10 CMD_IDN []) as S.
  run_on S (_read_response 10 100) as R.
  eexists. split; [exact Run|].
  exact (proj1 (proj2 (identify_identity _ _ _ _ _ _ _ _ H S R)) eq_refl
               ltac:(simpl; lia) _ _ Run).
Defined.

(** * Further properties of the driver *)

(** ** The transport framer: draining and sending *)

Lemma flush_drains fuel : forall m r m',
  _flush_rx fuel m = Some (r, m') -> rx m' = [].
Proof.
  induction fuel as [|fuel IH]; intros m r m' H; [discriminate|].
  cbn [_flush_rx] in H. unfold bind at 1, in_waiting at 1 in H.
  destruct (length (rx (env_step m)) =? 0)%nat eqn:E.
  - inv H. apply Nat.eqb_eq in E. destruct (rx (env_step m)); [reflexivity|discriminate].
  - unfold bind at 1, in_waiting at 1 in H. unfold bind at 1, uart_read at 1 in H.
    exact (IH _ _ _ H).
Qed.

Lemma flush_takes fuel m r m' :
  _flush_rx fuel m = Some (r, m') -> exists bs, takes m bs m'.
Proof.
  apply (frame_flush (fun a b => exists bs, takes a bs b)).
  - intros m1 m2 m3 (a & A) (b & B). exists (a ++ b). exact (takes_trans A B).
  - intros m0. exists []. apply takes_env.
  - intros n m0. eexists. apply takes_read.
Qed.

(** X1: when [_flush_rx] returns, it returns normally with the receive
    buffer empty: all that was buffered at entry or arrived meanwhile was
    read and thrown away.  Nothing was written and the instance fields are
    as before. *)
Theorem flush_rx_discards fuel m r m' :
  _flush_rx fuel m = Some (r, m') ->
  r = Ok tt /\ rx m' = [] /\ untouched m m' /\
  exists past, sched m = past ++ sched m' /\ takes m (rx m ++ inflow past) m'.
Proof.
  intros H. split; [exact (flush_ok _ _ _ _ H)|].
  pose proof (flush_drains _ _ _ _ H) as E.
  split; [exact E|]. split; [exact (flush_untouched _ _ _ _ H)|].
  destruct (flush_takes _ _ _ _ H) as (bs & past & S & R).
  exists past. split; [exact S|]. exists past. rewrite E, app_nil_r. auto.
Qed.

Lemma flush_rx_discards_witness :
  exists m',
    _flush_rx 5 stale_line = Some (Ok tt, m') /\ rx m' = [] /\
    takes stale_line [xde; xad; xbe; xef] m'.
Proof.
  eassert (H : _flush_rx 5 stale_line = Some (_, _)) by run.
  destruct (flush_rx_discards _ _ _ _ H) as (_ & E & _ & past & S & T).
  eexists. split; [exact H|]. split; [exact E|].
  exists [Tick 10 [xbe]; Tick 10 [xef]; quiet]. split; reflexivity.
Defined.

Lemma skipn_length (l : list byte) : skipn (length l) l = [].
Proof. induction l; simpl; auto. Qed.

(** X2: [_flush_rx] has no timeout.  As long as every observation of the
    line brings at least one more byte it goes on draining: with such
    arrivals for the next [2 * k] observations it has not returned after
    [k] rounds of its loop. *)
Theorem flush_rx_keeps_draining k : forall m,
  2 * k <= length (sched m) ->
  Forall (fun t => arriving t <> []) (sched m) ->
  _flush_rx k m = None.
Proof.
  induction k as [|k IH]; intros m L F; [reflexivity|].
  destruct m as [rx0 tx0 now0 sc dn la]. simpl in L, F.
  destruct sc as [|t1 [|t2 sc]]; simpl in L; try lia.
  inversion F as [|? ? A1 F1]; subst. inversion F1 as [|? ? A2 F2]; subst.
  cbn [_flush_rx]. unfold bind at 1, in_waiting at 1.
  cbn [env_step sched rx tx now device_name last_atqa].
  destruct (length (rx0 ++ arriving t1) =? 0)%nat eqn:E.
  - apply Nat.eqb_eq in E. rewrite length_app in E.
    destruct (arriving t1); [congruence|simpl in E; lia].
  - unfold bind at 1, in_waiting at 1.
    cbn [env_step sched rx tx now device_name last_atqa].
    unfold bind at 1, uart_read at 1.
    cbn [sched rx tx now device_name last_atqa].
    apply IH; simpl; [lia|exact F2].
Qed.

Lemma flush_rx_keeps_draining_witness :
  _flush_rx 3 (boot (repeat (Tick 170 [x00]) 6)) = None.
Proof.
  apply flush_rx_keeps_draining; simpl; [lia|].
  repeat constructor; discriminate.
Defined.

Lemma send_cmd_ok fuel cmd data m ms :
  _send_cmd fuel cmd data m = Some (Ok tt, ms) ->
  exists len,
    Byte.of_nat (length data) = Some len /\
    tx ms = tx m ++ [cmd :: len :: data] /\ rx ms = [] /\
    device_name ms = device_name m /\ last_atqa ms = last_atqa m.
Proof.
  intros H. pose proof H as H0. unfold _send_cmd, byte_of_len in H.
  destruct (Byte.of_nat (length data)) as [len|] eqn:L; [|discriminate].
  exists len. split; [reflexivity|].
  destruct (send_cmd_writes _ _ _ _ _ _ _ L H0) as (_ & Tx & Dn & La).
  split; [exact Tx|]. split; [|auto].
  unfold bind at 1, ret at 1 in H.
  bind_step H as u m1 F H; [|discriminate].
  apply flush_drains in F. unfold uart_write in H. inv H. exact F.
Qed.

(** X3: [_send_cmd] with a payload of at most 255 bytes never raises; it
    writes the single frame [cmd, len, payload...] whose length byte is the
    true payload length, after the receive buffer was drained.  With a
    longer payload it raises [ValueError] before anything is drained or
    written. *)
Theorem send_cmd_frame fuel cmd data m :
  (length data <= 255 ->
   forall r m',
     _send_cmd fuel cmd data m = Some (r, m') ->
     r = Ok tt /\ rx m' = [] /\
     exists len,
       Byte.to_nat len = length data /\ tx m' = tx m ++ [cmd :: len :: data]) /\
  (255 < length data ->
   _send_cmd fuel cmd data m = Some (Raise ValueError, m)).
Proof.
  split.
  - intros L r m' H.
    destruct (Byte.of_nat (length data)) as [len|] eqn:E.
    + destruct (send_cmd_writes _ _ _ _ _ _ _ E H) as (-> & _).
      destruct (send_cmd_ok _ _ _ _ _ H) as (len' & E' & Tx & Rx & _).
      split; [reflexivity|]. split; [exact Rx|].
      exists len'. split; [exact (Byte.to_of_nat _ E')|exact Tx].
    + apply Byte.of_nat_None_iff in E. lia.
  - intros L. unfold _send_cmd, byte_of_len.
    rewrite (proj2 (Byte.of_nat_None_iff _) L). reflexivity.
Qed.

Lemma send_cmd_frame_witness :
  exists m',
    _send_cmd 5 CMD_SENDRECV [x93; x20; x08] stale_line = Some (Ok tt, m') /\
    tx m' = [[x04; x03; x93; x20; x08]] /\
    _send_cmd 0 CMD_SENDRECV (repeat x00 256) stale_line = Some (Raise ValueError, stale_line).
Proof.
  eassert (H : _send_cmd 5 CMD_SENDRECV [x93; x20; x08] stale_line = Some (_, _)) by run.
  destruct (proj1 (send_cmd_frame 5 CMD_SENDRECV [x93; x20; x08] stale_line)
                  ltac:(simpl; lia) _ _ H) as (E & _).
  eexists. split; [exact H|]. split; [reflexivity|].
  apply (proj2 (send_cmd_frame 0 CMD_SENDRECV (repeat x00 256) stale_line)).
  simpl. lia.
Defined.

(** X4: a response that [_sendrecv] returns is made only of bytes that
    came in after the command was sent into a drained buffer: there is a
    machine [ms], right after the write, with an empty receive buffer, from
    which exactly [code, len, data...] was taken, [len] being the number of
    payload bytes; stale input from before the exchange is never part of
    the response. *)
Theorem sendrecv_fresh_response fuel rf flags m code data m' :
  _sendrecv fuel rf flags m = Some (Ok (code, data), m') ->
  exists ms lc len,
    _send_cmd fuel CMD_SENDRECV (rf ++ [flags]) m = Some (Ok tt, ms) /\
    rx ms = [] /\
    tx ms = tx m ++ [CMD_SENDRECV :: lc :: rf ++ [flags]] /\
    tx m' = tx ms /\
    takes ms (code :: len :: data) m' /\
    length data = Byte.to_nat len.
Proof.
  unfold _sendrecv. intros H.
  bind_step H as u ms S H; [|discriminate].
  destruct u.
  destruct (send_cmd_ok _ _ _ _ _ S) as (lc & _ & Tx & Rx & _).
  pose proof (read_response_untouched _ _ _ _ _ H) as (Tx' & _).
  pose proof (read_response_outcome _ _ _ _ _ H) as O.
  inversion O; subst.
  exists ms, lc, len. auto 8.
Qed.

Lemma sendrecv_fresh_response_witness :
  exists m',
    _sendrecv 5 [ISO14443A_WUPA] FLAG_SHORTFRAME stale_answer =
    Some (Ok (x80, [x04; x00]), m').
Proof.
  eassert (H : _sendrecv 5 [ISO14443A_WUPA] FLAG_SHORTFRAME stale_answer = Some (Ok (_, _), _))
    by run.
  destruct (sendrecv_fresh_response _ _ _ _ _ _ _ H) as (ms & lc & len & _).
  eexists. exact H.
Defined.

(** ** Bring-up: wake pulses and echo test *)

Lemma now_env m : (now m <= now (env_step m))%Z.
Proof. unfold env_step. destruct (sched m); simpl; lia. Qed.

Lemma tx_env m : tx (env_step m) = tx m.
Proof. unfold env_step. destruct (sched m); reflexivity. Qed.

Lemma flush_later fuel m r m' :
  _flush_rx fuel m = Some (r, m') -> (now m <= now m')%Z.
Proof.
  apply (frame_flush (fun a b => (now a <= now b)%Z)).
  - intros; lia.
  - apply now_env.
  - intros; simpl; lia.
Qed.

(** One round of the wake loop. *)
Lemma wake_loop_on fuel start W m :
  pulsing W start (reading (env_step m)) = true ->
  wake_loop (S fuel) start W m = wake_loop fuel start W (pulse_round m).
Proof.
  intros H. cbn [wake_loop]. unfold bind at 1, monotonic at 1.
  unfold pulsing, reading in H. rewrite H. reflexivity.
Qed.

Lemma wake_loop_off fuel start W m :
  pulsing W start (reading (env_step m)) = false ->
  wake_loop (S fuel) start W m = Some (Ok tt, env_step m).
Proof.
  intros H. cbn [wake_loop]. unfold bind at 1, monotonic at 1.
  unfold pulsing, reading in H. rewrite H. reflexivity.
Qed.

Lemma pulse_round_inv m :
  tx (pulse_round m) = tx m ++ [wake_bytes] /\
  device_name (pulse_round m) = device_name m /\
  last_atqa (pulse_round m) = last_atqa m /\
  (now m + 1000 <= now (pulse_round m))%Z.
Proof.
  unfold pulse_round. cbv zeta.
  match goal with |- context [env_step ?x] =>
    lazymatch x with
    | Machine _ _ _ _ _ _ => set (m2 := x)
    end
  end.
  assert (Hn : now m2 = (now (env_step m) + 1000)%Z) by reflexivity.
  assert (Ht : tx m2 = tx (env_step m) ++ [wake_bytes]) by reflexivity.
  assert (Hd : device_name m2 = device_name (env_step m)) by reflexivity.
  assert (Hl : last_atqa m2 = last_atqa (env_step m)) by reflexivity.
  pose proof (now_env m2) as N2. pose proof (now_env m) as N1.
  destruct (untouched_env m2) as (T2 & D2 & L2).
  destruct (untouched_env m) as (T1 & D1 & L1).
  clearbody m2.
  split; [congruence|]. split; [congruence|]. split; [congruence|lia].
Qed.

Lemma pulse_reading_0 m : pulse_reading m 0 = reading (env_step m).
Proof.
  unfold pulse_reading, reading. change (2 * 0 + 1) with 1.
  rewrite clock_after_1. f_equal. lia.
Qed.

Lemma pulse_reading_round m i : pulse_reading (pulse_round m) i = pulse_reading m (S i).
Proof.
  unfold pulse_reading, pulse_round. cbv zeta. f_equal.
  rewrite clock_after_env.
  match goal with |- context [clock_after ?x (S (2 * i + 1))] =>
    assert (B : clock_after x (S (2 * i + 1))
                = (clock_after (env_step m) (S (2 * i + 1)) + 1000)%Z)
      by (unfold clock_after; cbn [now sched]; lia);
    rewrite B
  end.
  rewrite clock_after_env.
  replace (2 * S i + 1) with (S (S (2 * i + 1))) by lia. lia.
Qed.

(** What the wake loop has done when it returns. *)
Lemma wake_loop_inv fuel start W : forall m r m',
  wake_loop fuel start W m = Some (r, m') ->
  r = Ok tt /\
  device_name m' = device_name m /\ last_atqa m' = last_atqa m /\
  exists k,
    k < fuel /\
    tx m' = tx m ++ repeat wake_bytes k /\
    (now m + 1000 * Z.of_nat k <= now m')%Z /\
    (forall i, i < k -> pulsing W start (pulse_reading m i) = true) /\
    pulsing W start (pulse_reading m k) = false /\
    reading m' = pulse_reading m k.
Proof.
  induction fuel as [|fuel IH]; intros m r m' H; [discriminate|].
  destruct (pulsing W start (reading (env_step m))) eqn:E.
  - rewrite (wake_loop_on _ _ _ _ E) in H. apply IH in H.
    destruct (pulse_round_inv m) as (T1 & D1 & L1 & N1).
    destruct H as (-> & Dn & La & k & Kf & Tx & N & On & Off & Rd).
    split; [reflexivity|]. split; [congruence|]. split; [congruence|].
    exists (S k). split; [lia|]. split.
    { rewrite Tx, T1, <- app_assoc. reflexivity. }
    split; [lia|]. split; [|split].
    + intros [|i] Hi.
      * rewrite pulse_reading_0. exact E.
      * rewrite <- pulse_reading_round. apply On. lia.
    + rewrite <- pulse_reading_round. exact Off.
    + rewrite <- pulse_reading_round. exact Rd.
  - rewrite (wake_loop_off _ _ _ _ E) in H. inv H.
    destruct (untouched_env m) as (T1 & D1 & L1). pose proof (now_env m) as N1.
    split; [reflexivity|]. split; [exact D1|]. split; [exact L1|].
    exists 0. split; [lia|]. split; [rewrite T1, app_nil_r; reflexivity|].
    split; [lia|]. split; [intros i Hi; lia|].
    rewrite pulse_reading_0. split; [exact E|reflexivity].
Qed.

(** The wake loop returns at the first reading that fails its test. *)
Lemma wake_loop_stops start W : forall k fuel m,
  (forall i, i < k -> pulsing W start (pulse_reading m i) = true) ->
  pulsing W start (pulse_reading m k) = false ->
  k < fuel ->
  exists m', wake_loop fuel start W m = Some (Ok tt, m').
Proof.
  induction k as [|k IH]; intros fuel m On Off F;
    (destruct fuel as [|fuel]; [lia|]).
  - rewrite pulse_reading_0 in Off. rewrite (wake_loop_off _ _ _ _ Off). eauto.
  - assert (E : pulsing W start (reading (env_step m)) = true).
    { rewrite <- pulse_reading_0. apply On. lia. }
    rewrite (wake_loop_on _ _ _ _ E). apply IH; [| |lia].
    + intros i Hi. rewrite pulse_reading_round. apply On. lia.
    + rewrite pulse_reading_round. exact Off.
Qed.

(** X5: the wake-up pulse loop of [_initialize] writes one burst of 20 null
    bytes for every clock reading that its test
    [t - start < wake_pulse_ms / 1000.0] passes and returns at the first
    reading that fails it, a reading being taken once per round, after the
    millisecond of sleep of the round before.  So when it returns after
    [k] bursts, at least [k] milliseconds have passed; and if the reading
    of round [k] is the first to fail the test, the loop returns having
    written exactly [k] bursts. *)
Theorem wake_loop_bursts fuel start wake_pulse_ms m :
  (forall r m',
     wake_loop fuel start wake_pulse_ms m = Some (r, m') ->
     r = Ok tt /\
     exists k,
       tx m' = tx m ++ repeat (repeat x00 20) k /\
       (now m + 1000 * Z.of_nat k <= now m')%Z /\
       (forall i, i < k -> pulsing wake_pulse_ms start (pulse_reading m i) = true) /\
       pulsing wake_pulse_ms start (pulse_reading m k) = false) /\
  (forall k,
     (forall i, i < k -> pulsing wake_pulse_ms start (pulse_reading m i) = true) ->
     pulsing wake_pulse_ms start (pulse_reading m k) = false ->
     k < fuel ->
     exists m',
       wake_loop fuel start wake_pulse_ms m = Some (Ok tt, m') /\
       tx m' = tx m ++ repeat (repeat x00 20) k).
Proof.
  split.
  - intros r m' H.
    destruct (wake_loop_inv _ _ _ _ _ _ H) as (R & _ & _ & k & _ & Tx & N & On & Off & _).
    split; [exact R|]. exists k. auto.
  - intros k On Off F.
    destruct (wake_loop_stops start wake_pulse_ms k fuel m On Off F) as (m' & H).
    exists m'. split; [exact H|].
    destruct (wake_loop_inv _ _ _ _ _ _ H) as (_ & _ & _ & k' & _ & Tx & _ & On' & Off' & _).
    assert (K : k' = k).
    { destruct (Nat.lt_trichotomy k' k) as [L|[L|L]]; [|exact L|].
      - rewrite (On k' L) in Off'. discriminate Off'.
      - rewrite (On' k L) in Off. discriminate Off. }
    subst k'. exact Tx.
Qed.

Lemma wake_loop_bursts_witness :
  exists m',
    wake_loop 5 (seconds 0) 2 (boot [quiet; quiet; quiet; quiet; quiet; quiet]) =
    Some (Ok tt, m') /\
    tx m' = [repeat x00 20; repeat x00 20].
Proof.
  apply (proj2 (wake_loop_bursts 5 (seconds 0) 2
                  (boot [quiet; quiet; quiet; quiet; quiet; quiet])) 2).
  - intros i Hi. do 2 (destruct i as [|i]; [vm_compute; reflexivity|]). exfalso; lia.
  - vm_compute. reflexivity.
  - lia.
Defined.

Lemma wake_up_inv fuel W m r m' :
  wake_up fuel W m = Some (r, m') ->
  r = Ok tt /\
  device_name m' = device_name m /\ last_atqa m' = last_atqa m /\
  exists k,
    tx m' = tx m ++ repeat wake_bytes k /\
    (now m' - now m >= 15000 + 1000 * Z.of_nat k)%Z.
Proof.
  unfold wake_up. intros H.
  bind_step H as u m1 F1 H; [|apply flush_ok in F1; discriminate].
  destruct (flush_untouched _ _ _ _ F1) as (T1 & D1 & L1).
  pose proof (flush_later _ _ _ _ F1) as N1.
  unfold bind at 1, monotonic at 1 in H.
  pose proof (now_env m1) as N2.
  bind_step H as u2 m2 Wl H;
    [|destruct (wake_loop_inv _ _ _ _ _ _ Wl) as (E & _); discriminate].
  destruct (wake_loop_inv _ _ _ _ _ _ Wl) as (_ & D3 & L3 & k & _ & T3 & N3 & _).
  unfold bind at 1, sleep at 1 in H.
  match type of H with _flush_rx _ (env_step ?x) = _ => set (m3 := x) in H end.
  assert (Hn : now m3 = (now m2 + 15000)%Z) by reflexivity.
  assert (Ht : tx m3 = tx m2) by reflexivity.
  assert (Hd : device_name m3 = device_name m2) by reflexivity.
  assert (Hl : last_atqa m3 = last_atqa m2) by reflexivity.
  pose proof (now_env m3) as N4.
  destruct (untouched_env m3) as (T4 & D4 & L4). clearbody m3.
  pose proof (flush_later _ _ _ _ H) as N5.
  destruct (flush_untouched _ _ _ _ H) as (T5 & D5 & L5).
  split; [exact (flush_ok _ _ _ _ H)|].
  destruct (untouched_env m1) as (T2 & D2 & L2).
  split; [congruence|]. split; [congruence|].
  exists k. split.
  - rewrite T5, T4, Ht, T3, T2, T1. reflexivity.
  - lia.
Qed.

(** What the echo loop ends in. *)
Lemma echo_wait_inv fuel start : forall m r m',
  echo_wait fuel start m = Some (r, m') ->
  untouched m m' /\ echo_outcome start m r m'.
Proof.
  induction fuel as [|fuel IH]; intros m r m' H; [discriminate|].
  cbn [echo_wait] in H. unfold bind at 1, monotonic at 1 in H.
  pose proof (untouched_env m) as U1.
  pose proof (takes_env m) as K1.
  destruct (flt (fsub (seconds (now (env_step m))) start) tenth) eqn:E.
  - unfold bind at 1, in_waiting at 1 in H.
    pose proof (untouched_env (env_step m)) as U2.
    pose proof (untouched_trans _ _ _ U1 U2) as U.
    destruct (rx (env_step (env_step m))) as [|b rest] eqn:R.
    + simpl in H. apply IH in H. destruct H as (U3 & O).
      split; [exact (untouched_trans _ _ _ U U3)|].
      pose proof (takes_nil_l K1 (takes_env (env_step m))) as K2.
      inversion O; subst.
      * eapply Echo_heard; [exact (takes_nil_l K2 H)|eassumption|eassumption].
      * eapply Echo_other; [exact (takes_nil_l K2 H)|eassumption|eassumption|assumption].
      * eapply Echo_silence; [exact (takes_nil_l K2 H)|assumption].
    + cbn [length Nat.ltb Nat.leb] in H.
      assert (Rd : uart_read 1 (env_step (env_step m))
                   = Some (Ok [b],
                           Machine rest (tx (env_step (env_step m)))
                                   (now (env_step (env_step m)))
                                   (sched (env_step (env_step m)))
                                   (device_name (env_step (env_step m)))
                                   (last_atqa (env_step (env_step m))))).
      { unfold uart_read. rewrite R. reflexivity. }
      unfold bind at 1 in H. rewrite Rd in H.
      cbn [item0] in H. rewrite bind_ret in H.
      destruct (Byte.eqb b CMD_ECHO) eqn:B; inv H.
      * split; [exact U|].
        apply Byte.byte_dec_bl in B. subst b.
        eapply Echo_heard; [exact K1|exact E|exact Rd].
      * split; [exact U|].
        eapply Echo_other; [exact K1|exact E|exact Rd|].
        intros ->. discriminate B.
  - inv H. split; [exact U1|]. eapply Echo_silence; [exact K1|exact E].
Qed.

(** What [echo_test] ends in. *)
Lemma echo_test_inv fuel m r m' :
  echo_test fuel m = Some (r, m') ->
  tx m' = tx m ++ [[CMD_ECHO]] /\
  device_name m' = device_name m /\ last_atqa m' = last_atqa m /\
  (r = Ok tt \/
   (exists b, b <> CMD_ECHO /\
      r = Raise (OSError ("Echo test failed: expected 0x55, got 0x" ++ hex02 b))) \/
   r = Raise (OSError "Echo test failed: no response from device")).
Proof.
  unfold echo_test. intros H.
  bind_step H as u m1 F H; [|apply flush_ok in F; discriminate].
  destruct (flush_untouched _ _ _ _ F) as (T1 & D1 & L1).
  unfold bind at 1, uart_write at 1 in H.
  unfold bind at 1, monotonic at 1 in H.
  apply echo_wait_inv in H. destruct H as (U & O).
  match type of U with untouched (env_step ?x) _ =>
    pose proof (untouched_env x) as U0; pose proof (untouched_trans _ _ _ U0 U) as (T & D & L)
  end.
  cbn [tx device_name last_atqa] in T, D, L.
  split; [rewrite T, T1; reflexivity|]. split; [congruence|]. split; [congruence|].
  inversion O; subst; eauto.
Qed.

(** X6: [echo_test] writes the single byte 0x55 into a drained buffer and
    nothing else, and takes at most one byte off the line: the first that
    comes.  It returns exactly when that byte is 0x55 and was seen at a
    poll following a clock reading less than [0.1] after the reading taken
    once the byte was written; with another byte seen in that way it raises
    an [OSError] naming the byte; and when a clock reading is no longer
    less than [0.1] after that first one, no byte having been taken, it
    raises the "no response" [OSError].  It raises nothing else. *)
Theorem echo_test_outcome fuel m r m' :
  echo_test fuel m = Some (r, m') ->
  exists ms,
    (_flush_rx fuel ;;; uart_write [CMD_ECHO]) m = Some (Ok tt, ms) /\
    rx ms = [] /\ tx ms = tx m ++ [[CMD_ECHO]] /\
    untouched ms m' /\
    device_name m' = device_name m /\ last_atqa m' = last_atqa m /\
    echo_outcome (reading (env_step ms)) (env_step ms) r m'.
Proof.
  intros H.
  destruct (echo_test_inv _ _ _ _ H) as (_ & Dn & La & _).
  unfold echo_test in H.
  bind_step H as u m1 F H; [|apply flush_ok in F; discriminate].
  destruct (flush_untouched _ _ _ _ F) as (T1 & D1 & L1).
  pose proof (flush_drains _ _ _ _ F) as R1.
  unfold bind at 1, uart_write at 1 in H.
  match type of H with bind monotonic _ ?x = _ => set (ms := x) in H end.
  assert (W : (_flush_rx fuel ;;; uart_write [CMD_ECHO]) m = Some (Ok tt, ms)).
  { destruct u. rewrite (bind_Ok _ F). reflexivity. }
  exists ms. split; [exact W|].
  split; [exact R1|]. split; [subst ms; cbn [tx]; rewrite T1; reflexivity|].
  unfold bind at 1, monotonic at 1 in H.
  apply echo_wait_inv in H. destruct H as (U & O).
  split; [exact (untouched_trans _ _ _ (untouched_env ms) U)|].
  split; [exact Dn|]. split; [exact La|exact O].
Qed.

Lemma echo_test_outcome_witness :
  exists m',
    echo_test 5 (boot [quiet; quiet; quiet; Tick 10 [xab]]) =
    Some (Raise (OSError "Echo test failed: expected 0x55, got 0xAB"), m') /\
    tx m' = [[x55]].
Proof.
  eassert (H : echo_test 5 (boot [quiet; quiet; quiet; Tick 10 [xab]]) = Some (_, _)) by run.
  destruct (echo_test_outcome _ _ _ _ H) as (ms & _ & _ & Tx & (U & _) & _).
  eexists. split; [exact H|]. rewrite U, Tx. reflexivity.
Defined.

(** ** Bring-up as a whole *)

Lemma try_except_inv A (c : M A) handles (h : exn -> M A) m r m' :
  try_except c handles h m = Some (r, m') ->
  (exists a, c m = Some (Ok a, m') /\ r = Ok a) \/
  (exists e, c m = Some (Raise e, m') /\ handles e = false /\ r = Raise e) \/
  (exists e m1, c m = Some (Raise e, m1) /\ handles e = true /\ h e m1 = Some (r, m')).
Proof.
  unfold try_except. destruct (c m) as [[[a|e] m1]|]; intros H.
  - inv H. left. eauto.
  - destruct (handles e) eqn:E.
    + right. right. eauto.
    + inv H. right. left. eauto.
  - discriminate.
Qed.

(** A receive whose [TimeoutError] is re-raised as [OSError]. *)
Lemma guarded_receive fuel T pre m r m' :
  try_except (_read_response fuel T) is_TimeoutError
    (fun e => raise (OSError (pre ++ str_exn e))) m = Some (r, m') ->
  untouched m m' /\
  ((exists cd, r = Ok cd) \/ (exists msg, r = Raise (OSError msg))).
Proof.
  intros H. apply try_except_inv in H.
  destruct H as [(a & R & ->)|[(e & R & E & ->)|(e & m1 & R & E & H)]].
  - split; [exact (read_response_untouched _ _ _ _ _ R)|]. left. eauto.
  - pose proof (read_response_outcome _ _ _ _ _ R) as O. inversion O; subst; discriminate E.
  - inv H. split; [exact (read_response_untouched _ _ _ _ _ R)|]. right. eauto.
Qed.

Lemma echo_phase_inv fuel m r m' :
  echo_phase fuel m = Some (r, m') ->
  tx m' = tx m ++ [[CMD_ECHO]] /\
  device_name m' = device_name m /\ last_atqa m' = last_atqa m /\
  (r = Ok tt \/
   exists e, echo_test fuel m = Some (Raise e, m') /\
     r = Raise (OSError ("CR95HF initialization failed: " ++ str_exn e))).
Proof.
  unfold echo_phase. intros H. apply try_except_inv in H.
  destruct H as [(a & R & ->)|[(e & R & E & ->)|(e & m1 & R & E & H)]].
  - destruct (echo_test_inv _ _ _ _ R) as (T & D & L & _). destruct a. auto.
  - destruct (echo_test_inv _ _ _ _ R) as (_ & _ & _ & [O|[(b & _ & O)|O]]);
      inv O; discriminate E.
  - inv H. destruct (echo_test_inv _ _ _ _ R) as (T & D & L & _).
    split; [exact T|]. split; [exact D|]. split; [exact L|]. right. eauto.
Qed.

Lemma identify_inv fuel mi r m' :
  identify fuel mi = Some (r, m') ->
  tx m' = tx mi ++ [[CMD_IDN; x00]] /\ last_atqa m' = last_atqa mi /\
  (r = Ok tt \/ exists msg, r = Raise (OSError msg)).
Proof.
  unfold identify. intros H.
  bind_step H as u ms S H.
  2:{ destruct (send_cmd_writes fuel CMD_IDN [] x00 mi _ _ eq_refl S) as (E & _).
      discriminate E. }
  destruct (send_cmd_writes fuel CMD_IDN [] x00 mi _ _ eq_refl S) as (_ & Tx & _ & La).
  bind_step H as cd m2 G H.
  - destruct (guarded_receive _ _ _ _ _ _ G) as ((T2 & _ & L2) & _).
    destruct cd as [code data].
    destruct (negb (Byte.eqb code RSP_SUCCESS) || negb (truthy data) || (length data <? 13)%nat).
    + inv H. split; [rewrite T2; exact Tx|]. split; [congruence|]. right. eauto.
    + unfold bind at 1, set_device_name at 1 in H. rewrite name_loop_spec in H. inv H.
      cbn [tx last_atqa]. split; [rewrite T2; exact Tx|]. split; [congruence|]. left. reflexivity.
  - subst r. destruct (guarded_receive _ _ _ _ _ _ G) as ((T2 & _ & L2) & [(x & E)|(msg & E)]);
      [discriminate E|].
    inv E.
    split; [rewrite T2; exact Tx|]. split; [congruence|]. right. eauto.
Qed.

Lemma select_protocol_inv fuel mi r m' :
  select_protocol fuel mi = Some (r, m') ->
  tx m' = tx mi ++ [[CMD_PROTOCOL; x02; PROTO_ISO14443A; x00]] /\
  last_atqa m' = last_atqa mi /\
  (r = Ok tt \/ exists msg, r = Raise (OSError msg)).
Proof.
  unfold select_protocol. intros H.
  bind_step H as u ms S H.
  2:{ destruct (send_cmd_writes fuel CMD_PROTOCOL [PROTO_ISO14443A; x00] x02 mi _ _ eq_refl S)
        as (E & _). discriminate E. }
  destruct (send_cmd_writes fuel CMD_PROTOCOL [PROTO_ISO14443A; x00] x02 mi _ _ eq_refl S)
    as (_ & Tx & _ & La).
  bind_step H as cd m2 G H.
  - destruct (guarded_receive _ _ _ _ _ _ G) as ((T2 & _ & L2) & _).
    destruct cd as [code data].
    destruct (negb (Byte.eqb code RSP_SUCCESS)); inv H;
      (split; [rewrite T2; exact Tx|]); (split; [congruence|]); [right; eauto|left; reflexivity].
  - subst r. destruct (guarded_receive _ _ _ _ _ _ G) as ((T2 & _ & L2) & [(x & E)|(msg & E)]);
      [discriminate E|].
    inv E.
    split; [rewrite T2; exact Tx|]. split; [congruence|]. right. eauto.
Qed.

(** X7: when the echo test fails, bring-up stops there: [_initialize]
    raises an [OSError] that carries the echo test's message, and the only
    frames written are the wake bursts and the echo byte; neither the
    identification command nor the protocol selection is sent. *)
Theorem echo_failure_stops_bring_up fuel wake_pulse_ms m m1 e m2 :
  wake_up fuel wake_pulse_ms m = Some (Ok tt, m1) ->
  echo_test fuel m1 = Some (Raise e, m2) ->
  _initialize fuel wake_pulse_ms m =
  Some (Raise (OSError ("CR95HF initialization failed: " ++ str_exn e)), m2) /\
  exists k, tx m2 = tx m ++ repeat wake_bytes k ++ [[CMD_ECHO]].
Proof.
  intros W E.
  destruct (wake_up_inv _ _ _ _ _ W) as (_ & _ & _ & k & Tx & _).
  destruct (echo_test_inv _ _ _ _ E) as (Tx2 & _ & _ & O).
  split.
  - unfold _initialize. rewrite (bind_Ok _ W).
    assert (P : echo_phase fuel m1 =
                Some (Raise (OSError ("CR95HF initialization failed: " ++ str_exn e)), m2)).
    { unfold echo_phase, try_except. rewrite E.
      destruct O as [O|[(b & _ & O)|O]]; inv O; reflexivity. }
    exact (bind_Raise _ P).
  - exists k. rewrite Tx2, Tx, <- app_assoc. reflexivity.
Qed.

Lemma echo_failure_stops_bring_up_witness :
  exists m',
    _initialize 5 100 wrong_echo_chip =
    Some (Raise (OSError
      "CR95HF initialization failed: Echo test failed: expected 0x55, got 0x00"), m') /\
    tx m' = [[CMD_ECHO]].
Proof.
  eassert (W : wake_up 5 100 wrong_echo_chip = Some (Ok tt, _)) by run.
  run_on W (echo_test 5) as E.
  destruct (echo_failure_stops_bring_up _ _ _ _ _ _ W E) as (R & _).
  eexists. split; [exact R|reflexivity].
Defined.

(** What [_initialize] ends in. *)
Lemma initialize_inv fuel wake_pulse_ms m r m' :
  _initialize fuel wake_pulse_ms m = Some (r, m') ->
  (r = Ok tt \/ exists msg, r = Raise (OSError msg)) /\
  last_atqa m' = last_atqa m /\
  exists k j,
    1 <= j <= 3 /\
    tx m' = tx m ++ repeat wake_bytes k ++
            firstn j [[CMD_ECHO]; [CMD_IDN; x00];
                      [CMD_PROTOCOL; x02; PROTO_ISO14443A; x00]] /\
    (r = Ok tt -> j = 3).
Proof.
  unfold _initialize. intros H.
  bind_step H as u m1 W H;
    [|destruct (wake_up_inv _ _ _ _ _ W) as (E & _); discriminate E].
  destruct (wake_up_inv _ _ _ _ _ W) as (_ & _ & L1 & k & T1 & _).
  bind_step H as u2 m2 E H.
  - destruct (echo_phase_inv _ _ _ _ E) as (T2 & _ & L2 & _).
    bind_step H as u3 m3 I H.
    + destruct (identify_inv _ _ _ _ I) as (T3 & L3 & _).
      destruct (select_protocol_inv _ _ _ _ H) as (T4 & L4 & O).
      split; [exact O|]. split; [congruence|].
      exists k, 3. split; [lia|]. split; [|reflexivity].
      rewrite T4, T3, T2, T1, <- !app_assoc. reflexivity.
    + subst r. destruct (identify_inv _ _ _ _ I) as (T3 & L3 & [O|O]); [discriminate O|].
      split; [right; exact O|]. split; [congruence|].
      exists k, 2. split; [lia|]. split; [|discriminate].
      rewrite T3, T2, T1, <- !app_assoc. reflexivity.
  - subst r. destruct (echo_phase_inv _ _ _ _ E) as (T2 & _ & L2 & [O|(e & _ & O)]);
      [discriminate O|].
    split; [right; eauto|]. split; [congruence|].
    exists k, 1. split; [lia|]. split; [|discriminate].
    rewrite T2, T1, <- !app_assoc. reflexivity.
Qed.

(** X8: [_initialize] either returns or raises an [OSError], nothing else
    (no [TimeoutError] reaches the caller).  It leaves [_last_atqa] alone.
    The frames it writes are wake bursts and then, in this order, the echo
    byte, the identification command [01 00] and the protocol selection
    [02 02 02 00], stopping at the first that fails; when it returns all
    three were written. *)
Theorem initialize_outcome fuel wake_pulse_ms m r m' :
  _initialize fuel wake_pulse_ms m = Some (r, m') ->
  (r = Ok tt \/ exists msg, r = Raise (OSError msg)) /\
  last_atqa m' = last_atqa m /\
  exists k j,
    1 <= j <= 3 /\
    tx m' = tx m ++ repeat wake_bytes k ++
            firstn j [[CMD_ECHO]; [CMD_IDN; x00];
                      [CMD_PROTOCOL; x02; PROTO_ISO14443A; x00]] /\
    (r = Ok tt -> j = 3).
Proof. exact (initialize_inv fuel wake_pulse_ms m r m'). Qed.

Lemma initialize_outcome_witness :
  exists m',
    _initialize 10 100 usual_chip = Some (Ok tt, m') /\
    tx m' = [[x55]; [x01; x00]; [x02; x02; x02; x00]].
Proof.
  eassert (H : _initialize 10 100 usual_chip = Some (_, _)) by run.
  destruct (initialize_outcome _ _ _ _ _ H) as (_ & _ & k & j & _).
  eexists. split; [exact H|reflexivity].
Defined.

Lemma init_inv fuel wake_pulse_ms m r m' :
  __init__ fuel wake_pulse_ms m = Some (r, m') ->
  (r = Ok tt \/ exists msg, r = Raise (OSError msg)) /\
  last_atqa m' = [x00; x00].
Proof.
  unfold __init__. intros H.
  unfold bind at 1, set_device_name at 1 in H. unfold bind at 1 in H.
  destruct (initialize_inv _ _ _ _ _ H) as (O & L & _). split; [exact O|exact L].
Qed.

(** X9: the constructor starts from fresh fields whatever they held: when
    [__init__] has run, returning or raising, [_last_atqa] is two null
    bytes; and it raises nothing but [OSError]. *)
Theorem init_outcome fuel wake_pulse_ms m r m' :
  __init__ fuel wake_pulse_ms m = Some (r, m') ->
  (r = Ok tt \/ exists msg, r = Raise (OSError msg)) /\
  last_atqa m' = [x00; x00].
Proof. exact (init_inv fuel wake_pulse_ms m r m'). Qed.

Lemma init_outcome_witness :
  exists m', __init__ 10 100 used_before = Some (Ok tt, m') /\ last_atqa m' = [x00; x00].
Proof.
  eassert (H : __init__ 10 100 used_before = Some (_, _)) by run.
  destruct (init_outcome _ _ _ _ _ H) as (_ & L).
  eexists. split; [exact H|exact L].
Defined.

(** ** Discovery: exceptions, the stored ATQA, error codes, frames *)

Lemma byte_eqb_neq (a b : byte) : a <> b -> Byte.eqb a b = false.
Proof.
  intros N. destruct (Byte.eqb a b) eqn:E; [|reflexivity].
  apply Byte.byte_dec_bl in E. contradiction.
Qed.

Lemma sendrecv_raise_inv fuel rf flags m e m' :
  length (rf ++ [flags]) <= 255 ->
  _sendrecv fuel rf flags m = Some (Raise e, m') ->
  exists msg, e = TimeoutError msg /\ timeout_message msg.
Proof.
  intros L H. unfold _sendrecv in H.
  destruct (Byte.of_nat (length (rf ++ [flags]))) as [len|] eqn:E;
    [|apply Byte.of_nat_None_iff in E; lia].
  bind_step H as u ms S H.
  - pose proof (read_response_outcome _ _ _ _ _ H) as O.
    inversion O; subst; eexists; (split; [reflexivity|]).
    + left. reflexivity.
    + right. left. reflexivity.
    + right. right. eexists. eexists. reflexivity.
  - destruct (send_cmd_writes _ _ _ _ _ _ _ E S) as (X & _). discriminate X.
Qed.

Lemma reqa_wupa_raise fuel cmd m e m' :
  _reqa_wupa fuel cmd m = Some (Raise e, m') ->
  exists msg, e = TimeoutError msg /\ timeout_message msg.
Proof.
  unfold _reqa_wupa. intros H. bind_step H as cd m1 S H.
  - destruct cd as [code data].
    destruct (Byte.eqb code RSP_DATA); destruct data as [|d0 [|d1 data]];
      simpl in H; discriminate H.
  - inv H. eapply sendrecv_raise_inv; [|exact S]. simpl; lia.
Qed.

Lemma anticoll_cl1_raise fuel m e m' :
  _anticoll_cl1 fuel m = Some (Raise e, m') ->
  exists msg, e = TimeoutError msg /\ timeout_message msg.
Proof.
  unfold _anticoll_cl1. intros H. bind_step H as cd m1 S H.
  - destruct cd as [code data].
    destruct (Byte.eqb code RSP_DATA && truthy data && (5 <=? length data)%nat);
      discriminate H.
  - inv H. eapply sendrecv_raise_inv; [|exact S]. simpl; lia.
Qed.

Lemma anticoll_cl2_raise fuel m e m' :
  _anticoll_cl2 fuel m = Some (Raise e, m') ->
  exists msg, e = TimeoutError msg /\ timeout_message msg.
Proof.
  unfold _anticoll_cl2. intros H. bind_step H as cd m1 S H.
  - destruct cd as [code data].
    destruct (Byte.eqb code RSP_DATA && truthy data && (5 <=? length data)%nat);
      discriminate H.
  - inv H. eapply sendrecv_raise_inv; [|exact S]. simpl; lia.
Qed.

Lemma select_cl1_raise fuel cl m e m' :
  length cl = 5 ->
  _select_cl1 fuel cl m = Some (Raise e, m') ->
  exists msg, e = TimeoutError msg /\ timeout_message msg.
Proof.
  unfold _select_cl1. intros L H. bind_step H as cd m1 S H.
  - destruct cd as [code data].
    destruct (Byte.eqb code RSP_DATA); destruct data as [|d0 data];
      simpl in H; discriminate H.
  - inv H. eapply sendrecv_raise_inv; [|exact S]. rewrite !length_app, L. simpl; lia.
Qed.

Lemma select_cl2_raise fuel cl m e m' :
  length cl = 5 ->
  _select_cl2 fuel cl m = Some (Raise e, m') ->
  exists msg, e = TimeoutError msg /\ timeout_message msg.
Proof.
  unfold _select_cl2. intros L H. bind_step H as cd m1 S H.
  - destruct cd as [code data].
    destruct (Byte.eqb code RSP_DATA); destruct data as [|d0 data];
      simpl in H; discriminate H.
  - inv H. eapply sendrecv_raise_inv; [|exact S]. rewrite !length_app, L. simpl; lia.
Qed.

Lemma discovery_raises_timeouts fuel m e m' :
  discovery fuel m (Raise e) m' ->
  exists msg, e = TimeoutError msg /\ timeout_message msg.
Proof.
  intros R. inversion R; subst.
  - eapply reqa_wupa_raise; eassumption.
  - eapply reqa_wupa_raise; eassumption.
  - eapply anticoll_cl1_raise; eassumption.
  - eapply select_cl1_raise; [|eassumption].
    match goal with H : cl1_found _ _ _ _ |- _ => apply (cl1_found_levels _ _ _ _ H) end.
  - eapply anticoll_cl2_raise; eassumption.
  - eapply select_cl2_raise; [|eassumption].
    match goal with H : cl2_found _ _ _ _ _ |- _ => apply (cl2_found_levels _ _ _ _ _ H) end.
Qed.

(** X10: [read_nfc_tag] raises only with a driver, and then what it raises
    is what [read_tag] raised, uncaught.  The only exceptions that come out
    of [read_tag] are the [TimeoutError]s of [_read_response], with one of
    its three messages: no indexing of a response, no store of a missing
    ATQA byte and no frame length ever fails. *)
Theorem read_nfc_tag_raises_only_timeouts nfc fuel m e m' :
  read_nfc_tag nfc fuel m = Some (Raise e, m') ->
  nfc = true /\ read_tag fuel m = Some (Raise e, m') /\
  exists msg, e = TimeoutError msg /\ timeout_message msg.
Proof.
  unfold read_nfc_tag. destruct nfc; simpl; intros R; [|discriminate R].
  split; [reflexivity|]. split; [exact R|].
  apply read_tag_discovery in R. exact (discovery_raises_timeouts _ _ _ _ R).
Qed.

Lemma read_nfc_tag_raises_only_timeouts_witness :
  exists e m',
    read_nfc_tag true 10 cascade_then_silence = Some (Raise e, m') /\
    e = TimeoutError "Timeout reading data (got 2/5 bytes)" /\
    exists msg, e = TimeoutError msg /\ timeout_message msg.
Proof.
  eassert (H : read_nfc_tag true 10 cascade_then_silence = Some (Raise _, _)) by run.
  eexists. eexists. split; [exact H|]. split; [reflexivity|].
  exact (proj2 (proj2 (read_nfc_tag_raises_only_timeouts _ _ _ _ _ H))).
Defined.

Lemma list_set_length l : forall i b, length (list_set l i b) = length l.
Proof.
  induction l as [|x l IH]; intros [|i] b; simpl; auto.
Qed.

Lemma stored_pair a1 a2 l : length l = 2 -> stored a1 a2 l = [a1; a2].
Proof.
  destruct l as [|x [|y [|z l]]]; simpl; intros H; try discriminate. reflexivity.
Qed.

Lemma atqa_obtained_keeps_atqa fuel m a1 a2 m1 :
  atqa_obtained fuel m a1 a2 m1 -> last_atqa m1 = last_atqa m.
Proof.
  intros [W|(m0 & W & Q)].
  - apply reqa_wupa_writes in W. apply W.
  - apply reqa_wupa_writes in W. apply reqa_wupa_writes in Q.
    destruct W as (_ & _ & W). destruct Q as (_ & _ & Q). congruence.
Qed.

Lemma cl1_found_atqa fuel m cl1 m2 :
  cl1_found fuel m cl1 m2 ->
  exists a1 a2 m1,
    atqa_obtained fuel m a1 a2 m1 /\ last_atqa m2 = stored a1 a2 (last_atqa m).
Proof.
  intros (a1 & a2 & m1 & A & C). exists a1, a2, m1. split; [exact A|].
  apply anticoll_cl1_writes in C. destruct C as (_ & _ & C). rewrite C.
  unfold with_atqa, stored. cbn [last_atqa].
  rewrite (atqa_obtained_keeps_atqa _ _ _ _ _ A). reflexivity.
Qed.

Lemma cl1_selected_atqa fuel m cl1 sak1 m3 :
  cl1_selected fuel m cl1 sak1 m3 ->
  exists a1 a2 m1,
    atqa_obtained fuel m a1 a2 m1 /\ last_atqa m3 = stored a1 a2 (last_atqa m).
Proof.
  intros (m2 & F & S).
  destruct (cl1_found_levels _ _ _ _ F) as (L & _).
  destruct (cl1_found_atqa _ _ _ _ F) as (a1 & a2 & m1 & A & E).
  exists a1, a2, m1. split; [exact A|].
  apply select_cl1_writes in S; [|exact L]. destruct S as (_ & _ & S). congruence.
Qed.

Lemma cl2_found_atqa fuel m cl1 cl2 m4 :
  cl2_found fuel m cl1 cl2 m4 ->
  exists a1 a2 m1,
    atqa_obtained fuel m a1 a2 m1 /\ last_atqa m4 = stored a1 a2 (last_atqa m).
Proof.
  intros (sak1 & m3 & S & _ & C).
  destruct (cl1_selected_atqa _ _ _ _ _ S) as (a1 & a2 & m1 & A & E).
  exists a1, a2, m1. split; [exact A|].
  apply anticoll_cl2_writes in C. destruct C as (_ & _ & C). congruence.
Qed.

Lemma no_atqa_after_raise fuel m e m1 :
  _reqa_wupa fuel ISO14443A_WUPA m = Some (Raise e, m1) ->
  forall a1 a2 m', ~ atqa_obtained fuel m a1 a2 m'.
Proof. intros W a1 a2 m' [A|(m0 & A & _)]; congruence. Qed.

Lemma no_atqa_after_both fuel m m0 q m1 :
  _reqa_wupa fuel ISO14443A_WUPA m = Some (Ok (None, None), m0) ->
  _reqa_wupa fuel ISO14443A_REQA m0 = Some (q, m1) ->
  (forall x y, q <> Ok (Some x, Some y)) ->
  forall a1 a2 m', ~ atqa_obtained fuel m a1 a2 m'.
Proof.
  intros W Q N a1 a2 m' [A|(m0' & A & B)]; [congruence|].
  assert (m0' = m0) by congruence. subst. rewrite Q in B. inv B.
  exact (N a1 a2 eq_refl).
Qed.

Lemma read_tag_atqa_inv fuel m r m' :
  read_tag fuel m = Some (r, m') ->
  length (last_atqa m') = length (last_atqa m) /\
  ((exists a1 a2 m1,
      atqa_obtained fuel m a1 a2 m1 /\
      last_atqa m' = stored a1 a2 (last_atqa m) /\
      (length (last_atqa m) = 2 -> last_atqa m' = [a1; a2])) \/
   ((forall a1 a2 m1, ~ atqa_obtained fuel m a1 a2 m1) /\
    last_atqa m' = last_atqa m /\
    (r = Ok (None, None) \/ exists e, r = Raise e))).
Proof.
  intros R. apply read_tag_discovery in R.
  assert (K : forall a1 a2 m1,
             atqa_obtained fuel m a1 a2 m1 ->
             last_atqa m' = stored a1 a2 (last_atqa m) ->
             length (last_atqa m') = length (last_atqa m) /\
             ((exists a1 a2 m1,
                 atqa_obtained fuel m a1 a2 m1 /\
                 last_atqa m' = stored a1 a2 (last_atqa m) /\
                 (length (last_atqa m) = 2 -> last_atqa m' = [a1; a2])) \/
              ((forall a1 a2 m1, ~ atqa_obtained fuel m a1 a2 m1) /\
               last_atqa m' = last_atqa m /\
               (r = Ok (None, None) \/ exists e, r = Raise e)))).
  { intros a1 a2 m1 A E. split.
    - rewrite E. unfold stored. rewrite !list_set_length. reflexivity.
    - left. exists a1, a2, m1. split; [exact A|]. split; [exact E|].
      intros L. rewrite E. exact (stored_pair _ _ _ L). }
  destruct R.
  - pose proof (reqa_wupa_writes _ _ _ _ _ H) as (_ & _ & L).
    split; [rewrite L; reflexivity|]. right.
    split; [exact (no_atqa_after_raise _ _ _ _ H)|]. split; [exact L|]. right. eauto.
  - pose proof (reqa_wupa_writes _ _ _ _ _ H) as (_ & _ & L).
    pose proof (reqa_wupa_writes _ _ _ _ _ H0) as (_ & _ & L0).
    split; [congruence|]. right.
    split; [apply (no_atqa_after_both _ _ _ _ _ H H0); discriminate|].
    split; [congruence|]. right. eauto.
  - pose proof (reqa_wupa_writes _ _ _ _ _ H) as (_ & _ & L).
    pose proof (reqa_wupa_writes _ _ _ _ _ H0) as (_ & _ & L0).
    split; [congruence|]. right.
    split; [apply (no_atqa_after_both _ _ _ _ _ H H0); discriminate|].
    split; [congruence|]. left. reflexivity.
  - apply (K a1 a2 m1 H).
    apply anticoll_cl1_writes in H0. destruct H0 as (_ & _ & C). rewrite C.
    unfold with_atqa, stored. cbn [last_atqa].
    rewrite (atqa_obtained_keeps_atqa _ _ _ _ _ H). reflexivity.
  - apply (K a1 a2 m1 H).
    apply anticoll_cl1_writes in H0. destruct H0 as (_ & _ & C). rewrite C.
    unfold with_atqa, stored. cbn [last_atqa].
    rewrite (atqa_obtained_keeps_atqa _ _ _ _ _ H). reflexivity.
  - destruct (cl1_found_levels _ _ _ _ H) as (L & _).
    destruct (cl1_found_atqa _ _ _ _ H) as (a1 & a2 & m1 & A & E).
    apply (K a1 a2 m1 A).
    apply select_cl1_writes in H0; [|exact L]. destruct H0 as (_ & _ & S). congruence.
  - destruct (cl1_found_levels _ _ _ _ H) as (L & _).
    destruct (cl1_found_atqa _ _ _ _ H) as (a1 & a2 & m1 & A & E).
    apply (K a1 a2 m1 A).
    apply select_cl1_writes in H0; [|exact L]. destruct H0 as (_ & _ & S). congruence.
  - destruct (cl1_selected_atqa _ _ _ _ _ H) as (a1 & a2 & m1 & A & E).
    exact (K a1 a2 m1 A E).
  - destruct (cl1_selected_atqa _ _ _ _ _ H) as (a1 & a2 & m1 & A & E).
    apply (K a1 a2 m1 A).
    apply anticoll_cl2_writes in H1. destruct H1 as (_ & _ & S). congruence.
  - destruct (cl1_selected_atqa _ _ _ _ _ H) as (a1 & a2 & m1 & A & E).
    apply (K a1 a2 m1 A).
    apply anticoll_cl2_writes in H1. destruct H1 as (_ & _ & S). congruence.
  - destruct (cl2_found_levels _ _ _ _ _ H) as (L & _).
    destruct (cl2_found_atqa _ _ _ _ _ H) as (a1 & a2 & m1 & A & E).
    apply (K a1 a2 m1 A).
    apply select_cl2_writes in H0; [|exact L]. destruct H0 as (_ & _ & S). congruence.
  - destruct (cl2_found_levels _ _ _ _ _ H) as (L & _).
    destruct (cl2_found_atqa _ _ _ _ _ H) as (a1 & a2 & m1 & A & E).
    apply (K a1 a2 m1 A).
    apply select_cl2_writes in H0; [|exact L]. destruct H0 as (_ & _ & S). congruence.
  - destruct (cl2_found_levels _ _ _ _ _ H) as (L & _).
    destruct (cl2_found_atqa _ _ _ _ _ H) as (a1 & a2 & m1 & A & E).
    apply (K a1 a2 m1 A).
    apply select_cl2_writes in H0; [|exact L]. destruct H0 as (_ & _ & S). congruence.
Qed.

(** X11: [read_tag] changes [_last_atqa] exactly when an ATQA was
    obtained: then the two ATQA bytes are stored and stay there whatever
    happens later in the attempt (also when it ends in "no tag" or in an
    exception); otherwise the field keeps its bytes.  Its length never
    changes. *)
Theorem read_tag_last_atqa fuel m r m' :
  read_tag fuel m = Some (r, m') ->
  length (last_atqa m') = length (last_atqa m) /\
  ((exists a1 a2 m1,
      atqa_obtained fuel m a1 a2 m1 /\
      last_atqa m' = stored a1 a2 (last_atqa m) /\
      (length (last_atqa m) = 2 -> last_atqa m' = [a1; a2])) \/
   ((forall a1 a2 m1, ~ atqa_obtained fuel m a1 a2 m1) /\
    last_atqa m' = last_atqa m /\
    (r = Ok (None, None) \/ exists e, r = Raise e))).
Proof. exact (read_tag_atqa_inv fuel m r m'). Qed.

Lemma read_tag_last_atqa_witness :
  exists m',
    read_tag 10 cascade_tag_lost = Some (Ok (None, None), m') /\
    last_atqa m' = [x44; x00] /\
    length (last_atqa m') = length (last_atqa cascade_tag_lost).
Proof.
  eassert (H : read_tag 10 cascade_tag_lost = Some (_, _)) by run.
  eexists. split; [exact H|]. split; [reflexivity|].
  exact (proj1 (read_tag_last_atqa _ _ _ _ H)).
Defined.

Lemma unusable_guard code data b :
  code <> RSP_DATA \/ data = [] ->
  Byte.eqb code RSP_DATA && truthy data && b = false.
Proof.
  intros [N|E].
  - rewrite (byte_eqb_neq _ _ N). reflexivity.
  - subst. destruct (Byte.eqb code RSP_DATA); reflexivity.
Qed.

Lemma reqa_wupa_unusable fuel cmd m code data m' :
  _sendrecv fuel [cmd] FLAG_SHORTFRAME m = Some (Ok (code, data), m') ->
  code <> RSP_DATA \/ data = [] ->
  _reqa_wupa fuel cmd m = Some (Ok (None, None), m').
Proof.
  intros S U. unfold _reqa_wupa. rewrite (bind_Ok _ S). cbv beta iota.
  rewrite (unusable_guard _ _ _ U). reflexivity.
Qed.

Lemma anticoll_cl1_unusable fuel m code data m' :
  _sendrecv fuel [ISO14443A_SEL_CL1; ISO14443A_NVB_ANTICOLL] FLAG_STD m
  = Some (Ok (code, data), m') ->
  code <> RSP_DATA \/ data = [] ->
  _anticoll_cl1 fuel m = Some (Ok None, m').
Proof.
  intros S U. unfold _anticoll_cl1. cbv zeta. rewrite (bind_Ok _ S). cbv beta iota.
  rewrite (unusable_guard _ _ _ U). reflexivity.
Qed.

Lemma anticoll_cl2_unusable fuel m code data m' :
  _sendrecv fuel [ISO14443A_SEL_CL2; ISO14443A_NVB_ANTICOLL] FLAG_STD m
  = Some (Ok (code, data), m') ->
  code <> RSP_DATA \/ data = [] ->
  _anticoll_cl2 fuel m = Some (Ok None, m').
Proof.
  intros S U. unfold _anticoll_cl2. cbv zeta. rewrite (bind_Ok _ S). cbv beta iota.
  rewrite (unusable_guard _ _ _ U). reflexivity.
Qed.

Lemma select_cl1_unusable fuel cl m code data m' :
  _sendrecv fuel ([ISO14443A_SEL_CL1; ISO14443A_NVB_SELECT] ++ cl) FLAG_STD_CRC m
  = Some (Ok (code, data), m') ->
  code <> RSP_DATA \/ data = [] ->
  _select_cl1 fuel cl m = Some (Ok None, m').
Proof.
  intros S U. unfold _select_cl1. cbv zeta. rewrite (bind_Ok _ S). cbv beta iota.
  rewrite (unusable_guard _ _ _ U). reflexivity.
Qed.

Lemma select_cl2_unusable fuel cl m code data m' :
  _sendrecv fuel ([ISO14443A_SEL_CL2; ISO14443A_NVB_SELECT] ++ cl) FLAG_STD_CRC m
  = Some (Ok (code, data), m') ->
  code <> RSP_DATA \/ data = [] ->
  _select_cl2 fuel cl m = Some (Ok None, m').
Proof.
  intros S U. unfold _select_cl2. cbv zeta. rewrite (bind_Ok _ S). cbv beta iota.
  rewrite (unusable_guard _ _ _ U). reflexivity.
Qed.

(** X12: a response that is not a data frame (result code other than 0x80)
    or that has no payload, received in any exchange of [read_tag] after
    the WUPA one, ends the attempt at once with "no tag": [read_tag]
    returns [(None, None)] in the machine that exchange left, whatever
    stage had been reached. *)
Theorem unusable_response_is_no_tag fuel m rf flags mi code data m' :
  exchange fuel m rf flags mi ->
  rf <> [ISO14443A_WUPA] ->
  _sendrecv fuel rf flags mi = Some (Ok (code, data), m') ->
  code <> RSP_DATA \/ data = [] ->
  read_tag fuel m = Some (Ok (None, None), m').
Proof.
  intros X N S U. apply discovery_read_tag. destruct X.
  - contradiction N. reflexivity.
  - eapply No_atqa; [eassumption|]. exact (reqa_wupa_unusable _ _ _ _ _ _ S U).
  - eapply Anticoll1_fails; [eassumption|]. exact (anticoll_cl1_unusable _ _ _ _ _ S U).
  - eapply Select1_fails; [eassumption|]. exact (select_cl1_unusable _ _ _ _ _ _ S U).
  - eapply Anticoll2_fails; [eassumption|assumption|].
    exact (anticoll_cl2_unusable _ _ _ _ _ S U).
  - eapply Select2_fails; [eassumption|]. exact (select_cl2_unusable _ _ _ _ _ _ S U).
Qed.

Lemma unusable_response_is_no_tag_witness :
  exists m', read_tag 10 no_tag_line = Some (Ok (None, None), m') /\ rx m' = [].
Proof.
  eassert (W : _reqa_wupa 10 ISO14443A_WUPA no_tag_line = Some (Ok (None, None), _)) by run.
  run_on W (_sendrecv 10 [ISO14443A_REQA] FLAG_SHORTFRAME) as S.
  eexists. split.
  - refine (unusable_response_is_no_tag 10 no_tag_line _ _ _ _ _ _
              (X_reqa 10 no_tag_line _ W) _ S _).
    + discriminate.
    + left. discriminate.
  - reflexivity.
Defined.

(** The frames of a run that found a tag. *)
Lemma discovery_success_frames fuel m r m' :
  discovery fuel m r m' ->
  match r with
  | Ok (Some uid, _) =>
      exists wake cl1,
        (wake = [short_frame ISO14443A_WUPA] \/
         wake = [short_frame ISO14443A_WUPA; short_frame ISO14443A_REQA]) /\
        length cl1 = 5 /\
        ((hd_error cl1 <> Some ISO14443A_CT /\ uid = firstn 4 cl1 /\
          tx m' = tx m ++ wake ++ [anticoll_frame ISO14443A_SEL_CL1;
                                   select_frame ISO14443A_SEL_CL1 cl1]) \/
         (exists cl2,
            hd_error cl1 = Some ISO14443A_CT /\ length cl2 = 5 /\
            uid = firstn 3 (skipn 1 cl1) ++ firstn 4 cl2 /\
            tx m' = tx m ++ wake ++ [anticoll_frame ISO14443A_SEL_CL1;
                                     select_frame ISO14443A_SEL_CL1 cl1;
                                     anticoll_frame ISO14443A_SEL_CL2;
                                     select_frame ISO14443A_SEL_CL2 cl2]))
  | _ => True
  end.
Proof.
  intros D. destruct D; try exact I.
  - destruct (cl1_selected_sent _ _ _ _ _ H) as (wake & Hw & T).
    destruct (cl1_selected_levels _ _ _ _ _ H) as (L & _).
    exists wake, cl1. split; [exact Hw|]. split; [exact L|]. left. auto.
  - destruct (cl2_found_levels _ _ _ _ _ H) as (L2 & _).
    destruct H as (sak1 & m3 & S & CT & A2).
    destruct (cl1_selected_sent _ _ _ _ _ S) as (wake & Hw & T).
    destruct (cl1_selected_levels _ _ _ _ _ S) as (L & _).
    apply anticoll_cl2_writes in A2. destruct A2 as (A2 & _).
    apply select_cl2_writes in H0; [|exact L2]. destruct H0 as (S2 & _).
    exists wake, cl1. split; [exact Hw|]. split; [exact L|]. right.
    exists cl2. split; [exact CT|]. split; [exact L2|]. split; [reflexivity|].
    rewrite S2, A2, T, <- !app_assoc. reflexivity.
Qed.

(** X13: the frames written by a run of [read_tag] that returns a UID: the
    WUPA request (and the REQA request if WUPA got no ATQA), the level-1
    anticollision, and the level-1 select carrying back the five bytes
    [cl1] of the anticollision answer; for a 4-byte UID nothing more, for a
    7-byte UID the level-2 anticollision and the level-2 select carrying
    the five bytes [cl2].  The UID is cut from [cl1] (and [cl2]), so every
    UID byte was sent back to the tag in a select frame. *)
Theorem read_tag_success_frames fuel m uid sak m' :
  read_tag fuel m = Some (Ok (Some uid, sak), m') ->
  exists wake cl1,
    (wake = [short_frame ISO14443A_WUPA] \/
     wake = [short_frame ISO14443A_WUPA; short_frame ISO14443A_REQA]) /\
    length cl1 = 5 /\
    ((hd_error cl1 <> Some ISO14443A_CT /\ uid = firstn 4 cl1 /\
      tx m' = tx m ++ wake ++ [anticoll_frame ISO14443A_SEL_CL1;
                               select_frame ISO14443A_SEL_CL1 cl1]) \/
     (exists cl2,
        hd_error cl1 = Some ISO14443A_CT /\ length cl2 = 5 /\
        uid = firstn 3 (skipn 1 cl1) ++ firstn 4 cl2 /\
        tx m' = tx m ++ wake ++ [anticoll_frame ISO14443A_SEL_CL1;
                                 select_frame ISO14443A_SEL_CL1 cl1;
                                 anticoll_frame ISO14443A_SEL_CL2;
                                 select_frame ISO14443A_SEL_CL2 cl2])).
Proof.
  intros R. apply read_tag_discovery in R.
  exact (discovery_success_frames _ _ _ _ R).
Qed.

Lemma read_tag_success_frames_witness :
  exists m',
    read_tag 10 (cascade_tag x04) =
    Some (Ok (Some [x11; x22; x33; x44; x55; x66; x77], Some x00), m') /\
    tx m' = [ [x04; x02; x52; x07];
              [x04; x03; x93; x20; x08];
              [x04; x08; x93; x70; x88; x11; x22; x33; xaa; x28];
              [x04; x03; x95; x20; x08];
              [x04; x08; x95; x70; x44; x55; x66; x77; xbb; x28] ].
Proof.
  eassert (H : read_tag 10 (cascade_tag x04) = Some (Ok (Some _, _), _)) by run.
  pose proof (read_tag_success_frames _ _ _ _ _ H) as F.
  eexists. split; [exact H|reflexivity].
Defined.

(** X14: [_read_response] only reads.  Whatever it returns or raises, it
    has written nothing to the UART and has left the device name and the
    stored ATQA alone, the clock has not gone back, and the bytes it took
    are a prefix of what was buffered and what arrived, the rest still
    being in the buffer in order. *)
Theorem read_response_only_reads fuel timeout_ms m r m' :
  _read_response fuel timeout_ms m = Some (r, m') ->
  untouched m m' /\ (now m <= now m')%Z /\ exists bs, takes m bs m'.
Proof.
  intros H. split; [exact (read_response_untouched _ _ _ _ _ H)|]. split.
  - revert H. apply (frame_read_response (fun a b => (now a <= now b)%Z)).
    + intros; lia.
    + intros; lia.
    + apply now_env.
    + intros; simpl; lia.
  - revert H. apply (frame_read_response (fun a b => exists bs, takes a bs b)).
    + intros m0. exists []. apply takes_refl.
    + intros m1 m2 m3 (a & A) (b & B). exists (a ++ b). exact (takes_trans A B).
    + intros m0. exists []. apply takes_env.
    + intros n m0. eexists. apply takes_read.
Qed.

Lemma read_response_only_reads_witness :
  exists r m',
    _read_response 10 50 short_payload_line = Some (r, m') /\
    untouched short_payload_line m' /\ (now short_payload_line <= now m')%Z /\
    exists bs, takes short_payload_line bs m'.
Proof.
  eassert (H : _read_response 10 50 short_payload_line = Some (_, _)) by run.
  eexists. eexists. split; [exact H|].
  exact (read_response_only_reads _ _ _ _ _ H).
Defined.

(** ** Card types *)

Lemma dict_get_default d key default :
  ~ In key (map fst d) -> dict_get d key default = default.
Proof.
  induction d as [|[k v] d IH]; simpl; intros N; [reflexivity|].
  destruct (Byte.eqb k key) eqn:E.
  - apply Byte.byte_dec_bl in E. exfalso. apply N. left. exact E.
  - apply IH. intros I. apply N. right. exact I.
Qed.

Lemma dict_get_entry d key v default :
  NoDup (map fst d) -> In (key, v) d -> dict_get d key default = v.
Proof.
  induction d as [|[k w] d IH]; simpl; intros ND I; [contradiction|].
  inversion ND as [|? ? NI ND']; subst.
  destruct I as [I|I].
  - inv I. rewrite (Byte.byte_dec_lb (x:=key) (y:=key) eq_refl). reflexivity.
  - destruct (Byte.eqb k key) eqn:E.
    + apply Byte.byte_dec_bl in E. subst k. exfalso. apply NI.
      exact (in_map fst _ _ I).
    + exact (IH ND' I).
Qed.

Lemma card_types_keys : NoDup (map fst card_types).
Proof.
  simpl. repeat (constructor; [simpl; intuition discriminate|]). constructor.
Qed.

(** X15: the table of [card_type].  No two entries of the dict literal
    have the same key, so every listed SAK value is described by the text
    written next to it; every other value is described as
    "Unknown (SAK=0xNN)" with the value in two upper-case hex digits. *)
Theorem card_type_table sak :
  (forall label, In (sak, label) card_types -> card_type sak = label) /\
  (~ In sak (map fst card_types) ->
   card_type sak = ("Unknown (SAK=0x" ++ hex02 sak ++ ")")%string).
Proof.
  split.
  - intros label I. unfold card_type. exact (dict_get_entry _ _ _ _ card_types_keys I).
  - intros N. unfold card_type. exact (dict_get_default _ _ _ N).
Qed.

Lemma card_type_table_witness :
  card_type x08 = "MIFARE Classic 1K"%string /\
  card_type x0a = "Unknown (SAK=0x0A)"%string.
Proof.
  split.
  - apply (proj1 (card_type_table x08)). simpl. auto.
  - apply (proj2 (card_type_table x0a)). simpl. intuition discriminate.
Defined.

Lemma labels_checked_true : labels_checked = true.
Proof. vm_compute. reflexivity. Qed.

Lemma label_taken_true : forallb label_taken (seq 0 256) = true.
Proof. vm_compute. reflexivity. Qed.

Lemma byte_in_range (b : byte) : In (Byte.to_nat b) (seq 0 256).
Proof. apply in_seq. pose proof (Byte.to_nat_bounded b). lia. Qed.

Lemma card_type_injective a b : card_type a = card_type b -> a = b.
Proof.
  intros E. pose proof labels_checked_true as C. unfold labels_checked in C.
  rewrite forallb_forall in C. specialize (C _ (byte_in_range a)).
  rewrite forallb_forall in C. specialize (C _ (byte_in_range b)).
  unfold labels_differ in C. rewrite !Byte.of_to_nat in C.
  rewrite E, String.eqb_refl in C. simpl in C.
  apply Byte.byte_dec_bl. exact C.
Qed.

Lemma card_type_initialized a : card_type a <> "NFC not initialized"%string.
Proof.
  intros E. pose proof label_taken_true as C.
  rewrite forallb_forall in C. specialize (C _ (byte_in_range a)).
  unfold label_taken in C. rewrite Byte.of_to_nat in C.
  rewrite E in C. discriminate C.
Qed.

(** X16: the description returned by [get_card_type] tells the SAK value:
    two calls that return the same text were both made without a driver,
    or both with one and for the same SAK value.  In particular
    [card_type] gives different texts for different SAK values, unknown
    ones included, and never the text "NFC not initialized". *)
Theorem get_card_type_identifies nfc1 sak1 nfc2 sak2 :
  get_card_type nfc1 sak1 = get_card_type nfc2 sak2 ->
  nfc1 = nfc2 /\ (nfc1 = true -> sak1 = sak2).
Proof.
  unfold get_card_type. destruct nfc1, nfc2; simpl; intros E.
  - split; [reflexivity|]. intros _. exact (card_type_injective _ _ E).
  - exfalso. exact (card_type_initialized _ E).
  - exfalso. symmetry in E. exact (card_type_initialized _ E).
  - split; [reflexivity|]. discriminate.
Qed.

Lemma get_card_type_identifies_witness :
  true = true /\ (true = true -> x18 = x18).
Proof.
  apply (get_card_type_identifies true x18 true x18). reflexivity.
Defined.

(** ** The driver over its lifetime *)

Lemma field_off_keeps_atqa fuel m r m' :
  field_off fuel m = Some (r, m') -> last_atqa m' = last_atqa m.
Proof.
  unfold field_off. intros H.
  bind_step H as u ms S H.
  - destruct (send_cmd_writes fuel CMD_PROTOCOL [PROTO_OFF; x00] x02 m _ _ eq_refl S)
      as (_ & _ & _ & La).
    rewrite <- La.
    apply bind_stateless_tail in H; [|intros cd; stateless].
    destruct H as (r0 & H). apply (read_response_untouched _ _ _ _ _ H).
  - destruct (send_cmd_writes fuel CMD_PROTOCOL [PROTO_OFF; x00] x02 m _ _ eq_refl S)
      as (E & _). discriminate E.
Qed.

Lemma call_keeps_atqa_length m m' :
  call m m' -> length (last_atqa m') = length (last_atqa m).
Proof.
  intros [fuel r R|fuel r F].
  - exact (proj1 (read_tag_atqa_inv _ _ _ _ R)).
  - rewrite (field_off_keeps_atqa _ _ _ _ F). reflexivity.
Qed.

(** X17: from construction on, [_last_atqa] holds exactly two bytes:
    after [__init__] and any number of calls of [read_tag] and [field_off],
    returning or raising, the property [last_atqa] gives two bytes.  So the
    stores [self._last_atqa[0]] and [self._last_atqa[1]] of [read_tag]
    are always within the bytearray. *)
Theorem last_atqa_two_bytes fuel wake_pulse_ms m0 m m' :
  __init__ fuel wake_pulse_ms m0 = Some (Ok tt, m) ->
  used m m' ->
  exists a1 a2, get_last_atqa m' = Some (Ok [a1; a2], m').
Proof.
  intros I U.
  assert (L : length (last_atqa m') = 2).
  { induction U as [|m1 m2 U IH C].
    - rewrite (proj2 (init_inv _ _ _ _ _ I)). reflexivity.
    - rewrite (call_keeps_atqa_length _ _ C). exact IH. }
  unfold get_last_atqa.
  destruct (last_atqa m') as [|a1 [|a2 [|a3 l]]]; try discriminate L.
  exists a1, a2. reflexivity.
Qed.

Lemma last_atqa_two_bytes_witness :
  exists m m',
    __init__ 10 100 chip_with_tag = Some (Ok tt, m) /\
    used m m' /\
    get_last_atqa m' = Some (Ok [x04; x00], m').
Proof.
  eassert (I : __init__ 10 100 chip_with_tag = Some (Ok tt, _)) by run.
  run_on I (read_tag 10) as R.
  run_on R (field_off 10) as F.
  pose proof (Used_call _ _ _ (Used_call _ _ _ (Used_new _) (Call_read_tag _ _ _ _ R))
                        (Call_field_off _ _ _ _ F)) as U.
  destruct (last_atqa_two_bytes _ _ _ _ _ I U) as (a1 & a2 & G).
  eexists. eexists. split; [exact I|]. split; [exact U|]. reflexivity.
Defined.
